(** * ContextFreeGrammars: lockable grammar objects and the tree transformer

    A shallow embedding of [source/grammar/lockable_type.py] and
    [source/grammar/tree_transformer.py].

    Python objects live in a store (a finite map from object identities to
    a class name and an instance dictionary); methods are functions in a
    state-and-exception monad, so that what an exception leaves behind in
    the store is part of the model. *)

From Stdlib Require Import ZArith Lia String Ascii List Bool.
From stdpp Require Import base tactics option list gmap sets strings fin_sets.

#[local] Set Warnings "-register-all".
Local Open Scope string_scope.
Local Open Scope Z_scope.

(** ** Values *)

(** Identity of an object in the store. *)
Definition oid := nat.

(** The two per-class rules every lockable class provides. *)
Inductive method := M_str | M_len.

(** The two functions [lock()] creates: [lambda : self.str] and
    [lambda : self.len]. *)
Inductive closure := L_str | L_len.

(** The values an attribute or a child of a tree node can hold.  A bound
    method remembers the object it is bound to; a closure remembers the
    [self] it captured. *)
Inductive value :=
| VNone
| VBool (b : bool)
| VInt (n : Z)
| VStr (s : string)
| VList (l : list value)
| VTree (data : string) (children : list value)
| VRef (o : oid)
| VMethod (m : method) (self : oid)
| VClosure (c : closure) (self : oid).

Record pyobject := PyObject {
  ocls : string;                (* name of the object's class *)
  odict : gmap string value     (* the instance dictionary, [__dict__] *)
}.

Record state := State {
  heap : gmap oid pyobject;
  last_token : Z                (* the counter behind [get_unique_hash] *)
}.

Inductive exn :=
| AttributeError
| TypeError
| ValueError
| OverflowError
| IndexError
| RecursionError
| ReferenceError.

Inductive res (A : Type) :=
| Ok (a : A)
| Raise (e : exn).
Arguments Ok {A} a.
Arguments Raise {A} e.

(** ** The monad: a computation returns a value or raises, and in both
    cases hands back the store as it left it. *)

Definition M (A : Type) : Type := state → res A * state.

Definition ret {A} (a : A) : M A := λ st, (Ok a, st).
Definition raise {A} (e : exn) : M A := λ st, (Raise e, st).
Definition bind {A B} (m : M A) (k : A → M B) : M B :=
  λ st, match m st with
        | (Ok a, st') => k a st'
        | (Raise e, st') => (Raise e, st')
        end.
Definition lift {A} (r : res A) : M A := λ st, (r, st).
Definition get_heap : M (gmap oid pyobject) := λ st, (Ok (heap st), st).

#[global] Instance M_ret : MRet M := @ret.
#[global] Instance M_bind : MBind M := λ A B k m, bind m k.

(** ** Python built-ins the classes rely on *)

(** Strings are kept as their UTF-8 bytes; [len] of a [str] counts code
    points, that is the bytes that are not continuation bytes. *)
Definition is_continuation (c : ascii) : bool :=
  let n := N_of_ascii c in (128 <=? n)%N && (n <? 192)%N.

Fixpoint str_len (s : string) : Z :=
  match s with
  | EmptyString => 0
  | String c s' => (if is_continuation c then 0 else 1) + str_len s'
  end.

(** [sys.maxsize] of a 64-bit build. *)
Definition maxsize : Z := 2 ^ 63 - 1.

(** What [len()] does with the result of [__len__]. *)
Definition check_len (v : value) : res Z :=
  match v with
  | VInt n => if n <? 0 then Raise ValueError
              else if maxsize <? n then Raise OverflowError
              else Ok n
  | VBool b => Ok (if b then 1 else 0)
  | _ => Raise TypeError
  end.

(** What [hash()] does with the integer [__hash__] returns: values in the
    range of [Py_hash_t] are kept, others are reduced like any big integer,
    and -1 is reserved. *)
Definition hash_modulus : Z := 2 ^ 61 - 1.

Definition long_hash (n : Z) : Z :=
  Z.sgn n * (Z.abs n mod hash_modulus).

Definition slot_hash (n : Z) : Z :=
  let h := if (- 2 ^ 63 <=? n) && (n <? 2 ^ 63) then n else long_hash n in
  if h =? -1 then -2 else h.

(** The type-level slots that [object.__setattr__] does not store in the
    instance dictionary. *)
Definition type_slots : list string := ["__class__"; "__dict__"; "__weakref__"].

Definition is_type_slot (name : string) : bool :=
  bool_decide (name ∈ type_slots).

(** ** Finding what [copy.deepcopy] copies *)

(** The objects a value refers to directly.  A closure is a function, and
    [deepcopy] treats functions as atoms: the captured [self] is not
    followed.  A bound method is rebuilt around the copy of its [__self__],
    so that one is followed. *)
Fixpoint refs_of (v : value) : gset oid :=
  match v with
  | VRef o => {[ o ]}
  | VMethod _ o => {[ o ]}
  | VList l => ⋃ (map refs_of l)
  | VTree _ l => ⋃ (map refs_of l)
  | _ => ∅
  end.

Definition successors (h : gmap oid pyobject) (o : oid) : gset oid :=
  match h !! o with
  | Some ob => map_fold (λ _ v acc, refs_of v ∪ acc) ∅ (odict ob)
  | None => ∅
  end.

Definition reach_step (h : gmap oid pyobject) (X : gset oid) : gset oid :=
  X ∪ set_fold (λ o acc, successors h o ∪ acc) ∅ X.

Fixpoint reach_n (n : nat) (h : gmap oid pyobject) (X : gset oid) : gset oid :=
  match n with
  | O => X
  | S n' => reach_n n' h (reach_step h X)
  end.

(** Every object of the store that [o] reaches through references. *)
Definition reachable (h : gmap oid pyobject) (o : oid) : gset oid :=
  filter (λ x, x ∈ dom h) (reach_n (size h) h {[ o ]}).

(** The copy of a value under the memo table of the running [deepcopy]. *)
Fixpoint rename (memo : gmap oid oid) (v : value) : value :=
  match v with
  | VRef o => VRef (default o (memo !! o))
  | VMethod m o => VMethod m (default o (memo !! o))
  | VList l => VList (map (rename memo) l)
  | VTree d l => VTree d (map (rename memo) l)
  | VClosure c o => VClosure c o
  | _ => v
  end.

Definition rename_obj (memo : gmap oid oid) (ob : pyobject) : pyobject :=
  PyObject (ocls ob) (rename memo <$> odict ob).

(** ** What the two files take from outside

    The built-ins of the language, the rules the concrete classes supply,
    and the helpers of [utilities.py]. *)

Class Runtime := {
  (** [hash()] and [str()] of the built-in values (strings, integers,
      lists, [None], parser trees, functions). *)
  builtin_hash : value → res Z;
  builtin_str : gmap oid pyobject → value → res string;
  (** [_str] and [_len] as method resolution finds them for an object of
      the named class.  The concrete classes override both; for the base
      class itself [_len] is [raise TypeError( ... )] and [_str] is
      [super().__str__()], which comes back to [__repr__] and so to
      [self._str()] again, or [get_representation( self, ... )] when
      [_USE_STRING] is off.  They read the store and do not change it. *)
  _str : string → gmap oid pyobject → oid → res string;
  _len : string → gmap oid pyobject → oid → res Z;
  (** The class attribute [_USE_STRING] of the named class, and
      [utilities.get_representation]. *)
  _USE_STRING : string → bool;
  get_representation : gmap oid pyobject → oid → res string;
  (** The callables a visitor inherits from [lark.Transformer], by name. *)
  inherited : string → option (value → res value)
}.

(** ** lockable_type.py *)

Module LockableType.
Section LockableType.
Context `{Runtime}.

(** Modelled from the spec: [utilities.get_unique_hash] is not among the
    sources; the spec calls its result "a process-unique identity token
    assigned at construction".  A counter gives every call a token no
    earlier call returned. *)
Definition get_unique_hash : M Z :=
  λ st, let t := last_token st + 1 in (Ok t, State (heap st) t).

(** Attribute lookup [self.name]: the instance dictionary first, then the
    class.  Of the class-level names only the three the methods below read
    are modelled. *)
Definition getattr (o : oid) (name : string) : M value :=
  λ st, match heap st !! o with
        | None => (Raise ReferenceError, st)
        | Some ob =>
            match odict ob !! name with
            | Some v => (Ok v, st)
            | None =>
                if String.eqb name "_str" then (Ok (VMethod M_str o), st)
                else if String.eqb name "_len" then (Ok (VMethod M_len o), st)
                else if String.eqb name "_USE_STRING"
                     then (Ok (VBool (_USE_STRING (ocls ob))), st)
                else (Raise AttributeError, st)
            end
        end.

(** [self.__dict__[name] = v] *)
Definition dict_set (o : oid) (name : string) (v : value) : M unit :=
  λ st, match heap st !! o with
        | None => (Raise ReferenceError, st)
        | Some ob =>
            (Ok (),
             State (<[o := PyObject (ocls ob) (<[name := v]> (odict ob))]> (heap st))
                   (last_token st))
        end.

(** [object.__setattr__(self, name, v)]: no value of this model is a class
    or a dictionary, so the type-level slots refuse all of them. *)
Definition object_setattr (o : oid) (name : string) (v : value) : M unit :=
  if is_type_slot name
  then raise (if String.eqb name "__weakref__" then AttributeError else TypeError)
  else dict_set o name v.

Definition class_of (o : oid) : M string :=
  λ st, match heap st !! o with
        | None => (Raise ReferenceError, st)
        | Some ob => (Ok (ocls ob), st)
        end.

(** Calling a value with no argument. *)
Definition call0 (f : value) : M value :=
  match f with
  | VMethod M_str j =>
      c ← class_of j; h ← get_heap; s ← lift (_str c h j); mret (VStr s)
  | VMethod M_len j =>
      c ← class_of j; h ← get_heap; n ← lift (_len c h j); mret (VInt n)
  | VClosure L_str j => getattr j "str"
  | VClosure L_len j => getattr j "len"
  | _ => raise TypeError
  end.

(** [def __str__(self): return self._str()] *)
Definition __str__ (o : oid) : M value :=
  f ← getattr o "_str"; call0 f.

(** [def __len__(self): return self._len()] *)
Definition __len__ (o : oid) : M value :=
  f ← getattr o "_len"; call0 f.

(** [def __hash__(self): return self._hash] *)
Definition __hash__ (o : oid) : M value :=
  getattr o "_hash".

(** The built-ins [len(x)], [str(x)], [hash(x)] and truth testing. *)
Definition py_len (v : value) : M Z :=
  match v with
  | VStr s => mret (str_len s)
  | VList l => mret (Z.of_nat (length l))
  | VRef o => r ← __len__ o; lift (check_len r)
  | _ => raise TypeError
  end.

Definition py_str (v : value) : M string :=
  match v with
  | VStr s => mret s
  | VRef o => r ← __str__ o;
              match r with VStr s => mret s | _ => raise TypeError end
  | _ => h ← get_heap; lift (builtin_str h v)
  end.

Definition py_hash (v : value) : M Z :=
  match v with
  | VRef o => r ← __hash__ o;
              match r with
              | VInt n => mret (slot_hash n)
              | VBool b => mret (if b then 1 else 0)
              | _ => raise TypeError
              end
  | _ => lift (builtin_hash v)
  end.

Definition truthy (v : value) : M bool :=
  match v with
  | VNone => mret false
  | VBool b => mret b
  | VInt n => mret (negb (n =? 0))
  | VStr s => mret (negb (String.eqb s ""))
  | VList l => mret (negb (bool_decide (length l = 0%nat)))
  | VRef o => n ← py_len (VRef o); mret (negb (n =? 0))
  | VTree _ _ | VMethod _ _ | VClosure _ _ => mret true
  end.

(** [__repr__]:
    if self._USE_STRING: return self.__str__()
    return get_representation( self, ... ) *)
Definition __repr__ (o : oid) : M value :=
  u ← getattr o "_USE_STRING";
  b ← truthy u;
  if (b : bool) then __str__ o
  else h ← get_heap; s ← lift (get_representation h o); mret (VStr s).

(** [__setattr__]:
    if self.locked:
        raise AttributeError( "... %s" % self.__repr__() )
    else:
        super().__setattr__( name, value ) *)
Definition __setattr__ (o : oid) (name : string) (v : value) : M unit :=
  l ← getattr o "locked";
  b ← truthy l;
  if (b : bool) then
    r ← __repr__ o;
    py_str r;;
    raise AttributeError
  else object_setattr o name v.

(** [__init__] *)
Definition __init__ (o : oid) : M unit :=
  object_setattr o "locked" (VBool false);;
  __setattr__ o "locked" (VBool false);;
  __setattr__ o "str" (VStr "");;
  t ← get_unique_hash;
  __setattr__ o "_hash" (VInt t);;
  f ← getattr o "_len";
  __setattr__ o "_original_len" f;;
  g ← getattr o "_str";
  __setattr__ o "_original_str" g;;
  k ← getattr o "_hash";
  __setattr__ o "_original_hash" k.

(** [cls.__new__(cls)]: a new object with an empty dictionary. *)
Definition alloc (cls : string) : M oid :=
  λ st, let o := fresh (dom (heap st)) in
        (Ok o, State (<[o := PyObject cls ∅]> (heap st)) (last_token st)).

(** [def isinstance( x, LockableType )]: every object of the store is an
    instance of the class or of one of its subclasses. *)
Definition isinstance_LockableType (h : gmap oid pyobject) (v : value) : bool :=
  match v with
  | VRef o => bool_decide (is_Some (h !! o))
  | _ => false
  end.

(** [__eq__]:
    if isinstance( self, LockableType ) is isinstance( other, LockableType ):
        return hash( self ) == hash( other )
    raise TypeError( ... ) *)
Definition __eq__ (self : oid) (other : value) : M bool :=
  h ← get_heap;
  if Bool.eqb (isinstance_LockableType h (VRef self))
              (isinstance_LockableType h other)
  then a ← py_hash (VRef self); b ← py_hash other; mret (a =? b)
  else raise TypeError.

(** [unlock] *)
Definition unlock (o : oid) : M unit :=
  l ← getattr o "locked";
  b ← truthy l;
  if negb (b : bool) then mret ()
  else
    dict_set o "locked" (VBool false);;
    f ← getattr o "_original_len";
    __setattr__ o "_len" f;;
    g ← getattr o "_original_str";
    __setattr__ o "_str" g;;
    k ← getattr o "_original_hash";
    __setattr__ o "_hash" k.

(** [lock] *)
Definition lock (o : oid) : M unit :=
  l ← getattr o "locked";
  b ← truthy l;
  if (b : bool) then mret ()
  else
    s ← py_str (VRef o);
    __setattr__ o "str" (VStr s);;
    __setattr__ o "_str" (VClosure L_str o);;
    n ← py_len (VRef o);
    __setattr__ o "len" (VInt n);;
    __setattr__ o "_len" (VClosure L_len o);;
    f ← getattr o "_str";
    r ← call0 f;
    k ← py_hash r;
    __setattr__ o "_hash" (VInt k);;
    __setattr__ o "locked" (VBool true).

(** The copies [copy.deepcopy] makes of the objects other than the root:
    each gets the class of its original and the renamed dictionary,
    written without going through [__setattr__]. *)
Definition copy_others (h : gmap oid pyobject) (memo : gmap oid oid)
    (pairs : list (oid * oid)) : gmap oid pyobject :=
  foldr (λ p acc, match h !! p.1 with
                  | Some ob => <[p.2 := rename_obj memo ob]> acc
                  | None => acc
                  end) h pairs.

(** [copy.deepcopy( self )]: every object reached from [self] gets a new
    identity, and the dictionaries are copied with the references between
    them redirected to the copies. *)
Definition deepcopy (o : oid) : M oid :=
  λ st,
    let h := heap st in
    match h !! o with
    | None => (Raise ReferenceError, st)
    | Some ob =>
        let y := fresh (dom h) in
        let rest := elements (reachable h o ∖ {[ o ]}) in
        let ys := fresh_list (length rest) ({[ y ]} ∪ dom h) in
        let pairs := zip rest ys in
        let memo : gmap oid oid := <[o := y]> (list_to_map pairs) in
        (Ok y,
         State (<[y := rename_obj memo ob]> (copy_others h memo pairs))
               (last_token st))
    end.

(** [new]:
    new_copy = copy.deepcopy( self )
    if unlocked: new_copy.unlock()
    else: new_copy.lock()
    return new_copy *)
Definition new (o : oid) (unlocked : bool) : M oid :=
  new_copy ← deepcopy o;
  (if unlocked then unlock new_copy else lock new_copy);;
  mret new_copy.

End LockableType.
End LockableType.

(** ** The symbol model

    [symbols.py] and [production.py] are not among the sources; the
    transformer only calls their constructors and [Production.add]. *)

Module Symbols.
Section Symbols.
Context `{Runtime}.
Import LockableType.

(** Modelled from the spec: the class [Symbol] of [symbols.py] is missing.
    "[Terminal(text)] / [NonTerminal(text)] take a raw text payload"; a
    symbol is a lockable value, unlocked when created. *)
Definition Symbol (cls : string) (text : value) : M value :=
  o ← alloc cls;
  __init__ o;;
  __setattr__ o "text" text;;
  mret (VRef o).

Definition Terminal : value → M value := Symbol "Terminal".
Definition NonTerminal : value → M value := Symbol "NonTerminal".

(** Modelled from the spec: the rendering rule of the missing [Symbol] is
    "return the payload unchanged"; [str()] accepts it when it is text. *)
Definition Symbol__str (h : gmap oid pyobject) (o : oid) : res string :=
  match h !! o with
  | None => Raise ReferenceError
  | Some ob =>
      match odict ob !! "text" with
      | Some (VStr s) => Ok s
      | Some _ => Raise TypeError
      | None => Raise AttributeError
      end
  end.

(** Modelled from the spec: the class [Production] of [production.py] is
    missing.  It is "an ordered sequence of Symbol values", "built by
    repeated [add(symbol)] calls while mutable"; adding to a frozen
    production "always fails with LockedMutationError". *)
Definition Production : M value :=
  o ← alloc "Production";
  __init__ o;;
  __setattr__ o "symbols" (VList []);;
  mret (VRef o).

Definition add (production symbol : value) : M unit :=
  match production with
  | VRef o =>
      l ← getattr o "symbols";
      match l with
      | VList xs => __setattr__ o "symbols" (VList (xs ++ [symbol]))
      | _ => raise TypeError
      end
  | _ => raise AttributeError
  end.

(** [isinstance( x, ( Terminal, NonTerminal ) )] *)
Definition isinstance_Symbol (h : gmap oid pyobject) (v : value) : bool :=
  match v with
  | VRef o =>
      match h !! o with
      | Some ob => bool_decide (ocls ob ∈ ["Terminal"; "NonTerminal"])
      | None => false
      end
  | _ => false
  end.


End Symbols.
End Symbols.

(** ** tree_transformer.py

    The handlers take the children of a node as lark passes them, and
    return a symbol, a production or a tree.  The calls to [log] only
    report and are left out. *)

(** The characters of a string, one string per code point. *)
Definition starts_with_continuation (s : string) : bool :=
  match s with
  | String c _ => is_continuation c
  | EmptyString => false
  end.

Fixpoint utf8_chars (s : string) : list string :=
  match s with
  | EmptyString => []
  | String c s' =>
      match utf8_chars s' with
      | x :: xs => if starts_with_continuation x then String c x :: xs
                   else String c EmptyString :: x :: xs
      | [] => [String c EmptyString]
      end
  end.

(** [for x in v]: the items a loop over [v] sees. *)
Definition py_iter (v : value) : M (list value) :=
  match v with
  | VList l => mret l
  | VStr s => mret (VStr <$> utf8_chars s)
  | _ => raise TypeError
  end.

(** [v[0]] *)
Definition py_first (v : value) : M value :=
  match v with
  | VList (x :: _) => mret x
  | VStr s => match utf8_chars s with
              | c :: _ => mret (VStr c)
              | [] => raise IndexError
              end
  | VList [] => raise IndexError
  | _ => raise TypeError
  end.

Module ChomskyGrammarTreeTransformer.
Section ChomskyGrammarTreeTransformer.
Context `{Runtime}.
Import LockableType Symbols.

(** [_parse_symbol]:
    if len( _terminal ): return Terminal( _terminal )
    return Terminal( default ) *)
Definition _parse_symbol (_terminal : value) (default : string) : M value :=
  n ← py_len _terminal;
  if negb ((n : Z) =? 0) then Terminal _terminal
  else Terminal (VStr default).

(** [results.append( str( _symbol ) )] for every item, in order. *)
Fixpoint str_each (items : list value) : M (list string) :=
  match items with
  | [] => mret []
  | _symbol :: rest =>
      s ← py_str _symbol;
      results ← str_each rest;
      mret (s :: results)
  end.

(** [_parse_symbols]:
    for _symbol in _symbols: results.append( str( _symbol ) )
    symbol = Type( "".join( results ) ) *)
Definition _parse_symbols (_symbols : value) (Type_ : value → M value) : M value :=
  items ← py_iter _symbols;
  results ← str_each items;
  Type_ (VStr (String.concat "" results)).

(** The body of the loop of [production], over the remaining items. *)
Fixpoint production_loop (new_production : value) (items : list value) : M unit :=
  match items with
  | [] => mret ()
  | production :: rest =>
      h ← get_heap;
      (if isinstance_Symbol h production
       then add new_production production
       else mret ());;
      production_loop new_production rest
  end.

(** [production] *)
Definition production (productions : value) : M value :=
  new_production ← Production;
  items ← py_iter productions;
  production_loop new_production items;;
  mret new_production.

(** [non_terminal_start] *)
Definition non_terminal_start (non_terminal : value) : M value :=
  new_production ← Production;
  first ← py_first non_terminal;
  add new_production first;;
  mret new_production.

Definition terminal (_terminals : value) : M value :=
  _parse_symbols _terminals Terminal.

Definition non_terminal (_non_terminals : value) : M value :=
  _parse_symbols _non_terminals NonTerminal.

(** The handlers of the literal meta-characters. *)
Definition double_quote_char : string := String "034"%char EmptyString.
Definition tick_char : string :=
  String "194"%char (String "180"%char EmptyString).   (* U+00B4 *)

Definition epsilon (_terminal : value) := _parse_symbol _terminal "&".
Definition quote (_terminal : value) := _parse_symbol _terminal "'".
Definition minus (_terminal : value) := _parse_symbol _terminal "-".
Definition plus (_terminal : value) := _parse_symbol _terminal "+".
Definition star (_terminal : value) := _parse_symbol _terminal "*".
Definition comma (_terminal : value) := _parse_symbol _terminal ",".
Definition colon (_terminal : value) := _parse_symbol _terminal ":".
Definition dot (_terminal : value) := _parse_symbol _terminal ".".
Definition double_quote (_terminal : value) :=
  _parse_symbol _terminal double_quote_char.
Definition percentage (_terminal : value) := _parse_symbol _terminal "%".
Definition dollar (_terminal : value) := _parse_symbol _terminal "$".
Definition at_sign (_terminal : value) := _parse_symbol _terminal "@".
Definition sharp (_terminal : value) := _parse_symbol _terminal "#".
Definition exclamation (_terminal : value) := _parse_symbol _terminal "!".
Definition backtick (_terminal : value) := _parse_symbol _terminal "`".
Definition tick (_terminal : value) := _parse_symbol _terminal tick_char.
Definition caret (_terminal : value) := _parse_symbol _terminal "^".
Definition tilde (_terminal : value) := _parse_symbol _terminal "~".
Definition question (_terminal : value) := _parse_symbol _terminal "?".
Definition equals (_terminal : value) := _parse_symbol _terminal "=".
Definition semicolon (_terminal : value) := _parse_symbol _terminal ";".
Definition slash (_terminal : value) := _parse_symbol _terminal "/".
Definition backslash (_terminal : value) := _parse_symbol _terminal "\".
Definition open_paren (_terminal : value) := _parse_symbol _terminal "(".
Definition close_paren (_terminal : value) := _parse_symbol _terminal ")".
Definition open_bracket (_terminal : value) := _parse_symbol _terminal "[".
Definition close_bracket (_terminal : value) := _parse_symbol _terminal "]".
Definition open_brace (_terminal : value) := _parse_symbol _terminal "{".
Definition close_brace (_terminal : value) := _parse_symbol _terminal "}".

(** The methods of the class that take the children of a node, by name:
    what [getattr( self, tree.data )] finds among them. *)
Definition handlers : list (string * (value → M value)) :=
  [ ("non_terminal_start", non_terminal_start);
    ("terminal", terminal);
    ("non_terminal", non_terminal);
    ("epsilon", epsilon);
    ("quote", quote);
    ("minus", minus);
    ("plus", plus);
    ("star", star);
    ("comma", comma);
    ("colon", colon);
    ("dot", dot);
    ("double_quote", double_quote);
    ("percentage", percentage);
    ("dollar", dollar);
    ("at_sign", at_sign);
    ("sharp", sharp);
    ("exclamation", exclamation);
    ("backtick", backtick);
    ("tick", tick);
    ("caret", caret);
    ("tilde", tilde);
    ("question", question);
    ("equals", equals);
    ("semicolon", semicolon);
    ("slash", slash);
    ("backslash", backslash);
    ("open_paren", open_paren);
    ("close_paren", close_paren);
    ("open_bracket", open_bracket);
    ("close_bracket", close_bracket);
    ("open_brace", open_brace);
    ("close_brace", close_brace);
    ("production", production) ].

Fixpoint assoc {A} (name : string) (l : list (string * A)) : option A :=
  match l with
  | [] => None
  | (k, a) :: rest => if String.eqb name k then Some a else assoc name rest
  end.

Definition handler_of (tag : string) : option (value → M value) :=
  assoc tag handlers.

(** The two helpers are methods too, but take a second argument. *)
Definition helpers : list string := ["_parse_symbol"; "_parse_symbols"].

(** [lark.Transformer._call_userfunc]:
    try: f = getattr( self, tree.data )
    except AttributeError: return self.__default__( tree.data, children, tree.meta )
    else: return f( children )
    where [__default__] rebuilds the node, [Tree( data, children, meta )]. *)
Definition _call_userfunc (data : string) (children : list value) : M value :=
  match handler_of data with
  | Some f => f (VList children)
  | None =>
      if bool_decide (data ∈ helpers) then raise TypeError
      else match inherited data with
           | Some f => lift (f (VList children))
           | None => mret (VTree data children)
           end
  end.

(** [lark.Transformer._transform_tree]: the children that are trees are
    transformed first, left to right, the others are kept; then the
    node's own handler runs on the new children. *)
Fixpoint _transform_tree (tree : value) : M value :=
  match tree with
  | VTree data children =>
      cs ← (fix _transform_children (l : list value) : M (list value) :=
              match l with
              | [] => mret []
              | c :: rest =>
                  c' ← match c with
                       | VTree _ _ => _transform_tree c
                       | _ => mret c
                       end;
                  rest' ← _transform_children rest;
                  mret (c' :: rest')
              end) children;
      _call_userfunc data cs
  | _ => raise AttributeError
  end.

(** [lark.Transformer.transform] *)
Definition transform (tree : value) : M value := _transform_tree tree.

End ChomskyGrammarTreeTransformer.
End ChomskyGrammarTreeTransformer.

(** ** A runtime to run the code on concrete inputs

    The built-ins are given on the values the examples use.  Symbols render
    as their text and have its length; a production renders as its members'
    texts in order and has their number; the base class keeps its own
    [_len] (a [TypeError]) and its own [_str] (which never returns). *)

Definition sample_hash (s : string) : Z :=
  fold_left (λ acc c, (acc * 31 + Z.of_N (N_of_ascii c)) mod hash_modulus)
            (list_ascii_of_string s) 7.

Definition is_symbol_class (c : string) : bool :=
  bool_decide (c ∈ ["Terminal"; "NonTerminal"]).

Fixpoint member_texts (h : gmap oid pyobject) (l : list value) : res string :=
  match l with
  | [] => Ok ""
  | VRef m :: rest =>
      match Symbols.Symbol__str h m, member_texts h rest with
      | Ok a, Ok b => Ok (a ++ b)
      | Raise e, _ => Raise e
      | _, Raise e => Raise e
      end
  | _ :: _ => Raise TypeError
  end.

Definition sample_str (c : string) (h : gmap oid pyobject) (o : oid) : res string :=
  if is_symbol_class c then Symbols.Symbol__str h o
  else if String.eqb c "Production" then
    match h !! o with
    | Some ob => match odict ob !! "symbols" with
                 | Some (VList l) => member_texts h l
                 | _ => Raise AttributeError
                 end
    | None => Raise ReferenceError
    end
  else Raise RecursionError.

Definition sample_len (c : string) (h : gmap oid pyobject) (o : oid) : res Z :=
  if is_symbol_class c then
    match Symbols.Symbol__str h o with
    | Ok s => Ok (str_len s)
    | Raise e => Raise e
    end
  else if String.eqb c "Production" then
    match h !! o with
    | Some ob => match odict ob !! "symbols" with
                 | Some (VList l) => Ok (Z.of_nat (length l))
                 | _ => Raise AttributeError
                 end
    | None => Raise ReferenceError
    end
  else Raise TypeError.

#[global] Instance sample_runtime : Runtime := {|
  builtin_hash v := match v with
                    | VStr s => Ok (sample_hash s)
                    | VInt n => Ok (slot_hash n)
                    | VBool b => Ok (if b then 1 else 0)
                    | _ => Raise TypeError
                    end;
  builtin_str h v := match v with
                     | VNone => Ok "None"
                     | VBool b => Ok (if b then "True" else "False")
                     | _ => Raise TypeError
                     end;
  _str := sample_str;
  _len := sample_len;
  _USE_STRING _ := true;
  get_representation _ _ := Raise TypeError;
  inherited _ := None
|}.

(** The store before any object exists. *)
Definition empty_state : state := State ∅ 0.

(** The instance dictionary entry of an object, if any. *)
Definition attr (st : state) (o : oid) (name : string) : option value :=
  ob ← heap st !! o; odict ob !! name.

Definition class_name (st : state) (o : oid) : option string :=
  ocls <$> heap st !! o.

(** The store after [o.__dict__[name] = v]. *)
Definition set_attr (o : oid) (name : string) (v : value) (st : state) : state :=
  match heap st !! o with
  | Some ob =>
      State (<[o := PyObject (ocls ob) (<[name := v]> (odict ob))]> (heap st))
            (last_token st)
  | None => st
  end.

(** The store after the six assignments of a [lock()] that found the
    rendering [s], the length [n] and the hash [k]. *)
Definition cache_state (o : oid) (s : string) (n k : Z) (st : state) : state :=
  set_attr o "locked" (VBool true)
    (set_attr o "_hash" (VInt k)
       (set_attr o "_len" (VClosure L_len o)
          (set_attr o "len" (VInt n)
             (set_attr o "_str" (VClosure L_str o)
                (set_attr o "str" (VStr s) st))))).

(** The store after the four assignments of an [unlock()] that found the
    originals [f], [g] and [k]. *)
Definition unlocked_state (o : oid) (f g k : value) (st : state) : state :=
  set_attr o "_hash" k
    (set_attr o "_str" g
       (set_attr o "_len" f
          (set_attr o "locked" (VBool false) st))).

(** A computation that only reads the store. *)
Definition reads {A} (m : M A) : Prop := ∀ st, (m st).2 = st.

(** The attributes [lock()] and [unlock()] themselves write. *)
Definition lockable_slots : list string :=
  ["locked"; "str"; "len"; "_hash"; "_str"; "_len"].

(** Two stores that differ at most in those attributes of [o]. *)
Definition same_payload (o : oid) (h h' : gmap oid pyobject) : Prop :=
  (∀ x, x ≠ o → h' !! x = h !! x) ∧
  (ocls <$> h' !! o = ocls <$> h !! o) ∧
  (∀ name, name ∉ lockable_slots →
     (h' !! o ≫= λ ob, odict ob !! name) = (h !! o ≫= λ ob, odict ob !! name)).

(** The rules of the concrete classes compute from the payload of the
    object (and from the other objects), not from the cache [lock()] keeps
    beside it: "Freezable Value itself has no rendering/length logic". *)
Class PayloadRules `{Runtime} : Prop := {
  _str_payload : ∀ c o h h', same_payload o h h' → _str c h' o = _str c h o;
  _len_payload : ∀ c o h h', same_payload o h h' → _len c h' o = _len c h o
}.

(** What [lock()] comes to on an object whose flag is [False]: the
    rendering, then the length, then the hash of the rendering, each read
    from the store as the assignments before it left it. *)
Definition lock_outcome `{Runtime} (o : oid) (st : state) : res unit * state :=
  match LockableType.py_str (VRef o) st with
  | (Raise e, _) => (Raise e, st)
  | (Ok s, _) =>
      let st2 := set_attr o "_str" (VClosure L_str o)
                   (set_attr o "str" (VStr s) st) in
      match LockableType.py_len (VRef o) st2 with
      | (Raise e, _) => (Raise e, st2)
      | (Ok n, _) =>
          let st4 := set_attr o "_len" (VClosure L_len o)
                       (set_attr o "len" (VInt n) st2) in
          match builtin_hash (VStr s) with
          | Raise e => (Raise e, st4)
          | Ok k => (Ok (), cache_state o s n k st)
          end
      end
  end.

(** Stores for the examples: the terminal "a" just built, and the same
    once locked. *)
Definition sample_unlocked : state :=
  (Symbols.Terminal (VStr "a") empty_state).2.

Definition sample_locked : state :=
  (LockableType.lock 0%nat sample_unlocked).2.

(** The store after [cls.__new__(cls)] and after [__init__] on the new
    object [o]. *)
Definition alloc_state (cls : string) (st : state) : state :=
  State (<[fresh (dom (heap st)) := PyObject cls ∅]> (heap st)) (last_token st).

Definition bump (st : state) : state :=
  State (heap st) (last_token st + 1).

Definition init_state (o : oid) (st : state) : state :=
  let t := last_token st + 1 in
  set_attr o "_original_hash" (VInt t)
    (set_attr o "_original_str" (VMethod M_str o)
       (set_attr o "_original_len" (VMethod M_len o)
          (set_attr o "_hash" (VInt t)
             (bump
                (set_attr o "str" (VStr "")
                   (set_attr o "locked" (VBool false)
                      (set_attr o "locked" (VBool false) st))))))).

(** [cls()] for a class that adds nothing to [LockableType.__init__]. *)
Definition construct `{Runtime} (cls : string) : M oid :=
  o ← LockableType.alloc cls;
  LockableType.__init__ o;;
  mret o.

(** The store after a constructor that runs [LockableType.__init__] on a
    new object of class [cls] and then sets one attribute of its own. *)
Definition built_state (cls name : string) (v : value) (st : state) : state :=
  set_attr (fresh (dom (heap st))) name v
    (init_state (fresh (dom (heap st))) (alloc_state cls st)).

(** The store after [Symbol( text )] of class [cls], and after
    [Production()]. *)
Definition symbol_state (cls : string) (text : value) (st : state) : state :=
  built_state cls "text" text st.

Definition production_state (st : state) : state :=
  built_state "Production" "symbols" (VList []) st.

(** The attributes [__init__], [lock] and [unlock] write. *)
Definition base_attributes : list string :=
  ["locked"; "str"; "len"; "_hash"; "_str"; "_len";
   "_original_len"; "_original_str"; "_original_hash"].

(** Calling a method on a value. *)
Definition on_object {A} (v : value) (f : oid → M A) : M A :=
  match v with
  | VRef o => f o
  | _ => raise AttributeError
  end.






(** The runtime gives the two symbol classes the rendering rule of the
    spec, and a length whenever the symbol has a text (a string of the
    language has at most [sys.maxsize] characters). *)
Class SymbolRules `{Runtime} : Prop := {
  Symbol_str_rule : ∀ c h o,
    c ∈ ["Terminal"; "NonTerminal"] → _str c h o = Symbols.Symbol__str h o;
  Symbol_len_rule : ∀ c h o s,
    c ∈ ["Terminal"; "NonTerminal"] → Symbols.Symbol__str h o = Ok s →
    str_len s ≤ maxsize →
    ∃ n, _len c h o = Ok n ∧ 0 ≤ n ≤ maxsize
}.

(** [x = cls(); y = x.new(); x == y]: the two identities and the answer
    of [==]. *)
Definition compare_with_copy `{Runtime} (cls : string) : M (oid * oid * bool) :=
  x ← construct cls;
  y ← LockableType.new x true;
  e ← LockableType.__eq__ x (VRef y);
  mret (x, y, e).

(** The memo table and the store of [deepcopy] on the object [o], whose
    entry in the store is [ob]. *)
Definition copy_pairs (h : gmap oid pyobject) (o : oid) : list (oid * oid) :=
  let rest := elements (reachable h o ∖ {[ o ]}) in
  zip rest (fresh_list (length rest) ({[ fresh (dom h) ]} ∪ dom h)).

Definition copy_memo (h : gmap oid pyobject) (o : oid) : gmap oid oid :=
  <[o := fresh (dom h)]> (list_to_map (copy_pairs h o)).

Definition deepcopy_state (o : oid) (ob : pyobject) (st : state) : state :=
  State (<[fresh (dom (heap st)) := rename_obj (copy_memo (heap st) o) ob]>
           (LockableType.copy_others (heap st) (copy_memo (heap st) o)
              (copy_pairs (heap st) o)))
        (last_token st).

(** A locked value is copied and kept locked; then the source is unlocked
    and its [str] attribute assigned; then the copy is rendered. *)
Definition render_copy_after_source_changes `{Runtime} (cls text other : string)
    : M string :=
  a ← Symbols.Symbol cls (VStr text);
  on_object a (λ x,
    LockableType.lock x;;
    c ← LockableType.new x false;
    LockableType.unlock x;;
    LockableType.__setattr__ x "str" (VStr other);;
    LockableType.py_str (VRef c)).

(** The table of the spec, section 6: "Literal meta-character defaults
    (tag → default one-character substitute ...)". *)
Definition spec_literal_defaults : list (string * string) :=
  [ ("epsilon", "&"); ("quote", "'"); ("minus", "-"); ("plus", "+");
    ("star", "*"); ("comma", ","); ("colon", ":"); ("dot", ".");
    ("double_quote", ChomskyGrammarTreeTransformer.double_quote_char);
    ("percentage", "%"); ("dollar", "$"); ("at_sign", "@"); ("sharp", "#");
    ("exclamation", "!"); ("backtick", "`");
    ("tick", ChomskyGrammarTreeTransformer.tick_char);
    ("caret", "^"); ("tilde", "~"); ("question", "?"); ("equals", "=");
    ("semicolon", ";"); ("slash", "/"); ("backslash", "\");
    ("open_paren", "("); ("close_paren", ")");
    ("open_bracket", "["); ("close_bracket", "]");
    ("open_brace", "{"); ("close_brace", "}") ].

(** The two concatenating tags and the class each wraps its text in. *)
Definition concatenating_tags : list (string * string) :=
  [ ("terminal", "Terminal"); ("non_terminal", "NonTerminal") ].

(** The children of a node, transformed left to right
    ([lark.Transformer._transform_children]). *)
Fixpoint transform_children `{Runtime} (l : list value) : M (list value) :=
  match l with
  | [] => mret []
  | c :: rest =>
      c' ← match c with
           | VTree _ _ => ChomskyGrammarTreeTransformer._transform_tree c
           | _ => mret c
           end;
      rest' ← transform_children rest;
      mret (c' :: rest')
  end.

(** The tree of the comment at the head of [tree_transformer.py], for the
    grammar [S -> a A | a]. *)
Definition documented_tree : value :=
  VTree "productions"
    [ VTree "non_terminal_start" [VTree "non_terminal" [VStr "S"]];
      VTree "non_terminals"
        [ VTree "production"
            [VTree "terminal" [VStr "a"]; VTree "non_terminal" [VStr "A"]];
          VTree "production" [VTree "terminal" [VStr "a"]] ];
      VTree "end_symbol" [] ].

(** More stores for the examples: the terminal "a" with [_len] replaced by
    the integer 3, and an object of the base class itself. *)
Definition sample_bad_len : state :=
  set_attr 0%nat "_len" (VInt 3) sample_unlocked.

Definition sample_base : state :=
  (construct "LockableType" empty_state).2.

(** A store with two locked symbols, the terminal "a" and the
    non-terminal "a". *)
Definition sample_pair : state :=
  (LockableType.lock 1%nat
     (LockableType.lock 0%nat
        (Symbols.NonTerminal (VStr "a")
           (Symbols.Terminal (VStr "a") empty_state).2).2).2).2.

(** A value that [len()] accepts. *)
Definition is_sized (v : value) : bool :=
  match v with
  | VStr _ | VList _ | VRef _ => true
  | _ => false
  end.

(** The store after the documented tree has been transformed: object 4 is
    the production of the symbols 2 and 3. *)
Definition sample_grammar : state :=
  (ChomskyGrammarTreeTransformer.transform documented_tree empty_state).2.

(** A leaf of the tree: a [terminal] or [non_terminal] node over raw
    tokens; and the class of the symbol its handler builds. *)
Definition leaf (spec : string * list string) : value :=
  VTree spec.1 (VStr <$> spec.2).

Definition leaf_class (tag : string) : string :=
  if String.eqb tag "terminal" then "Terminal" else "NonTerminal".

(** The object [o] of the store is the unlocked symbol of a leaf. *)
Definition symbol_of_leaf (st : state) (o : oid) (spec : string * list string) : Prop :=
  class_name st o = Some (leaf_class spec.1) ∧
  attr st o "text" = Some (VStr (String.concat "" spec.2)) ∧
  attr st o "locked" = Some (VBool false).

(** The terminal "a" locked by assigning the flag, [x.locked = True],
    without [lock()]. *)
Definition sample_hand_locked : state :=
  (LockableType.__setattr__ 0%nat "locked" (VBool true) sample_unlocked).2.

(** [x.unlock(); x.lock()] *)
Definition unlock_then_lock `{Runtime} (o : oid) : M unit :=
  LockableType.unlock o;; LockableType.lock o.

(** A runtime for a class that turns [_USE_STRING] off and keeps the
    [_str] of the base class, so that it renders through
    [get_representation( self, ignore={'hash'} )], "a representation of
    this object within all its attributes": here the class name and the
    attribute [str].  The class has a length of its own; the base class has
    none. *)
Definition listing_repr (h : gmap oid pyobject) (o : oid) : res string :=
  match h !! o with
  | None => Raise ReferenceError
  | Some ob =>
      match odict ob !! "str" with
      | Some (VStr s) => Ok (ocls ob ++ " str: " ++ s ++ ";")
      | _ => Raise AttributeError
      end
  end.

Definition listing_runtime : Runtime := {|
  builtin_hash v := match v with
                    | VStr s => Ok (sample_hash s)
                    | _ => Raise TypeError
                    end;
  builtin_str h v := Raise TypeError;
  _str c := listing_repr;
  _len c h o := if String.eqb c "LockableType" then Raise TypeError else Ok 0;
  _USE_STRING _ := false;
  get_representation := listing_repr;
  inherited _ := None
|}.

(** An object of such a class, as its constructor returns it. *)
Definition sample_listing : state :=
  (@construct listing_runtime "Listing" empty_state).2.

(** ** Facts about the monad and the store *)

Section StoreFacts.
Context `{Runtime}.
Import LockableType.

Lemma run_bind {A B} (m : M A) (k : A → M B) (st : state) :
  (m ≫= k) st = match m st with
                | (Ok a, st') => k a st'
                | (Raise e, st') => (Raise e, st')
                end.
Proof. reflexivity. Qed.

Lemma run_ret {A} (a : A) st : (mret a : M A) st = (Ok a, st).
Proof. reflexivity. Qed.

Lemma run_raise {A} e st : @raise A e st = (Raise e, st).
Proof. reflexivity. Qed.

Lemma run_lift {A} (r : res A) st : lift r st = (r, st).
Proof. reflexivity. Qed.

Lemma run_get_heap st : get_heap st = (Ok (heap st), st).
Proof. reflexivity. Qed.

Lemma bind_ok {A B} (m : M A) (k : A → M B) st a st' :
  m st = (Ok a, st') → (m ≫= k) st = k a st'.
Proof. intros E. rewrite run_bind, E. reflexivity. Qed.

Lemma bind_raise {A B} (m : M A) (k : A → M B) st e st' :
  m st = (Raise e, st') → (m ≫= k) st = (Raise e, st').
Proof. intros E. rewrite run_bind, E. reflexivity. Qed.

Lemma bind_ok_inv {A B} (m : M A) (k : A → M B) st b st' :
  (m ≫= k) st = (Ok b, st') →
  ∃ a st1, m st = (Ok a, st1) ∧ k a st1 = (Ok b, st').
Proof.
  rewrite run_bind. destruct (m st) as [[a|e] st1]; [eauto | discriminate].
Qed.

Lemma reads_run {A} (m : M A) st r st' : reads m → m st = (r, st') → st' = st.
Proof. intros R E. specialize (R st). rewrite E in R. exact R. Qed.

Lemma reads_fst {A} (m : M A) st : reads m → m st = ((m st).1, st).
Proof. intros R. specialize (R st). destruct (m st); simpl in *; congruence. Qed.

Lemma reads_ret {A} (a : A) : reads (mret a).
Proof. intros st. reflexivity. Qed.

Lemma reads_raise {A} e : reads (@raise A e).
Proof. intros st. reflexivity. Qed.

Lemma reads_lift {A} (r : res A) : reads (lift r).
Proof. intros st. reflexivity. Qed.

Lemma reads_get_heap : reads get_heap.
Proof. intros st. reflexivity. Qed.

Lemma reads_bind {A B} (m : M A) (k : A → M B) :
  reads m → (∀ a, reads (k a)) → reads (m ≫= k).
Proof.
  intros Rm Rk st. rewrite run_bind. specialize (Rm st).
  destruct (m st) as [[a|e] st1]; simpl in *; subst; [apply Rk | reflexivity].
Qed.

Lemma reads_getattr o name : reads (getattr o name).
Proof.
  intros st. unfold getattr.
  destruct (heap st !! o) as [ob|]; [|reflexivity].
  destruct (odict ob !! name); [reflexivity|].
  repeat (case_match; try reflexivity).
Qed.

Lemma reads_class_of o : reads (class_of o).
Proof. intros st. unfold class_of. destruct (heap st !! o); reflexivity. Qed.

Lemma reads_call0 f : reads (call0 f).
Proof.
  destruct f as [| | | | | | |[] j|[] j]; simpl;
    try apply reads_raise; try apply reads_getattr;
    repeat (apply reads_bind; [first [apply reads_class_of | apply reads_get_heap | apply reads_lift]|intros ?]);
    apply reads_ret.
Qed.

Lemma reads___str__ o : reads (__str__ o).
Proof. apply reads_bind; [apply reads_getattr | intros; apply reads_call0]. Qed.

Lemma reads___len__ o : reads (__len__ o).
Proof. apply reads_bind; [apply reads_getattr | intros; apply reads_call0]. Qed.

Lemma reads_py_len v : reads (py_len v).
Proof.
  destruct v; simpl; try apply reads_raise; try apply reads_ret.
  apply reads_bind; [apply reads___len__ | intros; apply reads_lift].
Qed.

Lemma reads_py_str v : reads (py_str v).
Proof.
  destruct v; simpl; try apply reads_ret;
    try (apply reads_bind; [apply reads_get_heap | intros; apply reads_lift]).
  apply reads_bind; [apply reads___str__ | intros []; first [apply reads_ret | apply reads_raise]].
Qed.

Lemma reads_py_hash v : reads (py_hash v).
Proof.
  destruct v; simpl; try apply reads_lift.
  apply reads_bind; [apply reads_getattr | intros []; first [apply reads_ret | apply reads_raise]].
Qed.

Lemma reads_truthy v : reads (truthy v).
Proof.
  destruct v; simpl; try apply reads_ret.
  apply reads_bind; [apply (reads_py_len (VRef _)) | intros; apply reads_ret].
Qed.

Lemma reads___repr__ o : reads (__repr__ o).
Proof.
  apply reads_bind; [apply reads_getattr | intros u].
  apply reads_bind; [apply reads_truthy | intros [|]].
  - apply reads___str__.
  - apply reads_bind; [apply reads_get_heap | intros].
    apply reads_bind; [apply reads_lift | intros; apply reads_ret].
Qed.

End StoreFacts.

Section AttributeFacts.
Context `{Runtime}.
Import LockableType.

Lemma attr_alive st o name v : attr st o name = Some v → is_Some (heap st !! o).
Proof. unfold attr. destruct (heap st !! o); [eauto | discriminate]. Qed.

Lemma set_attr_alive st o name v x :
  is_Some (heap (set_attr o name v st) !! x) ↔ is_Some (heap st !! x).
Proof.
  unfold set_attr. destruct (heap st !! o) as [ob|] eqn:E; [|reflexivity].
  simpl. destruct (decide (x = o)) as [->|N].
  - rewrite lookup_insert_eq, E. split; eauto.
  - rewrite lookup_insert_ne by done. reflexivity.
Qed.

Lemma attr_set_attr_eq st o name v :
  is_Some (heap st !! o) → attr (set_attr o name v st) o name = Some v.
Proof.
  intros [ob E]. unfold attr, set_attr. rewrite E. simpl.
  rewrite lookup_insert_eq. simpl. apply lookup_insert_eq.
Qed.

Lemma attr_set_attr_name st o name v name' :
  name' ≠ name → attr (set_attr o name v st) o name' = attr st o name'.
Proof.
  intros N. unfold attr, set_attr.
  destruct (heap st !! o) as [ob|] eqn:E; [|rewrite E; reflexivity].
  simpl. rewrite lookup_insert_eq. simpl. rewrite lookup_insert_ne by done.
  reflexivity.
Qed.

Lemma attr_set_attr_other st o name v o' name' :
  o' ≠ o → attr (set_attr o name v st) o' name' = attr st o' name'.
Proof.
  intros N. unfold attr, set_attr.
  destruct (heap st !! o) as [ob|] eqn:E; [|reflexivity].
  simpl. rewrite lookup_insert_ne by done. reflexivity.
Qed.

Lemma class_name_set_attr st o name v o' :
  class_name (set_attr o name v st) o' = class_name st o'.
Proof.
  unfold class_name, set_attr.
  destruct (heap st !! o) as [ob|] eqn:E; [|reflexivity].
  simpl. destruct (decide (o' = o)) as [->|N].
  - rewrite lookup_insert_eq, E. reflexivity.
  - rewrite lookup_insert_ne by done. reflexivity.
Qed.

Lemma heap_set_attr_other st o name v o' :
  o' ≠ o → heap (set_attr o name v st) !! o' = heap st !! o'.
Proof.
  intros N. unfold set_attr.
  destruct (heap st !! o) as [ob|] eqn:E; [|reflexivity].
  simpl. apply lookup_insert_ne. done.
Qed.

Lemma last_token_set_attr st o name v :
  last_token (set_attr o name v st) = last_token st.
Proof. unfold set_attr. destruct (heap st !! o); reflexivity. Qed.

Lemma getattr_attr st o name v :
  attr st o name = Some v → getattr o name st = (Ok v, st).
Proof.
  unfold attr, getattr. destruct (heap st !! o) as [ob|]; [|discriminate].
  simpl. intros ->. reflexivity.
Qed.

Lemma dict_set_alive st o name v :
  is_Some (heap st !! o) → dict_set o name v st = (Ok (), set_attr o name v st).
Proof. intros [ob E]. unfold dict_set, set_attr. rewrite E. reflexivity. Qed.

(** The guard of [__setattr__], on an object whose flag is a boolean. *)
Lemma setattr_unlocked st o name v :
  attr st o "locked" = Some (VBool false) →
  is_type_slot name = false →
  __setattr__ o name v st = (Ok (), set_attr o name v st).
Proof.
  intros L S. unfold __setattr__.
  rewrite (bind_ok _ _ _ _ _ (getattr_attr _ _ _ _ L)).
  simpl. rewrite run_bind, run_ret. unfold object_setattr. rewrite S.
  apply dict_set_alive. eapply attr_alive, L.
Qed.

Lemma setattr_locked st o name v :
  attr st o "locked" = Some (VBool true) →
  __setattr__ o name v st =
    match (r ← __repr__ o; py_str r) st with
    | (Ok _, _) => (Raise AttributeError, st)
    | (Raise e, _) => (Raise e, st)
    end.
Proof.
  intros L. unfold __setattr__.
  rewrite (bind_ok _ _ _ _ _ (getattr_attr _ _ _ _ L)).
  simpl. rewrite run_bind, run_ret, !run_bind.
  pose proof (reads___repr__ o st) as R1.
  destruct (__repr__ o st) as [[r|e] st1]; simpl in R1; subst st1; [|reflexivity].
  rewrite !run_bind.
  pose proof (reads_py_str r st) as R2.
  destruct (py_str r st) as [[s|e] st1]; simpl in R2; subst st1; reflexivity.
Qed.

Lemma setattr_ok_inv st o name v st' :
  (∃ b, attr st o "locked" = Some (VBool b)) →
  __setattr__ o name v st = (Ok (), st') →
  attr st o "locked" = Some (VBool false) ∧ st' = set_attr o name v st.
Proof.
  intros [[|] L] E.
  - rewrite (setattr_locked _ _ _ _ L) in E.
    destruct ((r ← __repr__ o; py_str r) st) as [[?|?] ?]; discriminate.
  - split; [done|].
    destruct (is_type_slot name) eqn:S.
    + unfold __setattr__ in E.
      rewrite (bind_ok _ _ _ _ _ (getattr_attr _ _ _ _ L)) in E.
      simpl in E. rewrite run_bind, run_ret in E.
      unfold object_setattr in E. rewrite S in E. discriminate.
    + rewrite (setattr_unlocked _ _ _ _ L S) in E. congruence.
Qed.

End AttributeFacts.

(** ** lock() and unlock() *)

Section LockFacts.
Context `{Runtime}.
Import LockableType.

Ltac slot := vm_compute; reflexivity.

Lemma unlock_unlocked st o :
  attr st o "locked" = Some (VBool false) → unlock o st = (Ok (), st).
Proof.
  intros L. unfold unlock.
  rewrite (bind_ok _ _ _ _ _ (getattr_attr _ _ _ _ L)).
  simpl. rewrite run_bind, run_ret. reflexivity.
Qed.

Lemma lock_locked st o :
  attr st o "locked" = Some (VBool true) → lock o st = (Ok (), st).
Proof.
  intros L. unfold lock.
  rewrite (bind_ok _ _ _ _ _ (getattr_attr _ _ _ _ L)).
  simpl. rewrite run_bind, run_ret. reflexivity.
Qed.

Lemma unlock_locked st o f g k :
  attr st o "locked" = Some (VBool true) →
  attr st o "_original_len" = Some f →
  attr st o "_original_str" = Some g →
  attr st o "_original_hash" = Some k →
  unlock o st = (Ok (), unlocked_state o f g k st).
Proof.
  intros L F G K. unfold unlock, unlocked_state.
  pose proof (attr_alive _ _ _ _ L) as A.
  rewrite (bind_ok _ _ _ _ _ (getattr_attr _ _ _ _ L)).
  simpl. rewrite run_bind, run_ret. simpl.
  rewrite (bind_ok _ _ _ _ _ (dict_set_alive _ _ _ _ A)).
  set (s1 := set_attr o "locked" (VBool false) st).
  assert (L1 : attr s1 o "locked" = Some (VBool false))
    by (apply attr_set_attr_eq, A).
  erewrite bind_ok
    by (apply getattr_attr; unfold s1; rewrite attr_set_attr_name by done; exact F).
  erewrite bind_ok by (apply setattr_unlocked; [exact L1 | slot]).
  set (s2 := set_attr o "_len" f s1).
  assert (L2 : attr s2 o "locked" = Some (VBool false))
    by (unfold s2; rewrite attr_set_attr_name by done; exact L1).
  erewrite bind_ok
    by (apply getattr_attr; unfold s2, s1; rewrite !attr_set_attr_name by done; exact G).
  erewrite bind_ok by (apply setattr_unlocked; [exact L2 | slot]).
  set (s3 := set_attr o "_str" g s2).
  assert (L3 : attr s3 o "locked" = Some (VBool false))
    by (unfold s3; rewrite attr_set_attr_name by done; exact L2).
  erewrite bind_ok
    by (apply getattr_attr; unfold s3, s2, s1; rewrite !attr_set_attr_name by done; exact K).
  apply setattr_unlocked; [exact L3 | slot].
Qed.

Lemma lock_unlocked st o :
  attr st o "locked" = Some (VBool false) → lock o st = lock_outcome o st.
Proof.
  intros L. unfold lock, lock_outcome.
  pose proof (attr_alive _ _ _ _ L) as A.
  rewrite (bind_ok _ _ _ _ _ (getattr_attr _ _ _ _ L)).
  simpl truthy. rewrite run_bind, run_ret. cbv iota.
  rewrite run_bind.
  pose proof (reads_py_str (VRef o) st) as R1.
  destruct (py_str (VRef o) st) as [[s|e] st0]; simpl in R1; subst st0;
    [|reflexivity].
  erewrite bind_ok by (apply setattr_unlocked; [exact L | slot]).
  set (s1 := set_attr o "str" (VStr s) st).
  assert (L1 : attr s1 o "locked" = Some (VBool false))
    by (unfold s1; rewrite attr_set_attr_name by done; exact L).
  erewrite bind_ok by (apply setattr_unlocked; [exact L1 | slot]).
  set (s2 := set_attr o "_str" (VClosure L_str o) s1).
  assert (L2 : attr s2 o "locked" = Some (VBool false))
    by (unfold s2; rewrite attr_set_attr_name by done; exact L1).
  rewrite run_bind.
  pose proof (reads_py_len (VRef o) s2) as R2.
  destruct (py_len (VRef o) s2) as [[n|e] st0]; simpl in R2; subst st0;
    [|reflexivity].
  erewrite bind_ok by (apply setattr_unlocked; [exact L2 | slot]).
  set (s3 := set_attr o "len" (VInt n) s2).
  assert (L3 : attr s3 o "locked" = Some (VBool false))
    by (unfold s3; rewrite attr_set_attr_name by done; exact L2).
  erewrite bind_ok by (apply setattr_unlocked; [exact L3 | slot]).
  set (s4 := set_attr o "_len" (VClosure L_len o) s3).
  assert (L4 : attr s4 o "locked" = Some (VBool false))
    by (unfold s4; rewrite attr_set_attr_name by done; exact L3).
  assert (S4 : attr s4 o "_str" = Some (VClosure L_str o)).
  { unfold s4, s3. rewrite !attr_set_attr_name by done.
    apply attr_set_attr_eq. apply set_attr_alive, A. }
  assert (T4 : attr s4 o "str" = Some (VStr s)).
  { unfold s4, s3, s2. rewrite !attr_set_attr_name by done.
    apply attr_set_attr_eq, A. }
  erewrite bind_ok by (apply getattr_attr, S4).
  simpl call0.
  erewrite bind_ok by (apply getattr_attr, T4).
  simpl py_hash. rewrite run_bind, run_lift.
  destruct (builtin_hash (VStr s)) as [k|e]; [|reflexivity].
  erewrite bind_ok by (apply setattr_unlocked; [exact L4 | slot]).
  set (s5 := set_attr o "_hash" (VInt k) s4).
  assert (L5 : attr s5 o "locked" = Some (VBool false))
    by (unfold s5; rewrite attr_set_attr_name by done; exact L4).
  rewrite (setattr_unlocked _ _ _ _ L5) by slot.
  reflexivity.
Qed.

End LockFacts.

(** ** Assignment to an attribute *)

Section SetattrTheorems.
Context `{Runtime}.
Import LockableType.

Lemma lock_ok_inv st o st' :
  attr st o "locked" = Some (VBool false) →
  lock o st = (Ok (), st') →
  ∃ s n k, py_str (VRef o) st = (Ok s, st) ∧
           builtin_hash (VStr s) = Ok k ∧
           st' = cache_state o s n k st.
Proof.
  intros L E. rewrite (lock_unlocked _ _ L) in E. unfold lock_outcome in E.
  pose proof (reads_py_str (VRef o) st) as R1.
  destruct (py_str (VRef o) st) as [[s|e] st0] eqn:Es; simpl in R1; subst st0;
    [|discriminate].
  destruct (py_len _ _) as [[n|e] st0]; [|discriminate].
  destruct (builtin_hash (VStr s)) as [k|e] eqn:Ek; [|discriminate].
  exists s, n, k. split; [reflexivity|]. split; [exact Ek|].
  injection E as E. symmetry. exact E.
Qed.

Lemma attr_cache_state_str st o s n k :
  is_Some (heap st !! o) → attr (cache_state o s n k st) o "str" = Some (VStr s).
Proof.
  intros A. unfold cache_state. rewrite !attr_set_attr_name by done.
  apply attr_set_attr_eq, A.
Qed.

Lemma attr_cache_state_len st o s n k :
  is_Some (heap st !! o) → attr (cache_state o s n k st) o "len" = Some (VInt n).
Proof.
  intros A. unfold cache_state. rewrite !attr_set_attr_name by done.
  apply attr_set_attr_eq. by rewrite !set_attr_alive.
Qed.

Lemma attr_cache_state_hash st o s n k :
  is_Some (heap st !! o) → attr (cache_state o s n k st) o "_hash" = Some (VInt k).
Proof.
  intros A. unfold cache_state. rewrite !attr_set_attr_name by done.
  apply attr_set_attr_eq. by rewrite !set_attr_alive.
Qed.

Lemma attr_cache_state_locked st o s n k :
  is_Some (heap st !! o) →
  attr (cache_state o s n k st) o "locked" = Some (VBool true).
Proof.
  intros A. unfold cache_state.
  apply attr_set_attr_eq. by rewrite !set_attr_alive.
Qed.

Lemma attr_cache_state_str_fn st o s n k :
  is_Some (heap st !! o) →
  attr (cache_state o s n k st) o "_str" = Some (VClosure L_str o).
Proof.
  intros A. unfold cache_state. rewrite !attr_set_attr_name by done.
  apply attr_set_attr_eq. by rewrite set_attr_alive.
Qed.

Lemma attr_cache_state_len_fn st o s n k :
  is_Some (heap st !! o) →
  attr (cache_state o s n k st) o "_len" = Some (VClosure L_len o).
Proof.
  intros A. unfold cache_state. rewrite !attr_set_attr_name by done.
  apply attr_set_attr_eq. by rewrite !set_attr_alive.
Qed.

(** [str()], [len()] and [hash()] of an object that holds the two
    functions of [lock()] and an integer as hash. *)
Lemma py_str_cached st o s :
  attr st o "_str" = Some (VClosure L_str o) →
  attr st o "str" = Some (VStr s) →
  py_str (VRef o) st = (Ok s, st).
Proof.
  intros S T. simpl. unfold __str__.
  rewrite run_bind, (bind_ok _ _ _ _ _ (getattr_attr _ _ _ _ S)).
  simpl call0. rewrite (getattr_attr _ _ _ _ T). reflexivity.
Qed.

Lemma py_len_cached st o n :
  attr st o "_len" = Some (VClosure L_len o) →
  attr st o "len" = Some (VInt n) →
  py_len (VRef o) st = (check_len (VInt n), st).
Proof.
  intros S T. simpl. unfold __len__.
  rewrite run_bind, (bind_ok _ _ _ _ _ (getattr_attr _ _ _ _ S)).
  simpl call0. rewrite (getattr_attr _ _ _ _ T), run_lift. reflexivity.
Qed.

Lemma py_hash_int st o a :
  attr st o "_hash" = Some (VInt a) →
  py_hash (VRef o) st = (Ok (slot_hash a), st).
Proof.
  intros E. simpl. unfold __hash__.
  rewrite (bind_ok _ _ _ _ _ (getattr_attr _ _ _ _ E)). reflexivity.
Qed.

(** The message of the guard on an object that [lock()] has locked. *)
Lemma repr_of_locked st o s :
  attr st o "_str" = Some (VClosure L_str o) →
  attr st o "str" = Some (VStr s) →
  getattr o "_USE_STRING" st = (Ok (VBool true), st) →
  (r ← __repr__ o; py_str r) st = (Ok s, st).
Proof.
  intros Es Et Eu. unfold __repr__.
  rewrite run_bind, (bind_ok _ _ _ _ _ Eu).
  simpl truthy. rewrite run_bind, run_ret. cbv iota.
  unfold __str__. rewrite (bind_ok _ _ _ _ _ (getattr_attr _ _ _ _ Es)).
  simpl call0. rewrite (getattr_attr _ _ _ _ Et). reflexivity.
Qed.

(** C1, as the code has it.  On an object whose [locked] flag is [True],
    assigning any attribute, whatever the name and the value, raises and
    leaves the store as it was; the exception is the [AttributeError] of
    the guard whenever the object can be rendered for its message, which
    is the case when it holds the function and the string [lock()] stores,
    so after every [lock()], in a class that keeps [_USE_STRING].  On an
    object whose flag is [False] the assignment stores the value, for
    every name kept in the instance dictionary (the type-level names are
    refused by [object.__setattr__]); and a following [lock()] that finds
    the flag still [False] caches the rendering, and its hash, computed
    from the store that holds the new value. *)
Theorem setattr_guard (st : state) (o : oid) (name : string) (v : value) (b : bool) :
  attr st o "locked" = Some (VBool b) →
  if b then
    (∃ e, __setattr__ o name v st = (Raise e, st)) ∧
    (∀ msg, ((r ← __repr__ o; py_str r) st).1 = Ok msg →
            __setattr__ o name v st = (Raise AttributeError, st)) ∧
    (∀ s, attr st o "_str" = Some (VClosure L_str o) →
          attr st o "str" = Some (VStr s) →
          getattr o "_USE_STRING" st = (Ok (VBool true), st) →
          __setattr__ o name v st = (Raise AttributeError, st)) ∧
    (∀ st0, attr st0 o "locked" = Some (VBool false) →
            lock o st0 = (Ok (), st) →
            getattr o "_USE_STRING" st = (Ok (VBool true), st) →
            __setattr__ o name v st = (Raise AttributeError, st))
  else
    is_type_slot name = false →
    let st1 := set_attr o name v st in
    __setattr__ o name v st = (Ok (), st1) ∧
    attr st1 o name = Some v ∧
    (∀ st2, attr st1 o "locked" = Some (VBool false) →
            lock o st1 = (Ok (), st2) →
            ∃ s k, py_str (VRef o) st1 = (Ok s, st1) ∧
                   builtin_hash (VStr s) = Ok k ∧
                   attr st2 o "str" = Some (VStr s) ∧
                   attr st2 o "_hash" = Some (VInt k) ∧
                   attr st2 o "locked" = Some (VBool true)).
Proof.
  intros L. destruct b.
  - rewrite (setattr_locked _ _ _ _ L). split; [|split; [|split]].
    + destruct ((r ← __repr__ o; py_str r) st) as [[?|?] ?]; eauto.
    + intros msg E.
      destruct ((r ← __repr__ o; py_str r) st) as [[?|?] ?]; simpl in E;
        [reflexivity | discriminate].
    + intros s Es Et Eu. rewrite (repr_of_locked _ _ _ Es Et Eu). reflexivity.
    + intros st0 L0 E0 Eu.
      destruct (lock_ok_inv _ _ _ L0 E0) as (s & n & k & _ & _ & ->).
      pose proof (attr_alive _ _ _ _ L0) as A0.
      rewrite (repr_of_locked _ _ s (attr_cache_state_str_fn st0 o s n k A0)
                 (attr_cache_state_str st0 o s n k A0) Eu).
      reflexivity.
  - intros S st1. pose proof (attr_alive _ _ _ _ L) as A.
    split; [apply setattr_unlocked; assumption|].
    split; [apply attr_set_attr_eq, A|].
    intros st2 L1 E.
    destruct (lock_ok_inv _ _ _ L1 E) as (s & n & k & Es & Ek & ->).
    assert (A1 : is_Some (heap st1 !! o)) by (unfold st1; by rewrite set_attr_alive).
    exists s, k. split; [exact Es|]. split; [exact Ek|].
    split; [by apply attr_cache_state_str|].
    split; [by apply attr_cache_state_hash | by apply attr_cache_state_locked].
Qed.

End SetattrTheorems.

(** The guard at work on the terminal "a": locked, the assignment of a new
    text is refused with [AttributeError]; unlocked, it is stored and the
    next [lock()] caches "b". *)
Lemma setattr_guard_witness :
  (attr sample_locked 0%nat "locked" = Some (VBool true) ∧
   LockableType.__setattr__ 0%nat "text" (VStr "b") sample_locked
     = (Raise AttributeError, sample_locked)) ∧
  (attr sample_unlocked 0%nat "locked" = Some (VBool false) ∧
   attr (LockableType.lock 0%nat
           (set_attr 0%nat "text" (VStr "b") sample_unlocked)).2 0%nat "str"
     = Some (VStr "b")).
Proof.
  split.
  - assert (L : attr sample_locked 0%nat "locked" = Some (VBool true))
      by (vm_compute; reflexivity).
    split; [exact L|].
    destruct (setattr_guard sample_locked 0%nat "text" (VStr "b") true L)
      as (_ & E & _).
    apply (E "a"). vm_compute. reflexivity.
  - assert (L : attr sample_unlocked 0%nat "locked" = Some (VBool false))
      by (vm_compute; reflexivity).
    split; [exact L|].
    destruct (setattr_guard sample_unlocked 0%nat "text" (VStr "b") false L)
      as (_ & _ & E); [vm_compute; reflexivity|].
    destruct (E (LockableType.lock 0%nat
                   (set_attr 0%nat "text" (VStr "b") sample_unlocked)).2)
      as (s & k & Es & _ & Et & _).
    + vm_compute. reflexivity.
    + vm_compute. reflexivity.
    + rewrite Et. f_equal. f_equal.
      assert (E1 : LockableType.py_str (VRef 0%nat)
                     (set_attr 0%nat "text" (VStr "b") sample_unlocked)
                   = (Ok "b", set_attr 0%nat "text" (VStr "b") sample_unlocked))
        by (vm_compute; reflexivity).
      congruence.
Defined.

(** Two assignments on the unlocked terminal "a" that the guard lets
    through.  [x.__class__ = "a"] is refused by [object.__setattr__] with
    [TypeError].  [x.locked = True] succeeds, and the [lock()] after it
    returns at once: [str] is still the empty string of [__init__] while
    the terminal renders as "a", so the new value took no part in any
    caching. *)
Lemma setattr_guard_counterexample :
  attr sample_unlocked 0%nat "locked" = Some (VBool false) ∧
  LockableType.__setattr__ 0%nat "__class__" (VStr "a") sample_unlocked
    = (Raise TypeError, sample_unlocked) ∧
  LockableType.__setattr__ 0%nat "locked" (VBool true) sample_unlocked
    = (Ok (), sample_hand_locked) ∧
  LockableType.lock 0%nat sample_hand_locked = (Ok (), sample_hand_locked) ∧
  attr sample_hand_locked 0%nat "str" = Some (VStr "") ∧
  LockableType.py_str (VRef 0%nat) sample_hand_locked
    = (Ok "a", sample_hand_locked).
Proof. repeat split; vm_compute; reflexivity. Qed.

(** An object of the base class itself cannot be rendered: its [_str] comes
    back to [__repr__].  Locked by assigning the flag, it refuses an
    assignment while the guard is still building its message. *)
Lemma guard_message_on_base_class :
  let st := set_attr 0%nat "locked" (VBool true) sample_base in
  LockableType.__setattr__ 0%nat "locked" (VBool true) sample_base = (Ok (), st) ∧
  LockableType.__setattr__ 0%nat "text" (VStr "b") st = (Raise RecursionError, st).
Proof. split; vm_compute; reflexivity. Qed.

(** ** unlock() then lock() *)

Section RoundTrip.
Context `{PayloadRules}.
Import LockableType.

Ltac slot := compute_done.

Lemma same_payload_refl o h : same_payload o h h.
Proof. repeat split. Qed.

Lemma same_payload_set_attr o h st name v :
  name ∈ lockable_slots →
  same_payload o h (heap st) →
  same_payload o h (heap (set_attr o name v st)).
Proof.
  intros S P. unfold set_attr.
  destruct (heap st !! o) as [ob|] eqn:E; [|exact P].
  destruct P as (P1 & P2 & P3). simpl. split; [|split].
  - intros x N. rewrite lookup_insert_ne by done. apply P1, N.
  - rewrite lookup_insert_eq. simpl. rewrite <- P2, E. reflexivity.
  - intros name' N. rewrite lookup_insert_eq. simpl.
    rewrite lookup_insert_ne by (intros ->; exact (N S)).
    rewrite <- (P3 name' N), E. reflexivity.
Qed.

Lemma same_payload_cache_state o h st s n k :
  same_payload o h (heap st) → same_payload o h (heap (cache_state o s n k st)).
Proof.
  intros P. unfold cache_state.
  do 6 (apply same_payload_set_attr; [slot|]). exact P.
Qed.

Lemma same_payload_unlocked_state o h st f g k :
  same_payload o h (heap st) → same_payload o h (heap (unlocked_state o f g k st)).
Proof.
  intros P. unfold unlocked_state.
  do 4 (apply same_payload_set_attr; [slot|]). exact P.
Qed.

Lemma getattr_set_attr_name st o name v o' name' r :
  name' ≠ name →
  getattr o' name' st = (Ok r, st) →
  getattr o' name' (set_attr o name v st) = (Ok r, set_attr o name v st).
Proof.
  intros N. unfold getattr, set_attr.
  destruct (heap st !! o) as [ob|] eqn:E; [|done].
  simpl. destruct (decide (o' = o)) as [->|No].
  - rewrite lookup_insert_eq, E. simpl. rewrite lookup_insert_ne by done.
    destruct (odict ob !! name'); [congruence|].
    repeat case_match; congruence.
  - rewrite lookup_insert_ne by done.
    destruct (heap st !! o') as [ob'|]; [|done].
    destruct (odict ob' !! name'); [congruence|].
    repeat case_match; congruence.
Qed.

Lemma class_of_class_name st o c :
  class_name st o = Some c → class_of o st = (Ok c, st).
Proof.
  unfold class_name, class_of. destruct (heap st !! o); simpl; congruence.
Qed.

(** [str()] and [len()] of an object whose [_str] and [_len] are the
    methods of its class. *)
Lemma py_str_method st o c :
  class_name st o = Some c →
  getattr o "_str" st = (Ok (VMethod M_str o), st) →
  py_str (VRef o) st = (_str c (heap st) o, st).
Proof.
  intros C G. simpl. unfold __str__.
  rewrite run_bind, (bind_ok _ _ _ _ _ G). simpl.
  rewrite (bind_ok _ _ _ _ _ (class_of_class_name _ _ _ C)).
  rewrite run_bind, run_get_heap, run_bind, run_lift.
  destruct (_str c (heap st) o); reflexivity.
Qed.

Lemma py_len_method st o c :
  class_name st o = Some c →
  getattr o "_len" st = (Ok (VMethod M_len o), st) →
  py_len (VRef o) st =
    (match _len c (heap st) o with
     | Ok n => check_len (VInt n)
     | Raise e => Raise e
     end, st).
Proof.
  intros C G. simpl. unfold __len__.
  rewrite run_bind, (bind_ok _ _ _ _ _ G). simpl.
  rewrite (bind_ok _ _ _ _ _ (class_of_class_name _ _ _ C)).
  rewrite run_bind, run_get_heap, run_bind, run_lift.
  destruct (_len c (heap st) o); reflexivity.
Qed.

(** C7, as the code has it.  Take a class whose rendering and length rules
    read the payload, not the attributes [lock()] and [unlock()] write;
    take an unlocked object of it that still has what [__init__] stored
    as its originals and whose [_str] and [_len] are the methods of its
    class, and let [lock()] lock it.  The cached rendering, length and
    hash are then what [str()], [len()] and [hash()] answer, the hash
    being the hash of the rendering.  [unlock()] succeeds, clears the flag
    and puts the identity token back as the hash, the object rendering as
    before; a second [unlock()] changes nothing; and [lock()] after it
    caches the same rendering, the same length and the same hash as the
    first [lock()] had, and [str()], [len()] and [hash()] answer as they
    did before the object was unlocked. *)
Theorem unlock_lock_roundtrip (st s1 : state) (o : oid) (k0 : Z) :
  attr st o "locked" = Some (VBool false) →
  getattr o "_str" st = (Ok (VMethod M_str o), st) →
  getattr o "_len" st = (Ok (VMethod M_len o), st) →
  attr st o "_original_str" = Some (VMethod M_str o) →
  attr st o "_original_len" = Some (VMethod M_len o) →
  attr st o "_original_hash" = Some (VInt k0) →
  lock o st = (Ok (), s1) →
  ∃ s2 s3 s n k,
    attr s1 o "str" = Some (VStr s) ∧
    attr s1 o "len" = Some (VInt n) ∧
    attr s1 o "_hash" = Some (VInt k) ∧
    unlock o s1 = (Ok (), s2) ∧
    attr s2 o "locked" = Some (VBool false) ∧
    attr s2 o "_hash" = Some (VInt k0) ∧
    unlock o s2 = (Ok (), s2) ∧
    lock o s2 = (Ok (), s3) ∧
    attr s3 o "locked" = Some (VBool true) ∧
    attr s3 o "str" = Some (VStr s) ∧
    attr s3 o "len" = Some (VInt n) ∧
    attr s3 o "_hash" = Some (VInt k) ∧
    builtin_hash (VStr s) = Ok k ∧
    py_str (VRef o) st = (Ok s, st) ∧
    (py_str (VRef o) s1 = (Ok s, s1) ∧
     py_len (VRef o) s1 = (Ok n, s1) ∧
     py_hash (VRef o) s1 = (Ok (slot_hash k), s1)) ∧
    (py_str (VRef o) s2 = (Ok s, s2) ∧
     py_hash (VRef o) s2 = (Ok (slot_hash k0), s2)) ∧
    (py_str (VRef o) s3 = (Ok s, s3) ∧
     py_len (VRef o) s3 = (Ok n, s3) ∧
     py_hash (VRef o) s3 = (Ok (slot_hash k), s3)).
Proof.
  intros L Gs Gl Os Ol Oh E.
  pose proof (attr_alive _ _ _ _ L) as A.
  destruct A as [ob Eob].
  assert (C : class_name st o = Some (ocls ob))
    by (unfold class_name; rewrite Eob; reflexivity).
  assert (A : is_Some (heap st !! o)) by eauto.
  (* the first lock *)
  rewrite (lock_unlocked _ _ L) in E. unfold lock_outcome in E.
  rewrite (py_str_method _ _ _ C Gs) in E.
  destruct (_str (ocls ob) (heap st) o) as [s|e] eqn:Es; [|discriminate].
  set (st2 := set_attr o "_str" (VClosure L_str o) (set_attr o "str" (VStr s) st)) in E.
  assert (Gl2 : getattr o "_len" st2 = (Ok (VMethod M_len o), st2)).
  { unfold st2. apply getattr_set_attr_name; [done|].
    apply getattr_set_attr_name; [done | exact Gl]. }
  assert (C2 : class_name st2 o = Some (ocls ob))
    by (unfold st2; rewrite !class_name_set_attr; exact C).
  rewrite (py_len_method _ _ _ C2 Gl2) in E.
  assert (P2 : same_payload o (heap st) (heap st2)).
  { unfold st2. do 2 (apply same_payload_set_attr; [slot|]).
    apply same_payload_refl. }
  rewrite (_len_payload _ _ _ _ P2) in E.
  destruct (_len (ocls ob) (heap st) o) as [n0|e] eqn:El; [|discriminate].
  destruct (check_len (VInt n0)) as [n|e] eqn:En; [|discriminate].
  destruct (builtin_hash (VStr s)) as [k|e] eqn:Ek; [|discriminate].
  injection E as E. subst s1.
  assert (En' : check_len (VInt n) = Ok n).
  { revert En. unfold check_len.
    destruct (n0 <? 0) eqn:E1; [discriminate|].
    destruct (maxsize <? n0) eqn:E2; [discriminate|].
    intros [= <-]. rewrite E1, E2. reflexivity. }
  assert (Answers : ∀ t, is_Some (heap t !! o) →
            py_str (VRef o) (cache_state o s n k t) = (Ok s, cache_state o s n k t) ∧
            py_len (VRef o) (cache_state o s n k t) = (Ok n, cache_state o s n k t) ∧
            py_hash (VRef o) (cache_state o s n k t)
              = (Ok (slot_hash k), cache_state o s n k t)).
  { intros t At. split; [|split].
    - apply py_str_cached;
        [by apply attr_cache_state_str_fn | by apply attr_cache_state_str].
    - rewrite (py_len_cached _ _ n), En';
        [reflexivity | by apply attr_cache_state_len_fn
         | by apply attr_cache_state_len].
    - apply py_hash_int. by apply attr_cache_state_hash. }
  (* unlock *)
  set (s1 := cache_state o s n k st).
  assert (A1 : is_Some (heap s1 !! o))
    by (unfold s1, cache_state; by rewrite !set_attr_alive).
  assert (X : ∀ name v, name ∉ lockable_slots →
              attr st o name = Some v → attr s1 o name = Some v).
  { intros name v N Hv. unfold s1, cache_state.
    rewrite !attr_set_attr_name by (intros ->; apply N; slot).
    exact Hv. }
  set (s2 := unlocked_state o (VMethod M_len o) (VMethod M_str o) (VInt k0) s1).
  assert (U : unlock o s1 = (Ok (), s2)).
  { apply unlock_locked.
    - by apply attr_cache_state_locked.
    - apply X; [slot | exact Ol].
    - apply X; [slot | exact Os].
    - apply X; [slot | exact Oh]. }
  assert (A2 : is_Some (heap s2 !! o))
    by (unfold s2, unlocked_state; by rewrite !set_attr_alive).
  assert (L2 : attr s2 o "locked" = Some (VBool false)).
  { unfold s2, unlocked_state. rewrite !attr_set_attr_name by done.
    apply attr_set_attr_eq, A1. }
  assert (Hh : attr s2 o "_hash" = Some (VInt k0)).
  { unfold s2, unlocked_state. apply attr_set_attr_eq.
    by rewrite !set_attr_alive. }
  assert (Gs2 : getattr o "_str" s2 = (Ok (VMethod M_str o), s2)).
  { apply getattr_attr. unfold s2, unlocked_state.
    rewrite !attr_set_attr_name by done. apply attr_set_attr_eq.
    by rewrite !set_attr_alive. }
  assert (Gl2' : getattr o "_len" s2 = (Ok (VMethod M_len o), s2)).
  { apply getattr_attr. unfold s2, unlocked_state.
    rewrite !attr_set_attr_name by done. apply attr_set_attr_eq.
    by rewrite !set_attr_alive. }
  assert (Cs2 : class_name s2 o = Some (ocls ob)).
  { unfold s2, unlocked_state, s1, cache_state.
    rewrite !class_name_set_attr. exact C. }
  assert (Ps2 : same_payload o (heap st) (heap s2)).
  { apply same_payload_unlocked_state, same_payload_cache_state,
      same_payload_refl. }
  (* the second lock *)
  assert (K : lock o s2 = (Ok (), cache_state o s n k s2)).
  { rewrite (lock_unlocked _ _ L2). unfold lock_outcome.
    rewrite (py_str_method _ _ _ Cs2 Gs2), (_str_payload _ _ _ _ Ps2), Es.
    set (t2 := set_attr o "_str" (VClosure L_str o) (set_attr o "str" (VStr s) s2)).
    assert (Gt : getattr o "_len" t2 = (Ok (VMethod M_len o), t2)).
    { unfold t2. apply getattr_set_attr_name; [done|].
      apply getattr_set_attr_name; [done | exact Gl2']. }
    assert (Ct : class_name t2 o = Some (ocls ob))
      by (unfold t2; rewrite !class_name_set_attr; exact Cs2).
    assert (Pt : same_payload o (heap st) (heap t2)).
    { unfold t2. do 2 (apply same_payload_set_attr; [slot|]).
      exact Ps2. }
    rewrite (py_len_method _ _ _ Ct Gt), (_len_payload _ _ _ _ Pt), El, En, Ek.
    reflexivity. }
  exists s2, (cache_state o s n k s2), s, n, k.
  split; [by apply attr_cache_state_str|].
  split; [by apply attr_cache_state_len|].
  split; [by apply attr_cache_state_hash|].
  split; [exact U|].
  split; [exact L2|].
  split; [exact Hh|].
  split; [by apply unlock_unlocked|].
  split; [exact K|].
  split; [by apply attr_cache_state_locked|].
  split; [by apply attr_cache_state_str|].
  split; [by apply attr_cache_state_len|].
  split; [by apply attr_cache_state_hash|].
  split; [exact Ek|].
  split; [rewrite (py_str_method _ _ _ C Gs), Es; reflexivity|].
  split; [exact (Answers st A)|].
  split; [|exact (Answers s2 A2)].
  split; [|apply py_hash_int, Hh].
  rewrite (py_str_method _ _ _ Cs2 Gs2), (_str_payload _ _ _ _ Ps2), Es.
  reflexivity.
Qed.

End RoundTrip.

(** The rules of the sample runtime read the payload only. *)
Lemma Symbol__str_payload o h h' m :
  same_payload o h h' → Symbols.Symbol__str h' m = Symbols.Symbol__str h m.
Proof.
  intros (P1 & P2 & P3). unfold Symbols.Symbol__str.
  destruct (decide (m = o)) as [->|N]; [|rewrite (P1 m N); reflexivity].
  assert (T : "text" ∉ lockable_slots) by compute_done.
  specialize (P3 "text" T).
  destruct (h' !! o) as [ob'|], (h !! o) as [ob|]; simpl in *;
    try discriminate; [|reflexivity].
  rewrite P3. reflexivity.
Qed.

Lemma member_texts_payload o h h' l :
  same_payload o h h' → member_texts h' l = member_texts h l.
Proof.
  intros P. induction l as [|v l IH]; [reflexivity|].
  destruct v; try reflexivity. simpl.
  rewrite IH, (Symbol__str_payload _ _ _ _ P). reflexivity.
Qed.

Lemma sample_attr_payload o h h' name :
  same_payload o h h' → name ∉ lockable_slots →
  match h' !! o with
  | Some ob => Some (odict ob !! name)
  | None => None
  end =
  match h !! o with
  | Some ob => Some (odict ob !! name)
  | None => None
  end.
Proof.
  intros (_ & P2 & P3) N. specialize (P3 name N).
  destruct (h' !! o) as [ob'|], (h !! o) as [ob|]; simpl in *;
    try discriminate; [|reflexivity].
  rewrite P3. reflexivity.
Qed.

#[global] Instance sample_payload_rules : @PayloadRules sample_runtime.
Proof.
  split; intros c o h h' P; simpl.
  - unfold sample_str.
    rewrite (Symbol__str_payload _ _ _ _ P).
    destruct (is_symbol_class c); [reflexivity|].
    destruct (String.eqb c "Production"); [|reflexivity].
    assert (T : "symbols" ∉ lockable_slots) by compute_done.
    pose proof (sample_attr_payload _ _ _ _ P T) as E.
    destruct (h' !! o) as [ob'|], (h !! o) as [ob|]; try discriminate;
      [|reflexivity].
    injection E as ->.
    destruct (odict ob !! "symbols") as [[]|]; try reflexivity.
    apply (member_texts_payload _ _ _ _ P).
  - unfold sample_len.
    rewrite (Symbol__str_payload _ _ _ _ P).
    destruct (is_symbol_class c); [reflexivity|].
    destruct (String.eqb c "Production"); [|reflexivity].
    assert (T : "symbols" ∉ lockable_slots) by compute_done.
    pose proof (sample_attr_payload _ _ _ _ P T) as E.
    destruct (h' !! o) as [ob'|], (h !! o) as [ob|]; try discriminate;
      [|reflexivity].
    injection E as ->. reflexivity.
Qed.

(** The round trip on the terminal "a": rendering "a", length 1 and the
    hash of "a" come back, and in between the hash is the token 1. *)
Lemma unlock_lock_roundtrip_witness :
  (attr sample_unlocked 0%nat "locked" = Some (VBool false) ∧
   LockableType.lock 0%nat sample_unlocked = (Ok (), sample_locked)) ∧
  ∃ s2 s3 s n k,
    attr sample_locked 0%nat "str" = Some (VStr s) ∧
    attr sample_locked 0%nat "len" = Some (VInt n) ∧
    attr sample_locked 0%nat "_hash" = Some (VInt k) ∧
    LockableType.unlock 0%nat sample_locked = (Ok (), s2) ∧
    attr s2 0%nat "locked" = Some (VBool false) ∧
    attr s2 0%nat "_hash" = Some (VInt 1) ∧
    LockableType.unlock 0%nat s2 = (Ok (), s2) ∧
    LockableType.lock 0%nat s2 = (Ok (), s3) ∧
    attr s3 0%nat "locked" = Some (VBool true) ∧
    attr s3 0%nat "str" = Some (VStr s) ∧
    attr s3 0%nat "len" = Some (VInt n) ∧
    attr s3 0%nat "_hash" = Some (VInt k) ∧
    LockableType.py_str (VRef 0%nat) s3 = (Ok s, s3) ∧
    LockableType.py_len (VRef 0%nat) s3 = (Ok n, s3) ∧
    LockableType.py_hash (VRef 0%nat) s3 = (Ok (slot_hash k), s3).
Proof.
  assert (L : attr sample_unlocked 0%nat "locked" = Some (VBool false))
    by (vm_compute; reflexivity).
  assert (E : LockableType.lock 0%nat sample_unlocked = (Ok (), sample_locked))
    by (vm_compute; reflexivity).
  assert (Gs : LockableType.getattr 0%nat "_str" sample_unlocked
               = (Ok (VMethod M_str 0%nat), sample_unlocked))
    by (vm_compute; reflexivity).
  assert (Gl : LockableType.getattr 0%nat "_len" sample_unlocked
               = (Ok (VMethod M_len 0%nat), sample_unlocked))
    by (vm_compute; reflexivity).
  assert (Os : attr sample_unlocked 0%nat "_original_str"
               = Some (VMethod M_str 0%nat))
    by (vm_compute; reflexivity).
  assert (Ol : attr sample_unlocked 0%nat "_original_len"
               = Some (VMethod M_len 0%nat))
    by (vm_compute; reflexivity).
  assert (Oh : attr sample_unlocked 0%nat "_original_hash" = Some (VInt 1))
    by (vm_compute; reflexivity).
  split; [split; [exact L | exact E]|].
  destruct (unlock_lock_roundtrip sample_unlocked sample_locked 0%nat 1
              L Gs Gl Os Ol Oh E)
    as (s2 & s3 & s & n & k & H1 & H2 & H3 & H4 & H5 & H6 & H7 & H8 & H9
        & H10 & H11 & H12 & _ & _ & _ & _ & H13).
  exists s2, s3, s, n, k. repeat (split; [assumption|]). exact H13.
Defined.

(** Two locked values on which the round trip does not give back what
    they had.  The terminal "a" locked by assigning the flag has the empty
    string of [__init__] as [str], no [len], and its identity token 1 as
    hash; after [unlock()] and [lock()] it has "a", 1 and the hash of "a".
    The object of a class that renders through [get_representation],
    locked by [lock()], has its first rendering cached; [unlock()] leaves
    that in [str], so the second [lock()] renders it too and caches
    another string and another hash. *)
Lemma unlock_lock_roundtrip_counterexample :
  (attr sample_hand_locked 0%nat "locked" = Some (VBool true) ∧
   attr sample_hand_locked 0%nat "str" = Some (VStr "") ∧
   attr sample_hand_locked 0%nat "len" = None ∧
   LockableType.py_hash (VRef 0%nat) sample_hand_locked
     = (Ok 1, sample_hand_locked) ∧
   let st := (unlock_then_lock 0%nat sample_hand_locked).2 in
   (unlock_then_lock 0%nat sample_hand_locked).1 = Ok () ∧
   attr st 0%nat "str" = Some (VStr "a") ∧
   attr st 0%nat "len" = Some (VInt 1) ∧
   LockableType.py_hash (VRef 0%nat) st = (Ok (sample_hash "a"), st) ∧
   sample_hash "a" ≠ 1) ∧
  (let s1 := (@LockableType.lock listing_runtime 0%nat sample_listing).2 in
   let s3 := (@unlock_then_lock listing_runtime 0%nat s1).2 in
   (@LockableType.lock listing_runtime 0%nat sample_listing).1 = Ok () ∧
   attr s1 0%nat "locked" = Some (VBool true) ∧
   attr s1 0%nat "str" = Some (VStr "Listing str: ;") ∧
   (@unlock_then_lock listing_runtime 0%nat s1).1 = Ok () ∧
   attr s3 0%nat "str" = Some (VStr "Listing str: Listing str: ;;") ∧
   attr s1 0%nat "_hash" ≠ attr s3 0%nat "_hash").
Proof.
  split.
  - repeat split; try (vm_compute; reflexivity). vm_compute. discriminate.
  - repeat split; try (vm_compute; reflexivity). vm_compute. discriminate.
Qed.

(** ** Construction *)

Section ConstructionFacts.
Context `{Runtime}.
Import LockableType.

Lemma attr_bump st o name : attr (bump st) o name = attr st o name.
Proof. reflexivity. Qed.

Lemma fresh_not_alive (st : state) : heap st !! fresh (dom (heap st)) = None.
Proof. apply not_elem_of_dom, is_fresh. Qed.

Lemma alloc_run cls st :
  alloc cls st = (Ok (fresh (dom (heap st))), alloc_state cls st).
Proof. reflexivity. Qed.

Lemma alloc_state_new cls st :
  heap (alloc_state cls st) !! fresh (dom (heap st)) = Some (PyObject cls ∅).
Proof. unfold alloc_state. simpl. apply lookup_insert_eq. Qed.

Lemma alloc_new_alive cls st :
  is_Some (heap (alloc_state cls st) !! fresh (dom (heap st))).
Proof. rewrite alloc_state_new. eauto. Qed.

Lemma alloc_state_token cls st :
  last_token (alloc_state cls st) = last_token st.
Proof. reflexivity. Qed.

Lemma alloc_state_old cls st x :
  x ≠ fresh (dom (heap st)) → heap (alloc_state cls st) !! x = heap st !! x.
Proof. intros N. unfold alloc_state. simpl. apply lookup_insert_ne. done. Qed.

Lemma attr_alloc_state_new cls st name :
  attr (alloc_state cls st) (fresh (dom (heap st))) name = None.
Proof. unfold attr. rewrite alloc_state_new. simpl. apply lookup_empty. Qed.

Lemma getattr_class_method st o (m : method) :
  is_Some (heap st !! o) →
  attr st o (match m with M_str => "_str" | M_len => "_len" end) = None →
  getattr o (match m with M_str => "_str" | M_len => "_len" end) st
    = (Ok (VMethod m o), st).
Proof.
  intros [ob E]. unfold attr, getattr. rewrite E. simpl. intros ->.
  destruct m; reflexivity.
Qed.

(** [__init__] on an object that has no [_str] and no [_len] of its own. *)
Lemma init_run st o :
  is_Some (heap st !! o) →
  attr st o "_str" = None →
  attr st o "_len" = None →
  __init__ o st = (Ok (), init_state o st).
Proof.
  intros A Ns Nl. unfold __init__, init_state.
  assert (E0 : object_setattr o "locked" (VBool false) st
               = (Ok (), set_attr o "locked" (VBool false) st))
    by (apply dict_set_alive, A).
  rewrite (bind_ok _ _ _ _ _ E0).
  set (s1 := set_attr o "locked" (VBool false) st).
  assert (A1 : is_Some (heap s1 !! o)) by (unfold s1; by rewrite set_attr_alive).
  assert (L1 : attr s1 o "locked" = Some (VBool false))
    by (apply attr_set_attr_eq, A).
  erewrite bind_ok by (apply setattr_unlocked; [exact L1 | compute_done]).
  set (s2 := set_attr o "locked" (VBool false) s1).
  assert (A2 : is_Some (heap s2 !! o)) by (unfold s2; by rewrite set_attr_alive).
  assert (L2 : attr s2 o "locked" = Some (VBool false))
    by (apply attr_set_attr_eq, A1).
  erewrite bind_ok by (apply setattr_unlocked; [exact L2 | compute_done]).
  set (s3 := set_attr o "str" (VStr "") s2).
  assert (A3 : is_Some (heap s3 !! o)) by (unfold s3; by rewrite set_attr_alive).
  assert (L3 : attr s3 o "locked" = Some (VBool false))
    by (unfold s3; rewrite attr_set_attr_name by done; exact L2).
  rewrite run_bind. unfold get_unique_hash at 1. cbv beta zeta.
  change (State (heap s3) (last_token s3 + 1)) with (bump s3).
  assert (T : last_token s3 = last_token st)
    by (unfold s3, s2, s1; rewrite !last_token_set_attr; reflexivity).
  rewrite T.
  erewrite bind_ok by (apply setattr_unlocked; [exact L3 | compute_done]).
  set (s4 := set_attr o "_hash" (VInt (last_token st + 1)) (bump s3)).
  assert (A4 : is_Some (heap s4 !! o))
    by (unfold s4; rewrite set_attr_alive; exact A3).
  assert (L4 : attr s4 o "locked" = Some (VBool false))
    by (unfold s4; rewrite attr_set_attr_name by done; exact L3).
  assert (X : ∀ name, name ∉ ["locked"; "str"; "_hash"] →
                      attr s4 o name = attr st o name).
  { intros name N. unfold s4, s3, s2, s1.
    rewrite attr_set_attr_name by (intros ->; apply N; compute_done).
    rewrite attr_bump.
    rewrite !attr_set_attr_name by (intros ->; apply N; compute_done).
    reflexivity. }
  erewrite bind_ok.
  2:{ apply (getattr_class_method s4 o M_len A4).
      rewrite X by compute_done. exact Nl. }
  erewrite bind_ok by (apply setattr_unlocked; [exact L4 | compute_done]).
  set (s5 := set_attr o "_original_len" (VMethod M_len o) s4).
  assert (A5 : is_Some (heap s5 !! o)) by (unfold s5; by rewrite set_attr_alive).
  assert (L5 : attr s5 o "locked" = Some (VBool false))
    by (unfold s5; rewrite attr_set_attr_name by done; exact L4).
  erewrite bind_ok.
  2:{ apply (getattr_class_method s5 o M_str A5).
      unfold s5. rewrite attr_set_attr_name by done.
      rewrite X by compute_done. exact Ns. }
  erewrite bind_ok by (apply setattr_unlocked; [exact L5 | compute_done]).
  set (s6 := set_attr o "_original_str" (VMethod M_str o) s5).
  assert (L6 : attr s6 o "locked" = Some (VBool false))
    by (unfold s6; rewrite attr_set_attr_name by done; exact L5).
  erewrite bind_ok.
  2:{ apply getattr_attr. unfold s6, s5. rewrite !attr_set_attr_name by done.
      apply attr_set_attr_eq. exact A3. }
  apply setattr_unlocked; [exact L6 | compute_done].
Qed.

Lemma construct_run cls st :
  construct cls st
  = (Ok (fresh (dom (heap st))), init_state (fresh (dom (heap st))) (alloc_state cls st)).
Proof.
  unfold construct. rewrite (bind_ok _ _ _ _ _ (alloc_run cls st)).
  erewrite bind_ok.
  2:{ apply init_run.
      - rewrite alloc_state_new. eauto.
      - apply attr_alloc_state_new.
      - apply attr_alloc_state_new. }
  reflexivity.
Qed.

(** What [__init__] leaves on the object and around it. *)
Lemma init_state_alive st o x :
  is_Some (heap (init_state o st) !! x) ↔ is_Some (heap st !! x).
Proof.
  unfold init_state. rewrite !set_attr_alive. unfold bump. simpl.
  rewrite !set_attr_alive. reflexivity.
Qed.

Lemma init_state_other st o x name :
  x ≠ o → attr (init_state o st) x name = attr st x name.
Proof.
  intros N. unfold init_state. rewrite !attr_set_attr_other by done.
  rewrite attr_bump. rewrite !attr_set_attr_other by done. reflexivity.
Qed.

Lemma init_state_heap_other st o x :
  x ≠ o → heap (init_state o st) !! x = heap st !! x.
Proof.
  intros N. unfold init_state. rewrite !heap_set_attr_other by done.
  unfold bump. simpl. rewrite !heap_set_attr_other by done. reflexivity.
Qed.

Lemma init_state_class st o x :
  class_name (init_state o st) x = class_name st x.
Proof.
  unfold init_state. rewrite !class_name_set_attr.
  unfold bump, class_name. simpl.
  change (ocls <$> heap ?s !! x) with (class_name s x).
  rewrite !class_name_set_attr. reflexivity.
Qed.

Lemma init_state_token st o :
  last_token (init_state o st) = last_token st + 1.
Proof.
  unfold init_state. rewrite !last_token_set_attr. unfold bump. simpl.
  rewrite !last_token_set_attr. reflexivity.
Qed.

Lemma init_state_locked st o :
  is_Some (heap st !! o) → attr (init_state o st) o "locked" = Some (VBool false).
Proof.
  intros A. unfold init_state. rewrite !attr_set_attr_name by done.
  rewrite attr_bump. rewrite attr_set_attr_name by done.
  apply attr_set_attr_eq. by rewrite set_attr_alive.
Qed.

Lemma init_state_hash st o :
  is_Some (heap st !! o) →
  attr (init_state o st) o "_hash" = Some (VInt (last_token st + 1)).
Proof.
  intros A. unfold init_state. rewrite !attr_set_attr_name by done.
  apply attr_set_attr_eq. unfold bump. simpl. by rewrite !set_attr_alive.
Qed.


End ConstructionFacts.

(** ** Equality and hash *)

Section EqualityFacts.
Context `{Runtime}.
Import LockableType.

Lemma slot_hash_small a : 0 ≤ a < 2 ^ 63 → slot_hash a = a.
Proof.
  intros R. unfold slot_hash.
  destruct (- 2 ^ 63 <=? a) eqn:E1; [|lia].
  destruct (a <? 2 ^ 63) eqn:E2; [|lia].
  simpl. destruct (a =? -1) eqn:E3; lia.
Qed.

Lemma isinstance_alive st o :
  is_Some (heap st !! o) → isinstance_LockableType (heap st) (VRef o) = true.
Proof. intros A. simpl. apply bool_decide_eq_true_2, A. Qed.

Lemma eq_lockable st x y a b :
  attr st x "_hash" = Some (VInt a) →
  attr st y "_hash" = Some (VInt b) →
  __eq__ x (VRef y) st = (Ok (slot_hash a =? slot_hash b), st).
Proof.
  intros Ea Eb. unfold __eq__.
  rewrite run_bind, run_get_heap.
  rewrite (isinstance_alive st x) by (eapply attr_alive, Ea).
  rewrite (isinstance_alive st y) by (eapply attr_alive, Eb).
  change (Bool.eqb true true) with true. cbv iota.
  rewrite (bind_ok _ _ _ _ _ (py_hash_int _ _ _ Ea)).
  rewrite (bind_ok _ _ _ _ _ (py_hash_int _ _ _ Eb)).
  reflexivity.
Qed.

Lemma eq_foreign st x other :
  is_Some (heap st !! x) →
  isinstance_LockableType (heap st) other = false →
  __eq__ x other st = (Raise TypeError, st).
Proof.
  intros A F. unfold __eq__.
  rewrite run_bind, run_get_heap.
  rewrite (isinstance_alive st x A), F. reflexivity.
Qed.

Lemma attr_cache_state_other st o s n k x name :
  x ≠ o → attr (cache_state o s n k st) x name = attr st x name.
Proof.
  intros N. unfold cache_state. rewrite !attr_set_attr_other by done.
  reflexivity.
Qed.

Lemma cache_state_alive st o s n k x :
  is_Some (heap (cache_state o s n k st) !! x) ↔ is_Some (heap st !! x).
Proof. unfold cache_state. rewrite !set_attr_alive. reflexivity. Qed.

(** C9.  For a lockable object [x]: against an operand that is not a
    lockable object, [__eq__] raises [TypeError] (it does not answer
    [False]) and leaves the store alone; against a lockable operand it
    returns a boolean, given that both hold an integer as hash, which is
    what [__init__], [lock] and [unlock] store there. *)
Theorem eq_operands (st : state) (x : oid) (other : value) :
  is_Some (heap st !! x) →
  (isinstance_LockableType (heap st) other = false →
     __eq__ x other st = (Raise TypeError, st)) ∧
  (∀ y a b, other = VRef y →
            attr st x "_hash" = Some (VInt a) →
            attr st y "_hash" = Some (VInt b) →
            ∃ r : bool, __eq__ x other st = (Ok r, st)).
Proof.
  intros A. split.
  - apply eq_foreign, A.
  - intros y a b -> Ea Eb. eexists. apply (eq_lockable _ _ _ _ _ Ea Eb).
Qed.

End EqualityFacts.

(** The terminal "a" compared with the string "a" and with the integer 1:
    both raise. *)
Lemma eq_operands_witness :
  is_Some (heap sample_locked !! 0%nat) ∧
  LockableType.__eq__ 0%nat (VStr "a") sample_locked = (Raise TypeError, sample_locked) ∧
  LockableType.__eq__ 0%nat (VInt 1) sample_locked = (Raise TypeError, sample_locked) ∧
  ∃ r : bool, LockableType.__eq__ 0%nat (VRef 0%nat) sample_locked = (Ok r, sample_locked).
Proof.
  assert (A : is_Some (heap sample_locked !! 0%nat)) by (vm_compute; eauto).
  split; [exact A|].
  split; [apply (eq_operands sample_locked 0%nat (VStr "a") A); reflexivity|].
  split; [apply (eq_operands sample_locked 0%nat (VInt 1) A); reflexivity|].
  apply (proj2 (eq_operands sample_locked 0%nat (VRef 0%nat) A)
           0%nat (sample_hash "a") (sample_hash "a") eq_refl);
    vm_compute; reflexivity.
Defined.

(** ** Objects fresh from a constructor *)

Section BuiltFacts.
Context `{Runtime}.
Import LockableType.

Lemma built_run cls name v st :
  name ∉ base_attributes →
  is_type_slot name = false →
  (o ← alloc cls; __init__ o;; __setattr__ o name v;; mret (VRef o)) st
  = (Ok (VRef (fresh (dom (heap st)))), built_state cls name v st).
Proof.
  intros N S. rewrite (bind_ok _ _ _ _ _ (alloc_run cls st)).
  assert (A : is_Some (heap (alloc_state cls st) !! fresh (dom (heap st))))
    by (rewrite alloc_state_new; eauto).
  erewrite bind_ok
    by (apply init_run; [exact A | apply attr_alloc_state_new..]).
  erewrite bind_ok
    by (apply setattr_unlocked; [apply init_state_locked, A | exact S]).
  rewrite run_ret. unfold built_state. reflexivity.
Qed.

Lemma Symbol_run cls text st :
  Symbols.Symbol cls text st
  = (Ok (VRef (fresh (dom (heap st)))), symbol_state cls text st).
Proof. apply built_run; compute_done. Qed.

Lemma Production_run st :
  Symbols.Production st
  = (Ok (VRef (fresh (dom (heap st)))), production_state st).
Proof. apply built_run; compute_done. Qed.

Lemma built_alive cls name v st x :
  is_Some (heap (built_state cls name v st) !! x)
  ↔ x = fresh (dom (heap st)) ∨ is_Some (heap st !! x).
Proof.
  unfold built_state. rewrite set_attr_alive, init_state_alive.
  unfold alloc_state. simpl.
  destruct (decide (x = fresh (dom (heap st)))) as [->|N].
  - rewrite lookup_insert_eq. split; eauto.
  - rewrite lookup_insert_ne by done. split; [eauto | intros [|]; done].
Qed.

Lemma built_new_alive cls name v st :
  is_Some (heap (built_state cls name v st) !! fresh (dom (heap st))).
Proof. apply built_alive. by left. Qed.


Lemma built_heap_other cls name v st x :
  x ≠ fresh (dom (heap st)) →
  heap (built_state cls name v st) !! x = heap st !! x.
Proof.
  intros N. unfold built_state.
  rewrite heap_set_attr_other, init_state_heap_other by done.
  apply alloc_state_old, N.
Qed.


Lemma built_class cls name v st :
  class_name (built_state cls name v st) (fresh (dom (heap st))) = Some cls.
Proof.
  unfold built_state. rewrite class_name_set_attr, init_state_class.
  unfold class_name. rewrite alloc_state_new. reflexivity.
Qed.

Lemma built_token cls name v st :
  last_token (built_state cls name v st) = last_token st + 1.
Proof.
  unfold built_state. rewrite last_token_set_attr, init_state_token.
  reflexivity.
Qed.

Lemma built_attr cls name v st :
  attr (built_state cls name v st) (fresh (dom (heap st))) name = Some v.
Proof.
  unfold built_state. apply attr_set_attr_eq. rewrite init_state_alive.
  rewrite alloc_state_new. eauto.
Qed.

Lemma built_locked cls name v st :
  name ∉ base_attributes →
  attr (built_state cls name v st) (fresh (dom (heap st))) "locked"
  = Some (VBool false).
Proof.
  intros N. unfold built_state.
  rewrite attr_set_attr_name by (intros <-; apply N; compute_done).
  apply init_state_locked. rewrite alloc_state_new. eauto.
Qed.

Lemma built_hash cls name v st :
  name ∉ base_attributes →
  attr (built_state cls name v st) (fresh (dom (heap st))) "_hash"
  = Some (VInt (last_token st + 1)).
Proof.
  intros N. unfold built_state.
  rewrite attr_set_attr_name by (intros <-; apply N; compute_done).
  rewrite init_state_hash by (rewrite alloc_state_new; eauto).
  reflexivity.
Qed.


End BuiltFacts.

(** ** Equality of lockable values *)

Section HashEquality.
Context `{Runtime}.
Import LockableType.

(** X16.  Between two lockable objects that hold integers as hashes,
    [__eq__] answers whether [hash()] of the two is the same and reads
    nothing else.  Hence two objects built one after the other, each
    holding the token its own [__init__] drew, compare unequal, whatever
    their classes; and two distinct objects locked one after the other
    compare equal exactly when the hashes of their cached renderings are
    equal, whatever their classes. *)
Theorem eq_is_hash_equality :
  (∀ (st : state) (x y : oid) (a b : Z),
     attr st x "_hash" = Some (VInt a) →
     attr st y "_hash" = Some (VInt b) →
     py_hash (VRef x) st = (Ok (slot_hash a), st) ∧
     py_hash (VRef y) st = (Ok (slot_hash b), st) ∧
     __eq__ x (VRef y) st = (Ok (slot_hash a =? slot_hash b), st)) ∧
  (∀ (st : state) (c1 c2 : string),
     0 ≤ last_token st < 2 ^ 62 →
     ((x ← construct c1; y ← construct c2; __eq__ x (VRef y)) st).1 = Ok false) ∧
  (∀ (st st1 st2 : state) (x y : oid),
     x ≠ y →
     attr st x "locked" = Some (VBool false) →
     attr st y "locked" = Some (VBool false) →
     lock x st = (Ok (), st1) →
     lock y st1 = (Ok (), st2) →
     ∃ sx sy kx ky,
       attr st2 x "str" = Some (VStr sx) ∧
       attr st2 y "str" = Some (VStr sy) ∧
       builtin_hash (VStr sx) = Ok kx ∧
       builtin_hash (VStr sy) = Ok ky ∧
       __eq__ x (VRef y) st2 = (Ok (slot_hash kx =? slot_hash ky), st2)).
Proof.
  split; [|split].
  - intros st x y a b Ea Eb.
    split; [apply py_hash_int, Ea|].
    split; [apply py_hash_int, Eb | apply eq_lockable; assumption].
  - intros st c1 c2 R.
    rewrite (bind_ok _ _ _ _ _ (construct_run c1 st)).
    set (x := fresh (dom (heap st))).
    set (s1 := init_state x (alloc_state c1 st)).
    rewrite (bind_ok _ _ _ _ _ (construct_run c2 s1)).
    set (y := fresh (dom (heap s1))).
    set (s2 := init_state y (alloc_state c2 s1)).
    assert (A1 : is_Some (heap s1 !! x)).
    { unfold s1. rewrite init_state_alive. apply alloc_new_alive. }
    assert (N : x ≠ y).
    { intros E. destruct A1 as [ob A1].
      pose proof (fresh_not_alive s1) as F. fold y in F. rewrite <- E in F.
      congruence. }
    assert (Ex : attr s2 x "_hash" = Some (VInt (last_token st + 1))).
    { unfold s2. rewrite init_state_other by done.
      unfold attr. rewrite alloc_state_old by done.
      change (attr s1 x "_hash" = Some (VInt (last_token st + 1))).
      unfold s1. rewrite init_state_hash by apply alloc_new_alive.
      reflexivity. }
    assert (Ey : attr s2 y "_hash" = Some (VInt (last_token st + 2))).
    { unfold s2. rewrite init_state_hash by apply alloc_new_alive.
      rewrite alloc_state_token. unfold s1.
      rewrite init_state_token, alloc_state_token. do 2 f_equal. lia. }
    rewrite (eq_lockable _ _ _ _ _ Ex Ey). cbn [fst].
    rewrite !slot_hash_small by lia. f_equal. lia.
  - intros st st1 st2 x y N Lx Ly E1 E2.
    destruct (lock_ok_inv _ _ _ Lx E1) as (sx & nx & kx & _ & Ekx & ->).
    assert (Ly1 : attr (cache_state x sx nx kx st) y "locked" = Some (VBool false))
      by (rewrite attr_cache_state_other by done; exact Ly).
    destruct (lock_ok_inv _ _ _ Ly1 E2) as (sy & ny & ky & _ & Eky & ->).
    pose proof (attr_alive _ _ _ _ Lx) as Ax.
    pose proof (attr_alive _ _ _ _ Ly) as Ay.
    exists sx, sy, kx, ky.
    split; [rewrite attr_cache_state_other by done;
            by apply attr_cache_state_str|].
    split; [apply attr_cache_state_str; by rewrite cache_state_alive|].
    split; [exact Ekx|]. split; [exact Eky|].
    apply eq_lockable.
    + rewrite attr_cache_state_other by done. by apply attr_cache_state_hash.
    + apply attr_cache_state_hash. by rewrite cache_state_alive.
Qed.

End HashEquality.

Section SymbolEquality.
Context `{SymbolRules}.
Import LockableType.









End SymbolEquality.

(** The sample runtime follows the symbol rules. *)
Lemma str_len_nonneg s : 0 ≤ str_len s.
Proof. induction s as [|c s IH]; simpl; [lia | destruct (is_continuation c); lia]. Qed.

#[global] Instance sample_symbol_rules : @SymbolRules sample_runtime.
Proof.
  split.
  - intros c h o Hc. simpl. unfold sample_str.
    rewrite (bool_decide_eq_true_2 _ Hc : is_symbol_class c = true).
    reflexivity.
  - intros c h o s Hc E B. simpl. unfold sample_len.
    rewrite (bool_decide_eq_true_2 _ Hc : is_symbol_class c = true), E.
    exists (str_len s). split; [reflexivity|].
    split; [apply str_len_nonneg | exact B].
Qed.


(** Equality on the terminal "a" and the non-terminal "a" of one store:
    unlocked they hold the tokens 1 and 2; locked, the hash of "a" both. *)
Lemma eq_is_hash_equality_witness :
  ((x ← construct "Terminal"; y ← construct "NonTerminal";
    LockableType.__eq__ x (VRef y)) empty_state).1 = Ok false ∧
  LockableType.__eq__ 0%nat (VRef 0%nat) sample_locked
    = (Ok (slot_hash (sample_hash "a") =? slot_hash (sample_hash "a")), sample_locked).
Proof.
  destruct (@eq_is_hash_equality sample_runtime) as (A & B & _).
  split.
  - apply (B empty_state "Terminal" "NonTerminal"). cbn. lia.
  - assert (E : attr sample_locked 0%nat "_hash" = Some (VInt (sample_hash "a")))
      by (vm_compute; reflexivity).
    exact (proj2 (proj2 (A sample_locked 0%nat 0%nat _ _ E E))).
Defined.

(** C10.  [x = LockableType(); y = x.new(); x == y]: the copy is another
    object, both are unlocked, and they compare equal, because the copy
    carries the identity token of its source, the one [__init__] stored as
    "An unique identifier for any LockableType object". *)
Lemma unlocked_copy_equals_source :
  let r := compare_with_copy "LockableType" empty_state in
  r.1 = Ok (0%nat, 1%nat, true) ∧
  class_name r.2 0%nat = Some "LockableType" ∧
  class_name r.2 1%nat = Some "LockableType" ∧
  attr r.2 0%nat "locked" = Some (VBool false) ∧
  attr r.2 1%nat "locked" = Some (VBool false) ∧
  attr r.2 0%nat "_hash" = Some (VInt 1) ∧
  attr r.2 1%nat "_hash" = Some (VInt 1).
Proof. vm_compute. repeat split. Qed.

(** ** new() *)

Section CopyFacts.
Context `{Runtime}.
Import LockableType.

Lemma deepcopy_run st o ob :
  heap st !! o = Some ob →
  deepcopy o st = (Ok (fresh (dom (heap st))), deepcopy_state o ob st).
Proof. intros E. unfold deepcopy. rewrite E. reflexivity. Qed.

Lemma copy_others_lookup h memo pairs x :
  (∀ p, p ∈ pairs → p.2 ≠ x) → copy_others h memo pairs !! x = h !! x.
Proof.
  induction pairs as [|p pairs IH]; intros F; [reflexivity|].
  simpl. assert (IH' : copy_others h memo pairs !! x = h !! x).
  { apply IH. intros q Hq. apply F. by right. }
  destruct (h !! p.1); [|exact IH'].
  rewrite lookup_insert_ne by (apply F; by left). exact IH'.
Qed.

Lemma copy_pairs_fresh h o p :
  p ∈ copy_pairs h o → (p.2 ∉ dom h) ∧ (p.2 ≠ fresh (dom h)).
Proof.
  intros Hp. destruct p as [a b]. unfold copy_pairs in Hp.
  apply elem_of_zip_r, fresh_list_is_fresh in Hp. simpl. set_solver.
Qed.

Lemma deepcopy_state_new st o ob :
  heap (deepcopy_state o ob st) !! fresh (dom (heap st))
  = Some (rename_obj (copy_memo (heap st) o) ob).
Proof. unfold deepcopy_state. simpl. apply lookup_insert_eq. Qed.

Lemma deepcopy_state_old st o ob x :
  is_Some (heap st !! x) → heap (deepcopy_state o ob st) !! x = heap st !! x.
Proof.
  intros A. unfold deepcopy_state. simpl.
  assert (D : x ∈ dom (heap st)) by (apply elem_of_dom, A).
  rewrite lookup_insert_ne by (intros <-; exact (is_fresh _ D)).
  apply copy_others_lookup. intros p Hp E.
  apply copy_pairs_fresh in Hp as [Hp _]. rewrite E in Hp. exact (Hp D).
Qed.

Lemma attr_deepcopy_new st o ob name :
  heap st !! o = Some ob →
  attr (deepcopy_state o ob st) (fresh (dom (heap st))) name
  = rename (copy_memo (heap st) o) <$> attr st o name.
Proof.
  intros E. unfold attr. rewrite deepcopy_state_new, E. simpl.
  apply lookup_fmap.
Qed.

Lemma attr_deepcopy_old st o ob x name :
  is_Some (heap st !! x) → attr (deepcopy_state o ob st) x name = attr st x name.
Proof. intros A. unfold attr. rewrite deepcopy_state_old by exact A. reflexivity. Qed.

Lemma unlocked_state_old st c f g k x :
  x ≠ c → heap (unlocked_state c f g k st) !! x = heap st !! x.
Proof.
  intros N. unfold unlocked_state. rewrite !heap_set_attr_other by done.
  reflexivity.
Qed.

Lemma cache_state_old st c s n k x :
  x ≠ c → heap (cache_state c s n k st) !! x = heap st !! x.
Proof.
  intros N. unfold cache_state. rewrite !heap_set_attr_other by done.
  reflexivity.
Qed.

Lemma alive_not_fresh (st : state) x :
  is_Some (heap st !! x) → x ≠ fresh (dom (heap st)).
Proof. intros A ->. rewrite fresh_not_alive in A. by destruct A. Qed.

(** X17.  [new] returns an object that did not exist before and leaves
    every object that existed as it was.  With [unlocked=True] the copy
    comes back unlocked, whatever the source, assignment on it succeeds,
    and apart from the four attributes [unlock()] writes it holds what
    [deepcopy] made of the attributes of the source.  With
    [unlocked=False] the copy of a locked source comes back locked,
    holding what [deepcopy] made of every attribute of the source, the
    cached values among them, [lock()] having returned at once; the copy
    of an unlocked source comes back as [lock()] on the copy leaves it;
    and on any copy that comes back, assignment raises and changes
    nothing. *)
Theorem new_copy (st : state) (o : oid) (b : bool) (f g k : value) :
  attr st o "locked" = Some (VBool b) →
  attr st o "_original_len" = Some f →
  attr st o "_original_str" = Some g →
  attr st o "_original_hash" = Some k →
  let c := fresh (dom (heap st)) in
  heap st !! c = None ∧
  (∃ st', new o true st = (Ok c, st') ∧
          (∀ x, is_Some (heap st !! x) → heap st' !! x = heap st !! x) ∧
          attr st' c "locked" = Some (VBool false) ∧
          (∀ name v, is_type_slot name = false →
                     __setattr__ c name v st' = (Ok (), set_attr c name v st')) ∧
          (∀ name, name ∉ ["locked"; "_len"; "_str"; "_hash"] →
                   attr st' c name
                   = rename (copy_memo (heap st) o) <$> attr st o name)) ∧
  (b = true →
     ∃ st', new o false st = (Ok c, st') ∧
            (∀ name s, attr st o name = Some (VStr s) → attr st' c name = Some (VStr s)) ∧
            (∀ name n, attr st o name = Some (VInt n) → attr st' c name = Some (VInt n)) ∧
            (∀ name, attr st' c name
                     = rename (copy_memo (heap st) o) <$> attr st o name)) ∧
  (b = false →
     ∃ d, deepcopy o st = (Ok c, d) ∧
          attr d c "locked" = Some (VBool false) ∧
          new o false st = (let (r, st') := lock_outcome c d in
                            (match r with Ok _ => Ok c | Raise e => Raise e end, st'))) ∧
  (∀ st', new o false st = (Ok c, st') →
          (∀ x, is_Some (heap st !! x) → heap st' !! x = heap st !! x) ∧
          attr st' c "locked" = Some (VBool true) ∧
          ∀ name v, ∃ e, __setattr__ c name v st' = (Raise e, st')).
Proof.
  intros L F G K c.
  destruct (attr_alive _ _ _ _ L) as [ob E].
  pose proof (deepcopy_run st o ob E) as D. fold c in D.
  set (d := deepcopy_state o ob st) in D.
  set (memo := copy_memo (heap st) o).
  assert (X : ∀ name, attr d c name = rename memo <$> attr st o name)
    by (intros name; apply attr_deepcopy_new, E).
  assert (Old : ∀ x, is_Some (heap st !! x) → heap d !! x = heap st !! x)
    by (intros x; apply deepcopy_state_old).
  assert (NF : ∀ x, is_Some (heap st !! x) → x ≠ c)
    by (intros x; apply alive_not_fresh).
  assert (Ld : attr d c "locked" = Some (VBool b)) by (rewrite X, L; reflexivity).
  assert (Locked : ∀ st', attr st' c "locked" = Some (VBool true) →
            ∀ name v, ∃ e, __setattr__ c name v st' = (Raise e, st')).
  { intros st' L' name v. rewrite (setattr_locked _ _ _ _ L').
    destruct ((r ← __repr__ c; py_str r) st') as [[?|?] ?]; eauto. }
  split; [apply fresh_not_alive|].
  split; [|split; [|split]].
  - (* unlocked=True *)
    unfold new. rewrite (bind_ok _ _ _ _ _ D). destruct b.
    + assert (U : unlock c d
                  = (Ok (), unlocked_state c (rename memo f) (rename memo g)
                              (rename memo k) d)).
      { apply unlock_locked; [exact Ld | rewrite X, F | rewrite X, G | rewrite X, K];
          reflexivity. }
      rewrite (bind_ok _ _ _ _ _ U). eexists. split; [reflexivity|].
      assert (L' : attr (unlocked_state c (rename memo f) (rename memo g)
                           (rename memo k) d) c "locked" = Some (VBool false)).
      { unfold unlocked_state. rewrite !attr_set_attr_name by done.
        apply attr_set_attr_eq. eapply attr_alive, Ld. }
      split; [|split; [exact L'|split]].
      * intros x A. rewrite unlocked_state_old by (apply NF, A). apply Old, A.
      * intros name v S. apply setattr_unlocked; assumption.
      * intros name N. unfold unlocked_state.
        rewrite !attr_set_attr_name
          by (intros ->; apply N; compute_done).
        apply X.
    + rewrite (bind_ok _ _ _ _ _ (unlock_unlocked _ _ Ld)).
      eexists. split; [reflexivity|]. split; [exact Old|].
      split; [exact Ld|]. split; [|intros name _; apply X].
      intros name v S. apply setattr_unlocked; assumption.
  - (* unlocked=False, locked source *)
    intros ->. unfold new. rewrite (bind_ok _ _ _ _ _ D).
    rewrite (bind_ok _ _ _ _ _ (lock_locked _ _ Ld)).
    eexists. split; [reflexivity|]. split; [|split; [|exact X]].
    + intros name s Es. rewrite X, Es. reflexivity.
    + intros name n En. rewrite X, En. reflexivity.
  - (* unlocked=False, unlocked source *)
    intros ->. exists d. split; [exact D|]. split; [exact Ld|].
    unfold new. rewrite (bind_ok _ _ _ _ _ D).
    rewrite run_bind, (lock_unlocked _ _ Ld).
    destruct (lock_outcome c d) as [[[]|e] st']; reflexivity.
  - (* unlocked=False, the copy that comes back *)
    intros st' N. unfold new in N. rewrite (bind_ok _ _ _ _ _ D) in N.
    destruct b.
    + rewrite (bind_ok _ _ _ _ _ (lock_locked _ _ Ld)) in N.
      injection N as <-. split; [exact Old|]. split; [exact Ld|].
      apply Locked, Ld.
    + apply bind_ok_inv in N as ([] & st1 & N1 & N2). injection N2 as <-.
      destruct (lock_ok_inv _ _ _ Ld N1) as (s & n & kk & _ & _ & ->).
      pose proof (attr_alive _ _ _ _ Ld) as Ac.
      assert (L' : attr (cache_state c s n kk d) c "locked" = Some (VBool true))
        by (by apply attr_cache_state_locked).
      split; [|split; [exact L' | apply Locked, L']].
      intros x A. rewrite cache_state_old by (apply NF, A). apply Old, A.
Qed.

End CopyFacts.

(** [new] on the locked terminal "a": both copies are object 1, the first
    unlocked, the second locked with "a" cached. *)
Lemma new_copy_witness :
  attr sample_locked 0%nat "locked" = Some (VBool true) ∧
  (∃ st', LockableType.new 0%nat true sample_locked = (Ok 1%nat, st') ∧
          attr st' 1%nat "locked" = Some (VBool false)) ∧
  (∃ st', LockableType.new 0%nat false sample_locked = (Ok 1%nat, st') ∧
          attr st' 1%nat "str" = Some (VStr "a")).
Proof.
  assert (L : attr sample_locked 0%nat "locked" = Some (VBool true))
    by (vm_compute; reflexivity).
  split; [exact L|].
  destruct (new_copy sample_locked 0%nat true (VMethod M_len 0%nat)
              (VMethod M_str 0%nat) (VInt 1) L)
    as (_ & (s1 & E1 & _ & L1 & _) & T & _); try (vm_compute; reflexivity).
  split.
  - exists s1. split; [exact E1 | exact L1].
  - destruct (T eq_refl) as (s2 & E2 & C2 & _).
    exists s2. split; [exact E2|].
    apply C2. vm_compute. reflexivity.
Defined.

(** C6.  [x = Terminal("a"); x.lock(); c = x.new(unlocked=False)]: the
    copy is another object and it is locked, but its [_str] and [_len] are
    the two functions [lock()] made for [x], and they read the attributes
    of [x].  So after [x.unlock(); x.str = "zzz"] the copy, which nothing
    has touched, renders as "zzz". *)
Lemma locked_copy_shares_cache :
  let r := LockableType.new 0%nat false sample_locked in
  r.1 = Ok 1%nat ∧
  attr r.2 1%nat "locked" = Some (VBool true) ∧
  attr r.2 1%nat "_str" = Some (VClosure L_str 0%nat) ∧
  attr r.2 1%nat "_len" = Some (VClosure L_len 0%nat) ∧
  LockableType.py_str (VRef 1%nat) r.2 = (Ok "a", r.2) ∧
  (render_copy_after_source_changes "Terminal" "a" "zzz" empty_state).1
    = Ok "zzz".
Proof. repeat split; vm_compute; reflexivity. Qed.

(** ** The handlers of the transformer *)

Section TransformerTheorems.
Context `{Runtime}.
Import LockableType Symbols ChomskyGrammarTreeTransformer.

Lemma symbol_state_facts cls text st :
  heap st !! fresh (dom (heap st)) = None ∧
  class_name (symbol_state cls text st) (fresh (dom (heap st))) = Some cls ∧
  attr (symbol_state cls text st) (fresh (dom (heap st))) "text" = Some text ∧
  attr (symbol_state cls text st) (fresh (dom (heap st))) "locked" = Some (VBool false) ∧
  (∀ x, is_Some (heap st !! x) → heap (symbol_state cls text st) !! x = heap st !! x).
Proof.
  unfold symbol_state.
  split; [apply fresh_not_alive|].
  split; [apply built_class|].
  split; [apply built_attr|].
  split; [apply built_locked; compute_done|].
  intros x A. apply built_heap_other, alive_not_fresh, A.
Qed.

Lemma parse_symbol_run _terminal default n st :
  py_len _terminal st = (Ok n, st) →
  _parse_symbol _terminal default st
  = (Ok (VRef (fresh (dom (heap st)))),
     symbol_state "Terminal" (if n =? 0 then VStr default else _terminal) st).
Proof.
  intros E. unfold _parse_symbol. rewrite (bind_ok _ _ _ _ _ E).
  destruct (n =? 0); apply Symbol_run.
Qed.

(** C2.  For every tag of the spec's table of literal meta-characters, with
    its default [d]: the transformer has a handler of that name; given an
    argument whose [len()] is [n], the handler returns a new, unlocked
    [Terminal] whose payload is the argument itself when [n] is not zero
    and the string [d] when [n] is zero; and [d] is one character long. *)
Theorem literal_handler (tag d : string) (arg : value) (n : Z) (st : state) :
  (tag, d) ∈ spec_literal_defaults →
  py_len arg st = (Ok n, st) →
  let o := fresh (dom (heap st)) in
  let payload := if n =? 0 then VStr d else arg in
  str_len d = 1 ∧
  ∃ f st', handler_of tag = Some f ∧
           f arg st = (Ok (VRef o), st') ∧
           heap st !! o = None ∧
           class_name st' o = Some "Terminal" ∧
           attr st' o "text" = Some payload ∧
           attr st' o "locked" = Some (VBool false) ∧
           (∀ x, is_Some (heap st !! x) → heap st' !! x = heap st !! x).
Proof.
  intros Hin E o payload.
  assert (G : ∀ f, f arg st = _parse_symbol arg d st →
            ∃ st', f arg st = (Ok (VRef o), st') ∧
                   heap st !! o = None ∧
                   class_name st' o = Some "Terminal" ∧
                   attr st' o "text" = Some payload ∧
                   attr st' o "locked" = Some (VBool false) ∧
                   (∀ x, is_Some (heap st !! x) → heap st' !! x = heap st !! x)).
  { intros f ->. rewrite (parse_symbol_run _ _ _ _ E).
    eexists. split; [reflexivity|]. apply symbol_state_facts. }
  unfold spec_literal_defaults in Hin.
  repeat (apply elem_of_cons in Hin as [Hin|Hin];
          [injection Hin as -> ->; split; [reflexivity|];
           eexists; edestruct G as [st' G']; [|exists st'; split; [reflexivity | exact G']];
           reflexivity|]).
  by apply elem_of_nil in Hin.
Qed.

Lemma str_each_run children strs st :
  Forall2 (λ c s, py_str c st = (Ok s, st)) children strs →
  str_each children st = (Ok strs, st).
Proof.
  induction 1 as [|c s children strs E _ IH]; [reflexivity|].
  simpl. rewrite (bind_ok _ _ _ _ _ E), (bind_ok _ _ _ _ _ IH). reflexivity.
Qed.

(** C8.  For the tags [terminal] and [non_terminal]: given the list of
    children and the string rendering of each, the handler returns one new,
    unlocked symbol of the matching class whose payload is the renderings
    concatenated in order with nothing between them.  Raw tokens render as
    their own text. *)
Theorem concatenating_handler (tag cls : string) (children : list value)
    (strs : list string) (st : state) :
  (tag, cls) ∈ concatenating_tags →
  Forall2 (λ c s, py_str c st = (Ok s, st)) children strs →
  let o := fresh (dom (heap st)) in
  (∀ ts : list string, Forall2 (λ c s, py_str c st = (Ok s, st)) (VStr <$> ts) ts) ∧
  ∃ f st', handler_of tag = Some f ∧
           f (VList children) st = (Ok (VRef o), st') ∧
           heap st !! o = None ∧
           class_name st' o = Some cls ∧
           attr st' o "text" = Some (VStr (String.concat "" strs)) ∧
           attr st' o "locked" = Some (VBool false) ∧
           (∀ x, is_Some (heap st !! x) → heap st' !! x = heap st !! x).
Proof.
  intros Hin F o. split.
  { intros ts. induction ts; constructor; [reflexivity | assumption]. }
  assert (G : ∀ T, T = Symbol cls →
            ∃ st', _parse_symbols (VList children) T st = (Ok (VRef o), st') ∧
                   heap st !! o = None ∧
                   class_name st' o = Some cls ∧
                   attr st' o "text" = Some (VStr (String.concat "" strs)) ∧
                   attr st' o "locked" = Some (VBool false) ∧
                   (∀ x, is_Some (heap st !! x) → heap st' !! x = heap st !! x)).
  { intros T ->. unfold _parse_symbols. simpl py_iter.
    rewrite run_bind, run_ret. rewrite (bind_ok _ _ _ _ _ (str_each_run _ _ _ F)).
    rewrite Symbol_run. eexists. split; [reflexivity|]. apply symbol_state_facts. }
  unfold concatenating_tags in Hin.
  apply elem_of_cons in Hin as [Hin|Hin].
  { injection Hin as -> ->. destruct (G Terminal eq_refl) as [st' G'].
    exists terminal, st'. split; [reflexivity | exact G']. }
  apply elem_of_cons in Hin as [Hin|Hin].
  { injection Hin as -> ->. destruct (G NonTerminal eq_refl) as [st' G'].
    exists non_terminal, st'. split; [reflexivity | exact G']. }
  by apply elem_of_nil in Hin.
Qed.

End TransformerTheorems.

(** The spec's two scenarios: [epsilon] without token text gives the
    terminal "&", [quote] with the token text "'" gives the terminal "'". *)
Lemma literal_handler_witness :
  (∃ f st', ChomskyGrammarTreeTransformer.handler_of "epsilon" = Some f ∧
            f (VList []) empty_state = (Ok (VRef 0%nat), st') ∧
            class_name st' 0%nat = Some "Terminal" ∧
            attr st' 0%nat "text" = Some (VStr "&")) ∧
  (∃ f st', ChomskyGrammarTreeTransformer.handler_of "quote" = Some f ∧
            f (VStr "'") empty_state = (Ok (VRef 0%nat), st') ∧
            class_name st' 0%nat = Some "Terminal" ∧
            attr st' 0%nat "text" = Some (VStr "'")).
Proof.
  split.
  - destruct (literal_handler "epsilon" "&" (VList []) 0 empty_state)
      as (_ & f & st' & Hf & Hr & _ & Hc & Ht & _);
      [compute_done | reflexivity |].
    exists f, st'. repeat split; assumption.
  - destruct (literal_handler "quote" "'" (VStr "'") 1 empty_state)
      as (_ & f & st' & Hf & Hr & _ & Hc & Ht & _);
      [compute_done | reflexivity |].
    exists f, st'. repeat split; assumption.
Defined.

(** The spec's scenario: the children "a", "b", "c" under [terminal] give
    the one terminal "abc". *)
Lemma concatenating_handler_witness :
  ∃ f st', ChomskyGrammarTreeTransformer.handler_of "terminal" = Some f ∧
           f (VList [VStr "a"; VStr "b"; VStr "c"]) empty_state = (Ok (VRef 0%nat), st') ∧
           class_name st' 0%nat = Some "Terminal" ∧
           attr st' 0%nat "text" = Some (VStr "abc").
Proof.
  destruct (concatenating_handler "terminal" "Terminal"
              [VStr "a"; VStr "b"; VStr "c"] ["a"; "b"; "c"] empty_state)
    as (_ & f & st' & Hf & Hr & _ & Hc & Ht & _).
  - compute_done.
  - repeat constructor.
  - exists f, st'. repeat split; assumption.
Defined.

(** ** production and the tags without a handler *)

Section ProductionTheorems.
Context `{Runtime}.
Import LockableType Symbols ChomskyGrammarTreeTransformer.

Lemma isinstance_Symbol_class st v :
  isinstance_Symbol (heap st) v
  = match v with
    | VRef o => match class_name st o with
                | Some c => bool_decide (c ∈ ["Terminal"; "NonTerminal"])
                | None => false
                end
    | _ => false
    end.
Proof.
  destruct v; try reflexivity. simpl. unfold class_name.
  destruct (heap st !! o); reflexivity.
Qed.

Lemma isinstance_Symbol_set_attr st o name v w :
  isinstance_Symbol (heap (set_attr o name v st)) w = isinstance_Symbol (heap st) w.
Proof.
  rewrite !isinstance_Symbol_class. destruct w; try reflexivity.
  rewrite class_name_set_attr. reflexivity.
Qed.

Lemma add_run st p xs symbol :
  attr st p "symbols" = Some (VList xs) →
  attr st p "locked" = Some (VBool false) →
  add (VRef p) symbol st
  = (Ok (), set_attr p "symbols" (VList (xs ++ [symbol])) st).
Proof.
  intros S L. unfold add.
  rewrite (bind_ok _ _ _ _ _ (getattr_attr _ _ _ _ S)).
  apply setattr_unlocked; [exact L | compute_done].
Qed.

Lemma production_loop_run p h0 items : ∀ st acc,
  attr st p "symbols" = Some (VList acc) →
  attr st p "locked" = Some (VBool false) →
  (∀ v, isinstance_Symbol (heap st) v = isinstance_Symbol h0 v) →
  ∃ st', production_loop (VRef p) items st = (Ok (), st') ∧
         attr st' p "symbols"
           = Some (VList (acc ++ List.filter (isinstance_Symbol h0) items)) ∧
         attr st' p "locked" = Some (VBool false) ∧
         class_name st' p = class_name st p ∧
         (∀ x, x ≠ p → heap st' !! x = heap st !! x).
Proof.
  induction items as [|v items IH]; intros st acc S L I.
  - exists st. simpl. rewrite app_nil_r. repeat split; assumption.
  - simpl production_loop. rewrite run_bind, run_get_heap.
    rewrite I. simpl List.filter.
    destruct (isinstance_Symbol h0 v) eqn:Ev.
    + cbv iota. erewrite bind_ok by (exact (add_run st p acc v S L)).
      pose proof (attr_alive _ _ _ _ S) as A.
      destruct (IH (set_attr p "symbols" (VList (acc ++ [v])) st) (acc ++ [v])%list)
        as (st' & E & S' & L' & C' & O').
      * apply attr_set_attr_eq, A.
      * rewrite attr_set_attr_name by done. exact L.
      * intros w. rewrite isinstance_Symbol_set_attr. apply I.
      * exists st'. split; [exact E|].
        split; [rewrite S', <- app_assoc; reflexivity|].
        split; [exact L'|].
        split; [rewrite C', class_name_set_attr; reflexivity|].
        intros x N. rewrite (O' x N). apply heap_set_attr_other, N.
    + cbv iota. rewrite run_bind, run_ret. apply IH; assumption.
Qed.

(** C3.  For every list of children, [production] returns a new
    [Production], still unlocked, whose symbols are the children that are
    a [Terminal] or a [NonTerminal], in their order; the other children are
    passed over without an error, and no object that existed changes.  For
    the empty list the production has no symbol. *)
Theorem production_keeps_symbols (children : list value) (st : state) :
  let p := fresh (dom (heap st)) in
  (∃ st', production (VList children) st = (Ok (VRef p), st') ∧
          heap st !! p = None ∧
          class_name st' p = Some "Production" ∧
          attr st' p "symbols"
            = Some (VList (List.filter (isinstance_Symbol (heap st)) children)) ∧
          attr st' p "locked" = Some (VBool false) ∧
          (∀ x, is_Some (heap st !! x) → heap st' !! x = heap st !! x)) ∧
  List.filter (isinstance_Symbol (heap st)) [] = [].
Proof.
  intros p. subst p. split; [|reflexivity].
  unfold production. rewrite (bind_ok _ _ _ _ _ (Production_run st)).
  simpl py_iter. rewrite run_bind, run_ret. unfold production_state.
  assert (P : "symbols" ∉ base_attributes) by compute_done.
  pose proof (built_attr "Production" "symbols" (VList []) st) as S.
  pose proof (built_locked "Production" "symbols" (VList []) st P) as L.
  pose proof (built_class "Production" "symbols" (VList []) st) as C.
  pose proof (built_heap_other "Production" "symbols" (VList []) st) as O.
  pose proof (fresh_not_alive st) as F.
  assert (I : ∀ v, isinstance_Symbol
                     (heap (built_state "Production" "symbols" (VList []) st)) v
                   = isinstance_Symbol (heap st) v).
  { intros v. rewrite !isinstance_Symbol_class. destruct v; try reflexivity.
    destruct (decide (o = fresh (dom (heap st)))) as [->|N].
    - rewrite C. unfold class_name at 1. rewrite F. reflexivity.
    - unfold class_name. rewrite (O o N). reflexivity. }
  destruct (production_loop_run _ (heap st) children _ [] S L I)
    as (st' & E & S' & L' & C' & O').
  rewrite (bind_ok _ _ _ _ _ E). exists st'.
  split; [reflexivity|]. split; [exact F|].
  split; [rewrite C'; exact C|]. split; [exact S'|]. split; [exact L'|].
  intros x A. assert (N : x ≠ fresh (dom (heap st))) by (apply alive_not_fresh, A).
  rewrite (O' x N). apply O, N.
Qed.

Lemma transform_tree_unfold data children :
  _transform_tree (VTree data children)
  = (cs ← transform_children children; _call_userfunc data cs).
Proof.
  simpl. unfold mbind, M_bind. f_equal.
  induction children as [|c cs IH]; [reflexivity|].
  simpl. rewrite IH. reflexivity.
Qed.

(** C4, as the code has it.  For every node whose tag names no method of
    the transformer and nothing the visitor inherits, the transformation
    does not raise for the tag: once the children are transformed, the node
    comes back as a tree with the same tag and the transformed children.
    What a child raises is passed on. *)
Theorem unknown_tag_default (tag : string) (children : list value) (st : state) :
  handler_of tag = None →
  tag ∉ helpers →
  inherited tag = None →
  transform (VTree tag children) st
  = match transform_children children st with
    | (Ok cs, st') => (Ok (VTree tag cs), st')
    | (Raise e, st') => (Raise e, st')
    end.
Proof.
  intros Hh Hp Hi. unfold transform. rewrite transform_tree_unfold, run_bind.
  destruct (transform_children children st) as [[cs|e] st']; [|reflexivity].
  unfold _call_userfunc. rewrite Hh, Hi.
  rewrite (bool_decide_eq_false_2 _ Hp). reflexivity.
Qed.

End ProductionTheorems.

(** [production] on a terminal, a token, a production and a non-terminal
    keeps the terminal and the non-terminal. *)
Lemma production_keeps_symbols_witness :
  let st := (ChomskyGrammarTreeTransformer.transform documented_tree empty_state).2 in
  ∃ st', ChomskyGrammarTreeTransformer.production
           (VList [VRef 2%nat; VStr "|"; VRef 4%nat; VRef 0%nat]) st
         = (Ok (VRef 7%nat), st') ∧
         attr st' 7%nat "symbols" = Some (VList [VRef 2%nat; VRef 0%nat]).
Proof.
  intros st.
  destruct (production_keeps_symbols
              [VRef 2%nat; VStr "|"; VRef 4%nat; VRef 0%nat] st)
    as [(st' & E & _ & _ & S & _) _].
  exists st'. split; [exact E | exact S].
Defined.

(** The tag [end_symbol] of the documented tree has no handler. *)
Lemma unknown_tag_default_witness :
  ChomskyGrammarTreeTransformer.transform (VTree "end_symbol" []) empty_state
  = (Ok (VTree "end_symbol" []), empty_state).
Proof.
  apply (unknown_tag_default "end_symbol" [] empty_state);
    [reflexivity | compute_done | reflexivity].
Defined.

(** The documented tree has three tags without a handler, [productions],
    [non_terminals] and [end_symbol]: the transformation raises nothing and
    returns them as tree nodes around the converted productions. *)
Lemma unknown_tag_default_counterexample :
  (ChomskyGrammarTreeTransformer.transform documented_tree empty_state).1
  = Ok (VTree "productions"
          [VRef 1%nat; VTree "non_terminals" [VRef 4%nat; VRef 6%nat];
           VTree "end_symbol" []]).
Proof. vm_compute. reflexivity. Qed.

(** * Further properties of the two files *)

(** ** The life cycle of a lockable object *)

Section LifeCycle.
Context `{Runtime}.
Import LockableType.

Lemma check_len_fixed r n : check_len r = Ok n → check_len (VInt n) = Ok n.
Proof.
  destruct r as [| b | m | | | | | |]; simpl; try discriminate.
  - destruct b; intros [= <-]; reflexivity.
  - destruct (m <? 0) eqn:E1; [discriminate|].
    destruct (maxsize <? m) eqn:E2; [discriminate|].
    intros [= <-]. rewrite E1, E2. reflexivity.
Qed.

Lemma py_len_checked st o n st' :
  py_len (VRef o) st = (Ok n, st') → check_len (VInt n) = Ok n.
Proof.
  simpl. rewrite run_bind. destruct (__len__ o st) as [[r|e] s1]; [|discriminate].
  rewrite run_lift. intros E. apply (check_len_fixed r). congruence.
Qed.

Lemma lock_ok_inv_len st o st' :
  attr st o "locked" = Some (VBool false) →
  lock o st = (Ok (), st') →
  ∃ s n k, builtin_hash (VStr s) = Ok k ∧
           check_len (VInt n) = Ok n ∧
           st' = cache_state o s n k st.
Proof.
  intros L E. rewrite (lock_unlocked _ _ L) in E. unfold lock_outcome in E.
  destruct (py_str (VRef o) st) as [[s|e] st0]; [|discriminate].
  destruct (py_len _ _) as [[n|e] st0'] eqn:El; [|discriminate].
  destruct (builtin_hash (VStr s)) as [k|e] eqn:Ek; [|discriminate].
  exists s, n, k. split; [exact Ek|]. split; [exact (py_len_checked _ _ _ _ El)|].
  injection E as E. symmetry. exact E.
Qed.

(** X1.  [lock()] a second time changes nothing: once it has succeeded, calling
    it again returns at once and leaves the whole store as it is. *)
Theorem lock_idempotent (st st1 : state) (o : oid) (b : bool) :
  attr st o "locked" = Some (VBool b) →
  lock o st = (Ok (), st1) →
  lock o st1 = (Ok (), st1).
Proof.
  intros L E. destruct b.
  - rewrite (lock_locked _ _ L) in E. injection E as <-. apply lock_locked, L.
  - destruct (lock_ok_inv _ _ _ L E) as (s & n & k & _ & _ & ->).
    apply lock_locked, attr_cache_state_locked. eapply attr_alive, L.
Qed.

(** X2.  Before [__init__] has run, an object has no [locked] attribute and the
    guard of [__setattr__] itself fails with [AttributeError], changing
    nothing; [__init__] gets past it by writing [locked] directly first,
    and leaves the object unlocked, with the empty string as [str], with a
    new token both as hash and as original hash, with the methods of the
    class as originals, and every other object as it was. *)
Theorem init_on_new_object (cls : string) (st : state) (name : string) (v : value) :
  let o := fresh (dom (heap st)) in
  let s0 := alloc_state cls st in
  __setattr__ o name v s0 = (Raise AttributeError, s0) ∧
  ∃ s1, __init__ o s0 = (Ok (), s1) ∧
        attr s1 o "locked" = Some (VBool false) ∧
        attr s1 o "str" = Some (VStr "") ∧
        attr s1 o "_hash" = Some (VInt (last_token st + 1)) ∧
        attr s1 o "_original_hash" = Some (VInt (last_token st + 1)) ∧
        attr s1 o "_original_str" = Some (VMethod M_str o) ∧
        attr s1 o "_original_len" = Some (VMethod M_len o) ∧
        last_token s1 = last_token st + 1 ∧
        (∀ x, is_Some (heap st !! x) → heap s1 !! x = heap st !! x).
Proof.
  intros o s0. subst o s0.
  pose proof (alloc_new_alive cls st) as A.
  pose proof (alloc_state_new cls st) as E.
  split.
  - unfold __setattr__, getattr. rewrite run_bind, E. simpl.
    rewrite lookup_empty. reflexivity.
  - exists (init_state (fresh (dom (heap st))) (alloc_state cls st)).
    split; [apply init_run; [exact A | apply attr_alloc_state_new..]|].
    split; [apply init_state_locked, A|].
    assert (A' : ∀ s n w, is_Some (heap s !! fresh (dom (heap st))) →
              is_Some (heap (set_attr (fresh (dom (heap st))) n w s)
                         !! fresh (dom (heap st))))
      by (intros; by rewrite set_attr_alive).
    split.
    { unfold init_state. rewrite !attr_set_attr_name by done. rewrite attr_bump.
      apply attr_set_attr_eq. by do 2 apply A'. }
    split; [rewrite (init_state_hash _ _ A); reflexivity|].
    split.
    { unfold init_state. rewrite alloc_state_token.
      apply attr_set_attr_eq. do 3 apply A'.
      unfold bump. simpl. by do 3 apply A'. }
    split.
    { unfold init_state. rewrite attr_set_attr_name by done.
      apply attr_set_attr_eq. do 2 apply A'.
      unfold bump. simpl. by do 3 apply A'. }
    split.
    { unfold init_state. rewrite !attr_set_attr_name by done.
      apply attr_set_attr_eq. apply A'.
      unfold bump. simpl. by do 3 apply A'. }
    split; [rewrite init_state_token; reflexivity|].
    intros x Ax. rewrite init_state_heap_other by (apply alive_not_fresh, Ax).
    apply alloc_state_old, alive_not_fresh, Ax.
Qed.

(** X3.  A [lock()] that fails.  If rendering raises, [lock()] raises the same
    and nothing has changed.  If rendering succeeds and [len()] raises,
    [lock()] raises the same, the object is still unlocked and keeps its
    hash, but [str] and [_str] have already been overwritten: from then on
    the object renders from the attribute [str]. *)
Theorem lock_failure (st : state) (o : oid) (e : exn) :
  attr st o "locked" = Some (VBool false) →
  (py_str (VRef o) st = (Raise e, st) → lock o st = (Raise e, st)) ∧
  (∀ s, py_str (VRef o) st = (Ok s, st) →
        let st2 := set_attr o "_str" (VClosure L_str o)
                     (set_attr o "str" (VStr s) st) in
        py_len (VRef o) st2 = (Raise e, st2) →
        lock o st = (Raise e, st2) ∧
        attr st2 o "locked" = Some (VBool false) ∧
        attr st2 o "_hash" = attr st o "_hash" ∧
        attr st2 o "str" = Some (VStr s) ∧
        py_str (VRef o) st2 = (Ok s, st2)).
Proof.
  intros L. pose proof (attr_alive _ _ _ _ L) as A. split.
  - intros E. rewrite (lock_unlocked _ _ L). unfold lock_outcome. rewrite E.
    reflexivity.
  - intros s Es st2 El.
    assert (T : attr st2 o "str" = Some (VStr s)).
    { unfold st2. rewrite attr_set_attr_name by done. apply attr_set_attr_eq, A. }
    assert (S : attr st2 o "_str" = Some (VClosure L_str o)).
    { unfold st2. apply attr_set_attr_eq. by rewrite set_attr_alive. }
    split.
    { rewrite (lock_unlocked _ _ L). unfold lock_outcome. rewrite Es.
      fold st2. rewrite El. reflexivity. }
    split; [unfold st2; rewrite !attr_set_attr_name by done; exact L|].
    split; [unfold st2; rewrite !attr_set_attr_name by done; reflexivity|].
    split; [exact T|].
    simpl. unfold __str__.
    rewrite run_bind, (bind_ok _ _ _ _ _ (getattr_attr _ _ _ _ S)).
    simpl call0. rewrite (getattr_attr _ _ _ _ T). reflexivity.
Qed.

(** X4.  [unlock()] on a locked object that has its originals succeeds; it
    writes only [locked], [_len], [_str] and [_hash] of that object, so the
    cached [str] and [len] stay where they are, and after it every
    assignment to the object succeeds again. *)
Theorem unlock_reopens (st : state) (o : oid) (f g k : value) :
  attr st o "locked" = Some (VBool true) →
  attr st o "_original_len" = Some f →
  attr st o "_original_str" = Some g →
  attr st o "_original_hash" = Some k →
  ∃ st', unlock o st = (Ok (), st') ∧
         attr st' o "locked" = Some (VBool false) ∧
         attr st' o "_len" = Some f ∧
         attr st' o "_str" = Some g ∧
         attr st' o "_hash" = Some k ∧
         (∀ name, name ∉ ["locked"; "_len"; "_str"; "_hash"] →
                  attr st' o name = attr st o name) ∧
         (∀ x, x ≠ o → heap st' !! x = heap st !! x) ∧
         (∀ name v, is_type_slot name = false →
                    __setattr__ o name v st' = (Ok (), set_attr o name v st')).
Proof.
  intros L F G K. pose proof (attr_alive _ _ _ _ L) as A.
  exists (unlocked_state o f g k st).
  assert (L' : attr (unlocked_state o f g k st) o "locked" = Some (VBool false)).
  { unfold unlocked_state. rewrite !attr_set_attr_name by done.
    apply attr_set_attr_eq, A. }
  split; [apply unlock_locked; assumption|].
  split; [exact L'|].
  split.
  { unfold unlocked_state. rewrite !attr_set_attr_name by done.
    apply attr_set_attr_eq. by rewrite set_attr_alive. }
  split.
  { unfold unlocked_state. rewrite !attr_set_attr_name by done.
    apply attr_set_attr_eq. by rewrite !set_attr_alive. }
  split.
  { unfold unlocked_state. apply attr_set_attr_eq. by rewrite !set_attr_alive. }
  split.
  { intros name N. unfold unlocked_state.
    rewrite !attr_set_attr_name by (intros ->; apply N; compute_done).
    reflexivity. }
  split.
  { intros x N. unfold unlocked_state. rewrite !heap_set_attr_other by done.
    reflexivity. }
  intros name v S. apply setattr_unlocked; assumption.
Qed.

(** X5.  After a [lock()] that succeeded, [str()], [len()] and [hash()] of the
    object answer from what [lock()] stored: the cached string, the cached
    length, and the hash of the cached string; the rules of the class are
    not consulted. *)
Theorem locked_answers_from_cache (st st1 : state) (o : oid) :
  attr st o "locked" = Some (VBool false) →
  lock o st = (Ok (), st1) →
  ∃ s n k,
    attr st1 o "str" = Some (VStr s) ∧
    attr st1 o "len" = Some (VInt n) ∧
    builtin_hash (VStr s) = Ok k ∧
    py_str (VRef o) st1 = (Ok s, st1) ∧
    py_len (VRef o) st1 = (Ok n, st1) ∧
    py_hash (VRef o) st1 = (Ok (slot_hash k), st1).
Proof.
  intros L E. pose proof (attr_alive _ _ _ _ L) as A.
  destruct (lock_ok_inv_len _ _ _ L E) as (s & n & k & Ek & En & ->).
  pose proof (attr_cache_state_str st o s n k A) as T.
  pose proof (attr_cache_state_len st o s n k A) as N.
  pose proof (attr_cache_state_hash st o s n k A) as K.
  assert (S : attr (cache_state o s n k st) o "_str" = Some (VClosure L_str o)).
  { unfold cache_state. rewrite !attr_set_attr_name by done.
    apply attr_set_attr_eq. by rewrite set_attr_alive. }
  assert (Ln : attr (cache_state o s n k st) o "_len" = Some (VClosure L_len o)).
  { unfold cache_state. rewrite !attr_set_attr_name by done.
    apply attr_set_attr_eq. by rewrite !set_attr_alive. }
  exists s, n, k. split; [exact T|]. split; [exact N|]. split; [exact Ek|].
  split.
  { simpl. unfold __str__.
    rewrite run_bind, (bind_ok _ _ _ _ _ (getattr_attr _ _ _ _ S)).
    simpl call0. rewrite (getattr_attr _ _ _ _ T). reflexivity. }
  split.
  { simpl. unfold __len__.
    rewrite run_bind, (bind_ok _ _ _ _ _ (getattr_attr _ _ _ _ Ln)).
    simpl call0. rewrite (getattr_attr _ _ _ _ N), run_lift, En. reflexivity. }
  apply py_hash_int, K.
Qed.

(** X6.  Between lockable objects that hold integers as hashes, [==] is an
    equivalence: every object equals itself, [x == y] and [y == x] give the
    same answer, and equality passes from [x], [y] and [y], [z] to [x],
    [z]; asking never changes the store. *)
Theorem eq_equivalence (st : state) (x y z : oid) (a b c : Z) :
  attr st x "_hash" = Some (VInt a) →
  attr st y "_hash" = Some (VInt b) →
  attr st z "_hash" = Some (VInt c) →
  __eq__ x (VRef x) st = (Ok true, st) ∧
  __eq__ x (VRef y) st = __eq__ y (VRef x) st ∧
  (__eq__ x (VRef y) st = (Ok true, st) →
   __eq__ y (VRef z) st = (Ok true, st) →
   __eq__ x (VRef z) st = (Ok true, st)).
Proof.
  intros Ea Eb Ec.
  rewrite (eq_lockable _ _ _ _ _ Ea Ea), (eq_lockable _ _ _ _ _ Ea Eb),
    (eq_lockable _ _ _ _ _ Eb Ea), (eq_lockable _ _ _ _ _ Eb Ec),
    (eq_lockable _ _ _ _ _ Ea Ec).
  rewrite Z.eqb_refl, (Z.eqb_sym (slot_hash b)).
  split; [reflexivity|]. split; [reflexivity|].
  intros [= E1] [= E2]. apply Z.eqb_eq in E1, E2.
  rewrite E1, E2, Z.eqb_refl. reflexivity.
Qed.

End LifeCycle.

(** The terminal "a": the second [lock()] finds it locked. *)
Lemma lock_idempotent_witness :
  LockableType.lock 0%nat sample_unlocked = (Ok (), sample_locked) ∧
  LockableType.lock 0%nat sample_locked = (Ok (), sample_locked).
Proof.
  assert (E : LockableType.lock 0%nat sample_unlocked = (Ok (), sample_locked))
    by (vm_compute; reflexivity).
  split; [exact E|].
  apply (lock_idempotent sample_unlocked sample_locked 0%nat false);
    [vm_compute; reflexivity | exact E].
Defined.

(** An object of the base class cannot be rendered, and the store is left
    alone; the terminal "a" whose [_len] is the integer 3 renders, then
    fails on [len()], and is left unlocked with "a" already as [str]. *)
Lemma lock_failure_witness :
  LockableType.lock 0%nat sample_base = (Raise RecursionError, sample_base) ∧
  (LockableType.lock 0%nat sample_bad_len).1 = Raise TypeError ∧
  attr (LockableType.lock 0%nat sample_bad_len).2 0%nat "locked" = Some (VBool false) ∧
  attr (LockableType.lock 0%nat sample_bad_len).2 0%nat "str" = Some (VStr "a").
Proof.
  split.
  - assert (L : attr sample_base 0%nat "locked" = Some (VBool false))
      by (vm_compute; reflexivity).
    assert (E : LockableType.py_str (VRef 0%nat) sample_base
                = (Raise RecursionError, sample_base))
      by (vm_compute; reflexivity).
    exact (proj1 (lock_failure sample_base 0%nat RecursionError L) E).
  - assert (L : attr sample_bad_len 0%nat "locked" = Some (VBool false))
      by (vm_compute; reflexivity).
    assert (Es : LockableType.py_str (VRef 0%nat) sample_bad_len
                 = (Ok "a", sample_bad_len))
      by (vm_compute; reflexivity).
    assert (El : LockableType.py_len (VRef 0%nat)
                   (set_attr 0%nat "_str" (VClosure L_str 0%nat)
                      (set_attr 0%nat "str" (VStr "a") sample_bad_len))
                 = (Raise TypeError,
                    set_attr 0%nat "_str" (VClosure L_str 0%nat)
                      (set_attr 0%nat "str" (VStr "a") sample_bad_len)))
      by (vm_compute; reflexivity).
    destruct (proj2 (lock_failure sample_bad_len 0%nat TypeError L) "a" Es El)
      as (E & L2 & _ & T & _).
    rewrite E. cbn [fst snd]. split; [reflexivity|]. split; [exact L2 | exact T].
Defined.

(** The locked terminal "a" unlocked: the cache "a" stays in [str], and
    the text can be assigned again. *)
Lemma unlock_reopens_witness :
  ∃ st', LockableType.unlock 0%nat sample_locked = (Ok (), st') ∧
         attr st' 0%nat "str" = Some (VStr "a") ∧
         LockableType.__setattr__ 0%nat "text" (VStr "b") st'
           = (Ok (), set_attr 0%nat "text" (VStr "b") st').
Proof.
  assert (L : attr sample_locked 0%nat "locked" = Some (VBool true))
    by (vm_compute; reflexivity).
  assert (F : attr sample_locked 0%nat "_original_len" = Some (VMethod M_len 0%nat))
    by (vm_compute; reflexivity).
  assert (G : attr sample_locked 0%nat "_original_str" = Some (VMethod M_str 0%nat))
    by (vm_compute; reflexivity).
  assert (K : attr sample_locked 0%nat "_original_hash" = Some (VInt 1))
    by (vm_compute; reflexivity).
  assert (T : attr sample_locked 0%nat "str" = Some (VStr "a"))
    by (vm_compute; reflexivity).
  destruct (unlock_reopens sample_locked 0%nat _ _ _ L F G K)
    as (st' & E & _ & _ & _ & _ & P & _ & S).
  exists st'. split; [exact E|]. split.
  - rewrite P by compute_done. exact T.
  - apply S. reflexivity.
Defined.

(** The locked terminal "a" answers "a", 1 and the hash of "a". *)
Lemma locked_answers_from_cache_witness :
  ∃ s n k,
    attr sample_locked 0%nat "str" = Some (VStr s) ∧
    attr sample_locked 0%nat "len" = Some (VInt n) ∧
    builtin_hash (VStr s) = Ok k ∧
    LockableType.py_str (VRef 0%nat) sample_locked = (Ok s, sample_locked) ∧
    LockableType.py_len (VRef 0%nat) sample_locked = (Ok n, sample_locked) ∧
    LockableType.py_hash (VRef 0%nat) sample_locked = (Ok (slot_hash k), sample_locked).
Proof.
  apply (locked_answers_from_cache sample_unlocked sample_locked 0%nat);
    vm_compute; reflexivity.
Defined.

(** The locked terminal "a" and the locked non-terminal "a". *)
Lemma eq_equivalence_witness :
  LockableType.__eq__ 0%nat (VRef 0%nat) sample_pair = (Ok true, sample_pair) ∧
  LockableType.__eq__ 0%nat (VRef 1%nat) sample_pair
    = LockableType.__eq__ 1%nat (VRef 0%nat) sample_pair.
Proof.
  destruct (eq_equivalence sample_pair 0%nat 1%nat 0%nat
              (sample_hash "a") (sample_hash "a") (sample_hash "a"))
    as (R & S & _); try (vm_compute; reflexivity).
  split; [exact R | exact S].
Defined.

(** ** More on the handlers *)

Section HandlerEdges.
Context `{Runtime}.
Import LockableType Symbols ChomskyGrammarTreeTransformer.

(** X8.  [non_terminal_start] on an empty list of children raises
    [IndexError], and the production it had already built stays in the
    store.  On a list whose first child is a terminal or a non-terminal
    it returns a new, unlocked production that holds that symbol and
    nothing else, whatever the children after it are, and leaves the
    objects that existed as they were. *)
Theorem start_symbol_takes_first (st : state) :
  let p := fresh (dom (heap st)) in
  non_terminal_start (VList []) st = (Raise IndexError, production_state st) ∧
  ∀ first rest,
    isinstance_Symbol (heap st) first = true →
    ∃ st', non_terminal_start (VList (first :: rest)) st = (Ok (VRef p), st') ∧
           heap st !! p = None ∧
           class_name st' p = Some "Production" ∧
           attr st' p "symbols" = Some (VList [first]) ∧
           attr st' p "locked" = Some (VBool false) ∧
           (∀ x, is_Some (heap st !! x) → heap st' !! x = heap st !! x).
Proof.
  intros p. subst p. unfold non_terminal_start. split.
  - rewrite (bind_ok _ _ _ _ _ (Production_run st)). reflexivity.
  - intros first rest _.
    rewrite (bind_ok _ _ _ _ _ (Production_run st)).
    simpl py_first. rewrite run_bind, run_ret. unfold production_state.
    assert (P : "symbols" ∉ base_attributes) by compute_done.
    pose proof (built_attr "Production" "symbols" (VList []) st) as S.
    pose proof (built_locked "Production" "symbols" (VList []) st P) as L.
    pose proof (built_class "Production" "symbols" (VList []) st) as C.
    pose proof (built_heap_other "Production" "symbols" (VList []) st) as O.
    pose proof (built_new_alive "Production" "symbols" (VList []) st) as A.
    erewrite bind_ok by (exact (add_run _ _ [] first S L)).
    eexists. split; [reflexivity|].
    split; [apply fresh_not_alive|].
    split; [rewrite class_name_set_attr; exact C|].
    split; [apply attr_set_attr_eq, A|].
    split; [rewrite attr_set_attr_name by done; exact L|].
    intros x Ax. assert (N : x ≠ fresh (dom (heap st))) by (apply alive_not_fresh, Ax).
    rewrite heap_set_attr_other by done. apply O, N.
Qed.

(** X9.  A literal handler whose argument has no length (so [len()] raises)
    raises the same error and builds nothing; that is the case of [None],
    of a number, and of a parser tree, all with [TypeError]. *)
Theorem literal_handler_unsized (tag d : string) (arg : value) (e : exn) (st : state) :
  (tag, d) ∈ spec_literal_defaults →
  py_len arg st = (Raise e, st) →
  (is_sized arg = false → e = TypeError) ∧
  ∃ f, handler_of tag = Some f ∧ f arg st = (Raise e, st).
Proof.
  intros Hin E. split.
  { intros U. destruct arg; try discriminate; simpl in E; unfold raise in E;
      congruence. }
  assert (G : ∀ f, f arg st = _parse_symbol arg d st → f arg st = (Raise e, st)).
  { intros f ->. unfold _parse_symbol. rewrite (bind_raise _ _ _ _ _ E).
    reflexivity. }
  unfold spec_literal_defaults in Hin.
  repeat (apply elem_of_cons in Hin as [Hin|Hin];
          [injection Hin as -> ->; eexists; split; [reflexivity | apply G; reflexivity]|]).
  by apply elem_of_nil in Hin.
Qed.

Lemma append_cons c (a b : string) :
  String.append (String c a) b = String c (String.append a b).
Proof. reflexivity. Qed.

Lemma append_empty_l (b : string) : String.append "" b = b.
Proof. reflexivity. Qed.

Lemma append_empty_r (x : string) : String.append x "" = x.
Proof.
  induction x as [|c x IH]; [reflexivity|].
  rewrite append_cons, IH. reflexivity.
Qed.

Lemma concat_foldr l : String.concat "" l = foldr String.append "" l.
Proof.
  induction l as [|x [|y l] IH]; [reflexivity | |].
  - simpl. rewrite append_empty_r. reflexivity.
  - change (String.concat "" (x :: y :: l))
      with (String.append x (String.append "" (String.concat "" (y :: l)))).
    rewrite IH, append_empty_l. reflexivity.
Qed.

(** Joining the characters of a string gives the string back. *)
Lemma concat_utf8_chars s : String.concat "" (utf8_chars s) = s.
Proof.
  rewrite concat_foldr. induction s as [|c s IH]; [reflexivity|].
  simpl utf8_chars. destruct (utf8_chars s) as [|x xs].
  - simpl in IH. subst s. simpl. rewrite append_empty_r. reflexivity.
  - simpl in IH. destruct (starts_with_continuation x); simpl.
    + rewrite append_cons, IH. reflexivity.
    + rewrite append_cons, append_empty_l, IH. reflexivity.
Qed.

Lemma str_each_tokens (ts : list string) st :
  str_each (VStr <$> ts) st = (Ok ts, st).
Proof.
  induction ts as [|t ts IH]; [reflexivity|].
  simpl. rewrite run_bind, run_ret, (bind_ok _ _ _ _ _ IH). reflexivity.
Qed.

(** X10.  The two concatenating handlers at the edges: without children they
    build the symbol of the empty text, and given one string instead of a
    list they go through its characters and build the symbol of that same
    string. *)
Theorem concatenating_handler_edges (tag cls : string) (s : string) (st : state) :
  (tag, cls) ∈ concatenating_tags →
  ∃ f, handler_of tag = Some f ∧
       f (VList []) st
         = (Ok (VRef (fresh (dom (heap st)))), symbol_state cls (VStr "") st) ∧
       f (VStr s) st
         = (Ok (VRef (fresh (dom (heap st)))), symbol_state cls (VStr s) st).
Proof.
  intros Hin.
  assert (G : ∀ T, T = Symbol cls →
            _parse_symbols (VList []) T st
              = (Ok (VRef (fresh (dom (heap st)))), symbol_state cls (VStr "") st) ∧
            _parse_symbols (VStr s) T st
              = (Ok (VRef (fresh (dom (heap st)))), symbol_state cls (VStr s) st)).
  { intros T ->. unfold _parse_symbols. simpl py_iter. split.
    - rewrite run_bind, run_ret. simpl str_each. rewrite run_bind, run_ret.
      apply Symbol_run.
    - rewrite run_bind, run_ret, (bind_ok _ _ _ _ _ (str_each_tokens _ st)).
      rewrite concat_utf8_chars. apply Symbol_run. }
  unfold concatenating_tags in Hin.
  apply elem_of_cons in Hin as [Hin|Hin].
  { injection Hin as -> ->. exists terminal. split; [reflexivity|].
    apply (G Terminal eq_refl). }
  apply elem_of_cons in Hin as [Hin|Hin].
  { injection Hin as -> ->. exists non_terminal. split; [reflexivity|].
    apply (G NonTerminal eq_refl). }
  by apply elem_of_nil in Hin.
Qed.

Lemma str_each_failure pre c post strs e st :
  Forall2 (λ v s, py_str v st = (Ok s, st)) pre strs →
  py_str c st = (Raise e, st) →
  str_each (pre ++ c :: post) st = (Raise e, st).
Proof.
  induction 1 as [|v s pre strs E _ IH]; intros F.
  - simpl. rewrite (bind_raise _ _ _ _ _ F). reflexivity.
  - simpl. rewrite (bind_ok _ _ _ _ _ E), (bind_raise _ _ _ _ _ (IH F)).
    reflexivity.
Qed.

(** X11.  When a child cannot be rendered, the children before it having been
    rendered, a concatenating handler raises what that child raised,
    builds no symbol and leaves the store as it was; the children after it
    are not looked at. *)
Theorem concatenating_handler_failure (tag cls : string)
    (pre post : list value) (c : value) (strs : list string) (e : exn) (st : state) :
  (tag, cls) ∈ concatenating_tags →
  Forall2 (λ v s, py_str v st = (Ok s, st)) pre strs →
  py_str c st = (Raise e, st) →
  ∃ f, handler_of tag = Some f ∧ f (VList (pre ++ c :: post)) st = (Raise e, st).
Proof.
  intros Hin F E.
  assert (G : ∀ T, _parse_symbols (VList (pre ++ c :: post)) T st = (Raise e, st)).
  { intros T. unfold _parse_symbols. simpl py_iter.
    rewrite run_bind, run_ret.
    rewrite (bind_raise _ _ _ _ _ (str_each_failure _ _ _ _ _ _ F E)).
    reflexivity. }
  unfold concatenating_tags in Hin.
  apply elem_of_cons in Hin as [Hin|Hin].
  { injection Hin as -> ->. exists terminal. split; [reflexivity | apply G]. }
  apply elem_of_cons in Hin as [Hin|Hin].
  { injection Hin as -> ->. exists non_terminal. split; [reflexivity | apply G]. }
  by apply elem_of_nil in Hin.
Qed.

End HandlerEdges.

(** The non-terminal "S" as first child, and a token after it that is
    left aside: the production is object 1 and holds "S" alone. *)
Lemma start_symbol_takes_first_witness :
  let st := (Symbols.NonTerminal (VStr "S") empty_state).2 in
  Symbols.isinstance_Symbol (heap st) (VRef 0%nat) = true ∧
  ∃ st', ChomskyGrammarTreeTransformer.non_terminal_start
           (VList [VRef 0%nat; VStr "x"]) st = (Ok (VRef 1%nat), st') ∧
         attr st' 1%nat "symbols" = Some (VList [VRef 0%nat]).
Proof.
  intros st.
  assert (I : Symbols.isinstance_Symbol (heap st) (VRef 0%nat) = true)
    by (vm_compute; reflexivity).
  split; [exact I|].
  destruct (proj2 (start_symbol_takes_first st) (VRef 0%nat) [VStr "x"] I)
    as (st' & E & _ & _ & S & _).
  match type of E with
  | _ = (Ok (VRef ?p), _) =>
      assert (F : p = 1%nat) by (vm_compute; reflexivity); rewrite F in E, S
  end.
  exists st'. split; [exact E | exact S].
Defined.

(** [None] under [epsilon]: [len( None )] raises [TypeError]. *)
Lemma literal_handler_unsized_witness :
  ∃ f, ChomskyGrammarTreeTransformer.handler_of "epsilon" = Some f ∧
       f VNone empty_state = (Raise TypeError, empty_state).
Proof.
  apply (literal_handler_unsized "epsilon" "&" VNone TypeError empty_state);
    [compute_done | reflexivity].
Defined.

(** [terminal] on no children and on the string "abc". *)
Lemma concatenating_handler_edges_witness :
  ∃ f, ChomskyGrammarTreeTransformer.handler_of "terminal" = Some f ∧
       f (VList []) empty_state
         = (Ok (VRef 0%nat), symbol_state "Terminal" (VStr "") empty_state) ∧
       f (VStr "abc") empty_state
         = (Ok (VRef 0%nat), symbol_state "Terminal" (VStr "abc") empty_state).
Proof.
  apply (concatenating_handler_edges "terminal" "Terminal" "abc" empty_state).
  compute_done.
Defined.

(** A token, an object of the base class (which cannot be rendered) and
    another token under [terminal]. *)
Lemma concatenating_handler_failure_witness :
  ∃ f, ChomskyGrammarTreeTransformer.handler_of "terminal" = Some f ∧
       f (VList [VStr "a"; VRef 0%nat; VStr "b"]) sample_base
         = (Raise RecursionError, sample_base).
Proof.
  apply (concatenating_handler_failure "terminal" "Terminal"
           [VStr "a"] [VStr "b"] (VRef 0%nat) ["a"] RecursionError sample_base).
  - compute_done.
  - repeat constructor.
  - vm_compute. reflexivity.
Defined.

(** ** More on new() *)

Section CopyProperties.
Context `{Runtime}.
Import LockableType.

(** X13.  The unlocked copy carries the identity token of its source: its hash
    is the hash of an unlocked source, and the original hash of a locked
    one; so an unlocked source and its copy, two objects, compare equal. *)
Theorem copy_keeps_token (st : state) (o : oid) (b : bool) (a a0 : Z) (f g : value) :
  attr st o "locked" = Some (VBool b) →
  attr st o "_hash" = Some (VInt a) →
  attr st o "_original_hash" = Some (VInt a0) →
  attr st o "_original_len" = Some f →
  attr st o "_original_str" = Some g →
  let c := fresh (dom (heap st)) in
  ∃ st', new o true st = (Ok c, st') ∧
         c ≠ o ∧
         attr st' c "_hash" = Some (VInt (if b then a0 else a)) ∧
         attr st' c "_original_hash" = Some (VInt a0) ∧
         attr st' o "_hash" = Some (VInt a) ∧
         (b = false → __eq__ o (VRef c) st' = (Ok true, st')).
Proof.
  intros L Ha Ha0 F G c. subst c.
  destruct (attr_alive _ _ _ _ L) as [ob E].
  pose proof (deepcopy_run st o ob E) as D.
  pose proof (λ name, attr_deepcopy_new st o ob name E) as X.
  assert (Ao : is_Some (heap st !! o)) by eauto.
  pose proof (alive_not_fresh st o Ao) as N.
  pose proof (λ name, attr_deepcopy_old st o ob o name Ao) as Y.
  assert (Ld : attr (deepcopy_state o ob st) (fresh (dom (heap st))) "locked"
               = Some (VBool b)) by (rewrite X, L; reflexivity).
  unfold new. rewrite (bind_ok _ _ _ _ _ D). destruct b.
  - erewrite bind_ok.
    2:{ apply unlock_locked; [exact Ld | rewrite X, F | rewrite X, G | rewrite X, Ha0];
          reflexivity. }
    eexists. split; [reflexivity|]. split; [congruence|].
    split.
    { unfold unlocked_state. apply attr_set_attr_eq. rewrite !set_attr_alive.
      eapply attr_alive, Ld. }
    split.
    { unfold unlocked_state. rewrite !attr_set_attr_name by done.
      rewrite X, Ha0. reflexivity. }
    split; [|discriminate].
    unfold unlocked_state. rewrite !attr_set_attr_other by done.
    rewrite Y. exact Ha.
  - rewrite (bind_ok _ _ _ _ _ (unlock_unlocked _ _ Ld)).
    eexists. split; [reflexivity|]. split; [congruence|].
    assert (Hc : attr (deepcopy_state o ob st) (fresh (dom (heap st))) "_hash"
                 = Some (VInt a)) by (rewrite X, Ha; reflexivity).
    assert (Ho : attr (deepcopy_state o ob st) o "_hash" = Some (VInt a))
      by (rewrite Y; exact Ha).
    split; [exact Hc|].
    split; [rewrite X, Ha0; reflexivity|].
    split; [exact Ho|].
    intros _. rewrite (eq_lockable _ _ _ _ _ Ho Hc), Z.eqb_refl. reflexivity.
Qed.

(** X14.  The locked copy of a value that [lock()] has locked keeps the two
    functions [lock()] made for the source, and they still read the
    source: whatever store the two objects are in later, [str()] of the
    copy is the [str] attribute of the source and [len()] of the copy its
    [len] attribute. *)
Theorem locked_copy_reads_source (st : state) (o : oid) :
  attr st o "locked" = Some (VBool true) →
  attr st o "_str" = Some (VClosure L_str o) →
  attr st o "_len" = Some (VClosure L_len o) →
  let c := fresh (dom (heap st)) in
  ∃ st', new o false st = (Ok c, st') ∧
         c ≠ o ∧
         attr st' c "_str" = Some (VClosure L_str o) ∧
         attr st' c "_len" = Some (VClosure L_len o) ∧
         (∀ later s, attr later c "_str" = Some (VClosure L_str o) →
                     attr later o "str" = Some (VStr s) →
                     py_str (VRef c) later = (Ok s, later)) ∧
         (∀ later n, attr later c "_len" = Some (VClosure L_len o) →
                     attr later o "len" = Some (VInt n) →
                     py_len (VRef c) later = (check_len (VInt n), later)).
Proof.
  intros L S Ln c. subst c.
  destruct (attr_alive _ _ _ _ L) as [ob E].
  pose proof (deepcopy_run st o ob E) as D.
  pose proof (λ name, attr_deepcopy_new st o ob name E) as X.
  assert (Ao : is_Some (heap st !! o)) by eauto.
  pose proof (alive_not_fresh st o Ao) as N.
  assert (Ld : attr (deepcopy_state o ob st) (fresh (dom (heap st))) "locked"
               = Some (VBool true)) by (rewrite X, L; reflexivity).
  unfold new. rewrite (bind_ok _ _ _ _ _ D).
  rewrite (bind_ok _ _ _ _ _ (lock_locked _ _ Ld)).
  eexists. split; [reflexivity|]. split; [congruence|].
  split; [rewrite X, S; reflexivity|].
  split; [rewrite X, Ln; reflexivity|].
  split.
  - intros later s Sc So. simpl. unfold __str__.
    rewrite run_bind, (bind_ok _ _ _ _ _ (getattr_attr _ _ _ _ Sc)).
    simpl call0. rewrite (getattr_attr _ _ _ _ So). reflexivity.
  - intros later n Lc Lo. simpl. unfold __len__.
    rewrite run_bind, (bind_ok _ _ _ _ _ (getattr_attr _ _ _ _ Lc)).
    simpl call0. rewrite (getattr_attr _ _ _ _ Lo). reflexivity.
Qed.

Lemma refs_of_member a (l : list value) : VRef a ∈ l → a ∈ refs_of (VList l).
Proof.
  intros Hin. simpl. apply elem_of_union_list. exists {[ a ]}.
  split; [|by apply elem_of_singleton].
  apply list_elem_of_In. apply list_elem_of_In in Hin.
  exact (in_map refs_of l (VRef a) Hin).
Qed.

Lemma successors_attr st o name v :
  attr st o name = Some v → refs_of v ⊆ successors (heap st) o.
Proof.
  unfold attr, successors. destruct (heap st !! o) as [ob|]; [|discriminate].
  simpl. revert name v.
  apply (map_fold_weak_ind
           (λ r (m : gmap string value), ∀ name v, m !! name = Some v → refs_of v ⊆ r)).
  - intros name v E. rewrite lookup_empty in E. discriminate.
  - intros i x m r Hi IH name v E. destruct (decide (name = i)) as [->|N].
    + rewrite lookup_insert_eq in E. injection E as ->. apply union_subseteq_l.
    + rewrite lookup_insert_ne in E by done.
      etrans; [apply (IH _ _ E) | apply union_subseteq_r].
Qed.

Lemma reach_step_successors h (X : gset oid) o :
  o ∈ X → successors h o ⊆ reach_step h X.
Proof.
  intros Hin. unfold reach_step.
  etrans; [|apply union_subseteq_r].
  revert o Hin.
  apply (set_fold_ind_L
           (λ r (Y : gset oid), ∀ x, x ∈ Y → successors h x ⊆ r)).
  - intros x Hx. by apply not_elem_of_empty in Hx.
  - intros x Y r Hx IH y Hy. apply elem_of_union in Hy as [Hy|Hy].
    + apply elem_of_singleton in Hy as ->. apply union_subseteq_l.
    + etrans; [apply (IH y Hy) | apply union_subseteq_r].
Qed.

Lemma reach_n_extensive n h (X : gset oid) : X ⊆ reach_n n h X.
Proof.
  revert X. induction n as [|n IH]; intros X; simpl; [done|].
  etrans; [|apply IH]. unfold reach_step. apply union_subseteq_l.
Qed.

Lemma reachable_successor h o a :
  is_Some (h !! o) → is_Some (h !! a) → a ∈ successors h o → a ∈ reachable h o.
Proof.
  intros Ao Aa Hs. unfold reachable. apply elem_of_filter.
  split; [apply elem_of_dom, Aa|].
  destruct (size h) eqn:Sz.
  { apply map_size_empty_iff in Sz. subst h. destruct Ao as [? Ao].
    rewrite lookup_empty in Ao. discriminate. }
  simpl. apply reach_n_extensive.
  apply (reach_step_successors h {[ o ]} o); [by apply elem_of_singleton | exact Hs].
Qed.

Lemma copy_memo_lookup h o a :
  a ≠ o → a ∈ reachable h o →
  ∃ a', copy_memo h o !! a = Some a' ∧ (a, a') ∈ copy_pairs h o.
Proof.
  intros N R. unfold copy_memo, copy_pairs.
  set (rest := elements (reachable h o ∖ {[ o ]})).
  set (ys := fresh_list (length rest) ({[ fresh (dom h) ]} ∪ dom h)).
  assert (Hin : a ∈ rest).
  { apply elem_of_elements, elem_of_difference. split; [exact R|].
    by rewrite elem_of_singleton. }
  apply list_elem_of_lookup in Hin as [i Hi].
  destruct (lookup_lt_is_Some_2 ys i) as [a' Ha'].
  { unfold ys. rewrite length_fresh_list. eapply lookup_lt_Some, Hi. }
  exists a'.
  assert (P : (a, a') ∈ zip rest ys).
  { apply list_elem_of_lookup. exists i.
    apply lookup_zip_with_Some. exists a, a'. done. }
  split; [|exact P]. rewrite lookup_insert_ne by done.
  apply elem_of_list_to_map_1; [|exact P].
  rewrite fst_zip by (unfold ys; rewrite length_fresh_list; lia).
  apply NoDup_elements.
Qed.

Lemma copy_others_copy h memo pairs a a' ob :
  (a, a') ∈ pairs → NoDup pairs.*2 → h !! a = Some ob →
  copy_others h memo pairs !! a' = Some (rename_obj memo ob).
Proof.
  induction pairs as [|p ps IH]; intros Hin ND E.
  - by apply elem_of_nil in Hin.
  - simpl in ND. apply NoDup_cons in ND as [Np ND].
    apply elem_of_cons in Hin as [<-|Hin].
    + simpl. rewrite E. apply lookup_insert_eq.
    + simpl. assert (Ne : p.2 ≠ a').
      { intros <-. apply Np. apply list_elem_of_fmap. exists (a, p.2). done. }
      destruct (h !! p.1); [rewrite lookup_insert_ne by done|]; apply IH; done.
Qed.

Lemma map_lookup_rename memo (l : list value) i v :
  l !! i = Some v → map (rename memo) l !! i = Some (rename memo v).
Proof.
  revert i. induction l as [|x l IH]; intros [|i] E; try discriminate.
  - injection E as ->. reflexivity.
  - simpl. apply IH, E.
Qed.

(** X15.  [new] copies what the value refers to as well.  When an attribute of
    an unlocked object is a list that holds a reference to another object
    at some position, the same attribute of the copy is a list of the same
    length that holds, at that position, a reference to a new object of
    the same class with the same strings and integers as attributes; the
    object referred to by the source is left as it was. *)
Theorem new_copies_members (st : state) (o a : oid) (name : string)
    (l : list value) (i : nat) :
  attr st o "locked" = Some (VBool false) →
  attr st o name = Some (VList l) →
  l !! i = Some (VRef a) →
  a ≠ o →
  is_Some (heap st !! a) →
  let c := fresh (dom (heap st)) in
  ∃ st' l' a',
    new o true st = (Ok c, st') ∧
    attr st' c name = Some (VList l') ∧
    length l' = length l ∧
    l' !! i = Some (VRef a') ∧
    heap st !! a' = None ∧
    a' ≠ c ∧
    class_name st' a' = class_name st a ∧
    (∀ n s, attr st a n = Some (VStr s) → attr st' a' n = Some (VStr s)) ∧
    (∀ n z, attr st a n = Some (VInt z) → attr st' a' n = Some (VInt z)) ∧
    heap st' !! a = heap st !! a.
Proof.
  intros L Hl Hi N Aa c. subst c.
  destruct (attr_alive _ _ _ _ L) as [ob E].
  destruct Aa as [oa Ea].
  pose proof (deepcopy_run st o ob E) as D.
  pose proof (λ nm, attr_deepcopy_new st o ob nm E) as X.
  assert (Ld : attr (deepcopy_state o ob st) (fresh (dom (heap st))) "locked"
               = Some (VBool false)) by (rewrite X, L; reflexivity).
  assert (Rc : a ∈ reachable (heap st) o).
  { apply reachable_successor; [eauto | eauto |].
    apply (successors_attr st o name (VList l) Hl).
    apply refs_of_member. apply list_elem_of_lookup. eauto. }
  destruct (copy_memo_lookup (heap st) o a N Rc) as (a' & Hm & Hp).
  destruct (copy_pairs_fresh _ _ _ Hp) as [Fd Fy]. simpl in Fd, Fy.
  assert (Hcopy : heap (deepcopy_state o ob st) !! a'
                  = Some (rename_obj (copy_memo (heap st) o) oa)).
  { unfold deepcopy_state. simpl. rewrite lookup_insert_ne by done.
    apply (copy_others_copy _ _ _ a a' oa Hp); [|exact Ea].
    unfold copy_pairs. rewrite snd_zip by (rewrite length_fresh_list; lia).
    apply NoDup_fresh_list. }
  unfold new. rewrite (bind_ok _ _ _ _ _ D).
  rewrite (bind_ok _ _ _ _ _ (unlock_unlocked _ _ Ld)).
  exists (deepcopy_state o ob st), (map (rename (copy_memo (heap st) o)) l), a'.
  split; [reflexivity|].
  split; [rewrite X, Hl; reflexivity|].
  split; [apply length_map|].
  split.
  { rewrite (map_lookup_rename _ _ _ _ Hi). simpl. rewrite Hm. reflexivity. }
  split; [by apply not_elem_of_dom|].
  split; [exact Fy|].
  split.
  { unfold class_name. rewrite Hcopy, Ea. reflexivity. }
  split.
  { intros n s Es. unfold attr in *. rewrite Hcopy. rewrite Ea in Es.
    simpl in *. rewrite lookup_fmap, Es. reflexivity. }
  split.
  { intros n z Ez. unfold attr in *. rewrite Hcopy. rewrite Ea in Ez.
    simpl in *. rewrite lookup_fmap, Ez. reflexivity. }
  apply deepcopy_state_old. eauto.
Qed.

End CopyProperties.

(** The unlocked terminal "a" and its copy, object 1. *)
Lemma copy_keeps_token_witness :
  ∃ st', LockableType.new 0%nat true sample_unlocked = (Ok 1%nat, st') ∧
         attr st' 1%nat "_hash" = Some (VInt 1) ∧
         LockableType.__eq__ 0%nat (VRef 1%nat) st' = (Ok true, st').
Proof.
  assert (L : attr sample_unlocked 0%nat "locked" = Some (VBool false))
    by (vm_compute; reflexivity).
  assert (A : attr sample_unlocked 0%nat "_hash" = Some (VInt 1))
    by (vm_compute; reflexivity).
  assert (A0 : attr sample_unlocked 0%nat "_original_hash" = Some (VInt 1))
    by (vm_compute; reflexivity).
  assert (F : attr sample_unlocked 0%nat "_original_len" = Some (VMethod M_len 0%nat))
    by (vm_compute; reflexivity).
  assert (G : attr sample_unlocked 0%nat "_original_str" = Some (VMethod M_str 0%nat))
    by (vm_compute; reflexivity).
  destruct (copy_keeps_token sample_unlocked 0%nat false 1 1 _ _ L A A0 F G)
    as (st' & E & _ & Hc & _ & _ & Q).
  exists st'. split; [exact E|]. split; [exact Hc | exact (Q eq_refl)].
Defined.

(** The locked terminal "a" and its locked copy, object 1: the copy
    renders through the source. *)
Lemma locked_copy_reads_source_witness :
  ∃ st', LockableType.new 0%nat false sample_locked = (Ok 1%nat, st') ∧
         attr st' 1%nat "_str" = Some (VClosure L_str 0%nat).
Proof.
  assert (L : attr sample_locked 0%nat "locked" = Some (VBool true))
    by (vm_compute; reflexivity).
  assert (S : attr sample_locked 0%nat "_str" = Some (VClosure L_str 0%nat))
    by (vm_compute; reflexivity).
  assert (Ln : attr sample_locked 0%nat "_len" = Some (VClosure L_len 0%nat))
    by (vm_compute; reflexivity).
  destruct (locked_copy_reads_source sample_locked 0%nat L S Ln)
    as (st' & E & _ & Sc & _).
  exists st'. split; [exact E | exact Sc].
Defined.

(** The production 4 of the documented grammar, whose first symbol is the
    terminal 2. *)
Lemma new_copies_members_witness :
  ∃ st' l' a',
    LockableType.new 4%nat true sample_grammar = (Ok 7%nat, st') ∧
    attr st' 7%nat "symbols" = Some (VList l') ∧
    l' !! 0%nat = Some (VRef a') ∧
    heap sample_grammar !! a' = None ∧
    attr st' a' "text" = Some (VStr "a").
Proof.
  assert (L : attr sample_grammar 4%nat "locked" = Some (VBool false))
    by (vm_compute; reflexivity).
  assert (Hl : attr sample_grammar 4%nat "symbols" = Some (VList [VRef 2%nat; VRef 3%nat]))
    by (vm_compute; reflexivity).
  assert (Hi : [VRef 2%nat; VRef 3%nat] !! 0%nat = Some (VRef 2%nat)) by reflexivity.
  assert (N : 2%nat ≠ 4%nat) by discriminate.
  assert (A : is_Some (heap sample_grammar !! 2%nat)) by (vm_compute; eauto).
  assert (T : attr sample_grammar 2%nat "text" = Some (VStr "a"))
    by (vm_compute; reflexivity).
  destruct (new_copies_members sample_grammar 4%nat 2%nat "symbols" _ 0%nat
              L Hl Hi N A)
    as (st' & l' & a' & E & Hs & _ & Hi' & Hn & _ & _ & Ht & _).
  exists st', l', a'.
  split; [exact E|]. split; [exact Hs|]. split; [exact Hi'|].
  split; [exact Hn | apply Ht, T].
Defined.

(** ** A production node over leaves *)

Section EndToEnd.
Context `{Runtime}.
Import LockableType Symbols ChomskyGrammarTreeTransformer.

Lemma transform_children_tokens (ts : list string) st :
  transform_children (VStr <$> ts) st = (Ok (VStr <$> ts), st).
Proof.
  induction ts as [|t ts IH]; [reflexivity|].
  simpl. rewrite run_bind, run_ret, (bind_ok _ _ _ _ _ IH). reflexivity.
Qed.

Lemma transform_leaf spec st :
  spec.1 ∈ ["terminal"; "non_terminal"] →
  _transform_tree (leaf spec) st
  = (Ok (VRef (fresh (dom (heap st)))),
     symbol_state (leaf_class spec.1) (VStr (String.concat "" spec.2)) st).
Proof.
  destruct spec as [tag ts]. intros Hin. cbn [fst snd] in *.
  change (leaf (tag, ts)) with (VTree tag (VStr <$> ts)).
  rewrite transform_tree_unfold.
  rewrite (bind_ok _ _ _ _ _ (transform_children_tokens ts st)).
  assert (G : ∀ T, _parse_symbols (VList (VStr <$> ts)) T st
                   = T (VStr (String.concat "" ts)) st).
  { intros T. unfold _parse_symbols. simpl py_iter.
    rewrite run_bind, run_ret, (bind_ok _ _ _ _ _ (str_each_tokens ts st)).
    reflexivity. }
  apply elem_of_cons in Hin as [->|Hin].
  { change (_call_userfunc "terminal" (VStr <$> ts) st)
      with (_parse_symbols (VList (VStr <$> ts)) Terminal st).
    rewrite G. apply Symbol_run. }
  apply elem_of_cons in Hin as [->|Hin].
  { change (_call_userfunc "non_terminal" (VStr <$> ts) st)
      with (_parse_symbols (VList (VStr <$> ts)) NonTerminal st).
    rewrite G. apply Symbol_run. }
  by apply elem_of_nil in Hin.
Qed.

Lemma symbol_of_leaf_heap st st' o spec :
  heap st' !! o = heap st !! o → symbol_of_leaf st o spec → symbol_of_leaf st' o spec.
Proof.
  intros E. unfold symbol_of_leaf, class_name, attr. rewrite E. done.
Qed.

(** The leaves of a node, transformed: one new symbol each. *)
Lemma transform_leaves specs : ∀ st,
  Forall (λ spec, spec.1 ∈ ["terminal"; "non_terminal"]) specs →
  ∃ st' os,
    transform_children (leaf <$> specs) st = (Ok (VRef <$> os), st') ∧
    Forall2 (symbol_of_leaf st') os specs ∧
    Forall (λ o, heap st !! o = None ∧ is_Some (heap st' !! o)) os ∧
    NoDup os ∧
    (∀ x, is_Some (heap st !! x) → heap st' !! x = heap st !! x).
Proof.
  induction specs as [|spec specs IH]; intros st F.
  - exists st, []. split; [reflexivity|]. repeat split; constructor.
  - apply Forall_cons in F as [Hs F].
    pose proof (transform_leaf spec st Hs) as E1.
    set (o1 := fresh (dom (heap st))) in *.
    set (s1 := symbol_state (leaf_class spec.1) (VStr (String.concat "" spec.2)) st) in *.
    destruct (symbol_state_facts (leaf_class spec.1)
                (VStr (String.concat "" spec.2)) st)
      as (N1 & C1 & T1 & L1 & O1).
    fold o1 s1 in N1, C1, T1, L1, O1.
    assert (A1 : is_Some (heap s1 !! o1)) by (eapply attr_alive, T1).
    destruct (IH s1 F) as (st' & os & E & F2 & Fn & ND & O).
    exists st', (o1 :: os).
    split.
    { change (leaf <$> spec :: specs) with (leaf spec :: (leaf <$> specs)).
      simpl transform_children. unfold leaf at 1.
      change (VTree spec.1 (VStr <$> spec.2)) with (leaf spec).
      rewrite (bind_ok _ _ _ _ _ E1), (bind_ok _ _ _ _ _ E). reflexivity. }
    split.
    { constructor; [|exact F2].
      apply (symbol_of_leaf_heap s1); [apply O, A1 | repeat split; assumption]. }
    split.
    { constructor.
      - split; [exact N1 | rewrite (O _ A1); exact A1].
      - eapply Forall_impl; [exact Fn|]. intros o [No Ao]. split; [|exact Ao].
        destruct (heap st !! o) eqn:Eo; [|reflexivity].
        rewrite <- (O1 o) in Eo by eauto. congruence. }
    split.
    { constructor; [|exact ND]. intros Hin.
      rewrite Forall_forall in Fn. destruct (Fn _ Hin) as [No _].
      destruct A1 as [? A1]. congruence. }
    intros x Ax.
    assert (Ax1 : is_Some (heap s1 !! x)) by (rewrite (O1 x Ax); exact Ax).
    rewrite (O x Ax1). apply O1, Ax.
Qed.

Lemma filter_all {A} (f : A → bool) l :
  Forall (λ x, f x = true) l → List.filter f l = l.
Proof.
  induction 1 as [|x l E _ IH]; [reflexivity|]. simpl. rewrite E, IH. reflexivity.
Qed.

Lemma production_run children st :
  ∃ st', production (VList children) st = (Ok (VRef (fresh (dom (heap st)))), st') ∧
         class_name st' (fresh (dom (heap st))) = Some "Production" ∧
         attr st' (fresh (dom (heap st))) "symbols"
           = Some (VList (List.filter (isinstance_Symbol (heap st)) children)) ∧
         attr st' (fresh (dom (heap st))) "locked" = Some (VBool false) ∧
         (∀ x, is_Some (heap st !! x) → heap st' !! x = heap st !! x).
Proof.
  unfold production. rewrite (bind_ok _ _ _ _ _ (Production_run st)).
  simpl py_iter. rewrite run_bind, run_ret. unfold production_state.
  assert (P : "symbols" ∉ base_attributes) by compute_done.
  pose proof (built_attr "Production" "symbols" (VList []) st) as S.
  pose proof (built_locked "Production" "symbols" (VList []) st P) as L.
  pose proof (built_class "Production" "symbols" (VList []) st) as C.
  pose proof (built_heap_other "Production" "symbols" (VList []) st) as O.
  pose proof (fresh_not_alive st) as F.
  assert (I : ∀ v, isinstance_Symbol
                     (heap (built_state "Production" "symbols" (VList []) st)) v
                   = isinstance_Symbol (heap st) v).
  { intros v. rewrite !isinstance_Symbol_class. destruct v; try reflexivity.
    destruct (decide (o = fresh (dom (heap st)))) as [->|N].
    - rewrite C. unfold class_name at 1. rewrite F. reflexivity.
    - unfold class_name. rewrite (O o N). reflexivity. }
  destruct (production_loop_run _ (heap st) children _ [] S L I)
    as (st' & E & S' & L' & C' & O').
  rewrite (bind_ok _ _ _ _ _ E). exists st'.
  split; [reflexivity|].
  split; [rewrite C'; exact C|]. split; [exact S'|]. split; [exact L'|].
  intros x A. assert (N : x ≠ fresh (dom (heap st))) by (apply alive_not_fresh, A).
  rewrite (O' x N). apply O, N.
Qed.

(** X12.  A [production] node whose children are [terminal] and [non_terminal]
    nodes over raw tokens transforms to one new, unlocked production whose
    symbols are new, distinct, unlocked symbols, one per child and in the
    order of the children, each of the class of its tag and with the
    tokens of its node joined as text; the objects that existed are left
    as they were. *)
Theorem transform_production_of_leaves (specs : list (string * list string))
    (st : state) :
  Forall (λ spec, spec.1 ∈ ["terminal"; "non_terminal"]) specs →
  ∃ st' p os,
    transform (VTree "production" (leaf <$> specs)) st = (Ok (VRef p), st') ∧
    heap st !! p = None ∧
    class_name st' p = Some "Production" ∧
    attr st' p "locked" = Some (VBool false) ∧
    attr st' p "symbols" = Some (VList (VRef <$> os)) ∧
    Forall2 (symbol_of_leaf st') os specs ∧
    NoDup (p :: os) ∧
    Forall (λ o, heap st !! o = None) os ∧
    (∀ x, is_Some (heap st !! x) → heap st' !! x = heap st !! x).
Proof.
  intros F.
  destruct (transform_leaves specs st F) as (s1 & os & E & F2 & Fn & ND & O).
  destruct (production_run (VRef <$> os) s1) as (st' & Ep & Cp & Sp & Lp & Op).
  assert (Al : Forall (λ o, is_Some (heap s1 !! o)) os)
    by (eapply Forall_impl; [exact Fn | by intros o [_ ?]]).
  exists st', (fresh (dom (heap s1))), os.
  split.
  { unfold transform. rewrite transform_tree_unfold, (bind_ok _ _ _ _ _ E).
    exact Ep. }
  split.
  { destruct (heap st !! fresh (dom (heap s1))) eqn:Eo; [|reflexivity].
    rewrite <- (O (fresh (dom (heap s1)))) in Eo by eauto.
    rewrite fresh_not_alive in Eo. discriminate. }
  split; [exact Cp|]. split; [exact Lp|].
  split.
  { rewrite Sp. do 2 f_equal. apply filter_all.
    apply Forall_fmap.
    apply (Forall2_Forall_l _ _ _ _ F2).
    eapply Forall_impl; [exact F|]. intros spec _ o (Hc & _ & _).
    unfold compose. rewrite isinstance_Symbol_class, Hc. unfold leaf_class.
    destruct (String.eqb spec.1 "terminal"); compute_done. }
  split.
  { eapply Forall2_impl; [exact F2|]. intros o spec Ho.
    apply (symbol_of_leaf_heap s1); [|exact Ho].
    apply Op. destruct Ho as (_ & Ht & _). eapply attr_alive, Ht. }
  split.
  { constructor; [|exact ND]. intros Hin.
    rewrite Forall_forall in Al. destruct (Al _ Hin) as [? Ao].
    rewrite fresh_not_alive in Ao. discriminate. }
  split; [eapply Forall_impl; [exact Fn | by intros o [? _]]|].
  intros x Ax.
  assert (Ax1 : is_Some (heap s1 !! x)) by (rewrite (O x Ax); exact Ax).
  rewrite (Op x Ax1). apply O, Ax.
Qed.

End EndToEnd.

(** The production [a A] of the documented grammar, on the empty store:
    the symbols are the objects 0 and 1, the production is object 2. *)
Lemma transform_production_of_leaves_witness :
  ∃ st' p os,
    ChomskyGrammarTreeTransformer.transform
      (VTree "production" [VTree "terminal" [VStr "a"]; VTree "non_terminal" [VStr "A"]])
      empty_state = (Ok (VRef p), st') ∧
    attr st' p "symbols" = Some (VList (VRef <$> os)) ∧
    Forall2 (symbol_of_leaf st') os [("terminal", ["a"]); ("non_terminal", ["A"])].
Proof.
  destruct (transform_production_of_leaves
              [("terminal", ["a"]); ("non_terminal", ["A"])] empty_state)
    as (st' & p & os & E & _ & _ & _ & S & F & _).
  - repeat constructor; compute_done.
  - exists st', p, os. split; [exact E|]. split; [exact S | exact F].
Defined.

(** ** The flag set by hand *)

Section HandLocked.
Context `{Runtime}.
Import LockableType.

(** X7.  Assigning [True] to [locked] on an unlocked object is an assignment
    like any other and succeeds; it caches nothing: the hash stays the one
    the object had, [str], [_str] and [_len] are untouched, and [lock()],
    finding the flag set, returns at once and never computes the caches;
    every later assignment raises and changes nothing. *)
Theorem hand_locked_caches_nothing (st : state) (o : oid) :
  attr st o "locked" = Some (VBool false) →
  let st1 := set_attr o "locked" (VBool true) st in
  __setattr__ o "locked" (VBool true) st = (Ok (), st1) ∧
  (∀ name, name ≠ "locked" → attr st1 o name = attr st o name) ∧
  lock o st1 = (Ok (), st1) ∧
  (∀ name v, ∃ e, __setattr__ o name v st1 = (Raise e, st1)).
Proof.
  intros L st1. pose proof (attr_alive _ _ _ _ L) as A.
  assert (L1 : attr st1 o "locked" = Some (VBool true))
    by (apply attr_set_attr_eq, A).
  split; [apply setattr_unlocked; [exact L | reflexivity]|].
  split; [intros name N; apply attr_set_attr_name, N|].
  split; [apply lock_locked, L1|].
  intros name v. rewrite (setattr_locked _ _ _ _ L1).
  destruct ((r ← __repr__ o; py_str r) st1) as [[?|?] ?]; eauto.
Qed.

End HandLocked.

(** The terminal "a" with the flag set by hand keeps the token 1 as hash. *)
Lemma hand_locked_caches_nothing_witness :
  let st1 := set_attr 0%nat "locked" (VBool true) sample_unlocked in
  LockableType.lock 0%nat st1 = (Ok (), st1) ∧
  attr st1 0%nat "_hash" = Some (VInt 1).
Proof.
  assert (L : attr sample_unlocked 0%nat "locked" = Some (VBool false))
    by (vm_compute; reflexivity).
  assert (K : attr sample_unlocked 0%nat "_hash" = Some (VInt 1))
    by (vm_compute; reflexivity).
  destruct (hand_locked_caches_nothing sample_unlocked 0%nat L) as (_ & P & E & _).
  split; [exact E|]. rewrite P by discriminate. exact K.
Defined.
